(** * The widget layer of ai_diffusion.ui (widget.py)

    A shallow embedding of the value controls, the property setters and the
    model setters of [ai_diffusion/ui/widget.py], and the properties proved
    about them.

    Conventions of the embedding.
    - A Python [float] is an IEEE 754 binary64 number ([spec_float] at
      precision 53), a Python [int] is a [Z].
    - A raised exception is the [Raise] outcome; a chain of signal handlers
      that nests deeper than the interpreter's recursion limit is the
      [RecursionLimit] outcome.  Functions whose handlers can re-enter each
      other take that limit as their [depth] argument.
    - A Qt value control ([QSpinBox], [QSlider], [QDoubleSpinBox]) keeps its
      value inside its range and emits [valueChanged] when, and only when,
      [setValue] changes the value; a [QDoubleSpinBox] rounds what it is
      given to its two decimals first.  The slots this file connects to
      such a signal run synchronously inside [setValue].
    - The connections are kept in a store: the ones the model setters make
      and release, the ones a [ControlWidget] makes, and the ones the
      constructors make to objects outside the dock.
    - Layout, style sheets, icons, labels, progress bars, tool tips and the
      selection of list items are not part of the state. *)

From Stdlib Require Import ZArith List Bool Ascii String Lia SpecFloat Permutation.
Import ListNotations.
Local Open Scope Z_scope.

(** ** Outcomes of Python code *)

Inductive exn : Type :=
| ValueError
| OverflowError
| IndexError
| TypeError.

Inductive result (A : Type) : Type :=
| Ok (a : A)
| Raise (e : exn)
| RecursionLimit.

Arguments Ok {A} a.
Arguments Raise {A} e.
Arguments RecursionLimit {A}.

Definition bind {A B : Type} (r : result A) (k : A -> result B) : result B :=
  match r with
  | Ok a => k a
  | Raise e => Raise e
  | RecursionLimit => RecursionLimit
  end.

Notation "x <- r ;; k" := (bind r (fun x => k))
  (at level 61, r at next level, right associativity).
Notation "' p <- r ;; k" := (bind r (fun x => let p := x in k))
  (at level 61, p pattern, r at next level, right associativity).

(** ** Python numbers *)

Module Py.

Definition prec : Z := 53.
Definition emax : Z := 1024.

Definition float : Type := spec_float.

(** [float(n)] for an [int] *)
Definition of_int (n : Z) : float := binary_normalize prec emax n 0 false.

Definition mul (x y : float) : float := SFmul prec emax x y.
Definition div (x y : float) : float := SFdiv prec emax x y.

(** [a / b] on two ints (true division), for operands below 2^53 *)
Definition truediv (a b : Z) : float := div (of_int a) (of_int b).

Definition eqb (x y : float) : bool := SFeqb x y.
Definition leb (x y : float) : bool := SFleb x y.

(** the integer part and the position of the rest against one half *)
Definition split (m : positive) (e : Z) : Z * comparison :=
  match e with
  | Zneg k =>
      let q := Z.shiftr (Zpos m) (Zpos k) in
      let r := Zpos m - Z.shiftl q (Zpos k) in
      (q, Z.compare (2 * r) (Z.shiftl 1 (Zpos k)))
  | _ => (Z.shiftl (Zpos m) e, Lt)
  end.

Definition signed (s : bool) (n : Z) : Z := if s then - n else n.

(** [int(x)]: truncation towards zero *)
Definition int (x : float) : result Z :=
  match x with
  | S754_zero _ => Ok 0
  | S754_finite s m e => Ok (signed s (fst (split m e)))
  | S754_infinity _ => Raise OverflowError
  | S754_nan => Raise ValueError
  end.

(** [round(x)]: to the nearest integer, ties to even *)
Definition round (x : float) : result Z :=
  match x with
  | S754_zero _ => Ok 0
  | S754_finite s m e =>
      let (q, c) := split m e in
      let up := match c with
                | Lt => false
                | Eq => Z.odd q
                | Gt => true
                end in
      Ok (signed s (if up then q + 1 else q))
  | S754_infinity _ => Raise OverflowError
  | S754_nan => Raise ValueError
  end.

(** [xs[i]], a negative index counting from the end *)
Definition index {A : Type} (xs : list A) (i : Z) : result A :=
  let n := Z.of_nat (List.length xs) in
  let j := if i <? 0 then i + n else i in
  if (j <? 0) || (n <=? j) then Raise IndexError
  else match nth_error xs (Z.to_nat j) with
       | Some a => Ok a
       | None => Raise IndexError
       end.

End Py.

(** ** Qt value controls *)

(** [qBound(min, v, max)] *)
Definition qBound (lo v hi : Z) : Z := Z.max lo (Z.min hi v).

(** [QSpinBox] and [QSlider] share the integer range behaviour. *)
Module IntControl.

Record t : Type := mk { minimum : Z; maximum : Z; value : Z }.

(** a fresh control: range 0..99, value 0 *)
Definition create : t := mk 0 99 0.

Definition setRange (lo hi : Z) (c : t) : t :=
  let hi' := Z.max lo hi in
  mk lo hi' (qBound lo (value c) hi').

Definition setMinimum (lo : Z) (c : t) : t := setRange lo (Z.max (maximum c) lo) c.
Definition setMaximum (hi : Z) (c : t) : t := setRange (Z.min (minimum c) hi) hi c.

(** [setValue], for an argument that fits the C [int] of Qt (PyQt raises
    [OverflowError] for any other): the new control, and whether
    [valueChanged] is emitted *)
Definition setValue (v : Z) (c : t) : t * bool :=
  let v' := qBound (minimum c) v (maximum c) in
  (mk (minimum c) (maximum c) v', negb (v' =? value c)).

End IntControl.

Module QDoubleSpinBox.

Record t : Type := mk { minimum : Py.float; maximum : Py.float; value : Py.float }.

(** A box keeps what it is given rounded to its decimals,
    [QString::number(v, 'f', decimals).toDouble()]: the decimal with that
    many places nearest to the value, a half going away from zero, read
    back as the nearest float.  Both boxes of this file have two decimals
    (the default for [end_spin], [setDecimals(2)] for [factor_input]). *)
Definition round (v : Py.float) : Py.float :=
  match v with
  | S754_finite s m e =>
      let (q, c) := Py.split (m * 100) e in
      let d := match c with Lt => q | _ => q + 1 end in
      match d with
      | Zpos h => SFdiv Py.prec Py.emax (S754_finite s h 0) (Py.of_int 100)
      | _ => S754_zero s
      end
  | _ => v
  end.

Definition bound (lo v hi : Py.float) : Py.float :=
  if Py.leb v lo then lo else if Py.leb hi v then hi else v.

Definition create : t := mk (Py.of_int 0) (Py.truediv 9999 100) (Py.of_int 0).

Definition setRange (lo hi : Py.float) (c : t) : t :=
  mk (round lo) (round hi) (bound (round lo) (value c) (round hi)).

Definition setMinimum (lo : Py.float) (c : t) : t :=
  setRange lo (if Py.leb lo (maximum c) then maximum c else lo) c.
Definition setMaximum (hi : Py.float) (c : t) : t :=
  setRange (if Py.leb (minimum c) hi then minimum c else hi) hi c.

(** [setValue]: the value is rounded, then kept inside the range; the
    new box, and whether [valueChanged] is emitted *)
Definition setValue (v : Py.float) (c : t) : t * bool :=
  let v' := bound (minimum c) (round v) (maximum c) in
  (mk (minimum c) (maximum c) v', negb (Py.eqb v' (value c))).

End QDoubleSpinBox.

(** ** StrengthWidget (widget.py, class StrengthWidget) *)

Module StrengthWidget.

Record t : Type := mk { _slider : IntControl.t; _input : IntControl.t }.

(** the emissions of [value_changed], oldest first *)
Definition emitted : Type := list Py.float.

(** [__init__]: the handlers are connected after the ranges are set *)
Definition init (slider_range : Z * Z) : t :=
  mk (IntControl.setMaximum (snd slider_range)
        (IntControl.setMinimum (fst slider_range) IntControl.create))
     (IntControl.setMaximum 100 (IntControl.setMinimum 1 IntControl.create)).

(** the [value] property: [self._slider.value() / 100] *)
Definition value (w : t) : Py.float := Py.truediv (IntControl.value (_slider w)) 100.

(** [self._slider.setValue(v)], its [valueChanged] going to [notify] *)
Definition slider_setValue (notify : Z -> t -> result (t * emitted)) (v : Z) (w : t)
  : result (t * emitted) :=
  let (s, changed) := IntControl.setValue v (_slider w) in
  let w' := mk s (_input w) in
  if changed then notify (IntControl.value s) w' else Ok (w', []).

(** [self._input.setValue(v)], its [valueChanged] going to [notify] *)
Definition input_setValue (notify : Z -> t -> result (t * emitted)) (v : Z) (w : t)
  : result (t * emitted) :=
  let (i, changed) := IntControl.setValue v (_input w) in
  let w' := mk (_slider w) i in
  if changed then notify (IntControl.value i) w' else Ok (w', []).

Fixpoint notify_changed (depth : nat) (value_ : Z) (w : t) : result (t * emitted) :=
  match depth with
  | O => RecursionLimit
  | S d =>
      '(w1, e1) <- (if negb (IntControl.value (_slider w) =? value_)
                    then slider_setValue (notify_changed d) value_ w
                    else Ok (w, [])) ;;
      '(w2, e2) <- (if negb (IntControl.value (_input w1) =? value_)
                    then input_setValue (notify_changed d) value_ w1
                    else Ok (w1, [])) ;;
      Ok (w2, e1 ++ e2 ++ [value w2])
  end.

(** the setter of [value] *)
Definition set_value (depth : nat) (v : Py.float) (w : t) : result (t * emitted) :=
  if Py.eqb v (value w) then Ok (w, [])
  else
    n <- Py.int (Py.mul v (Py.of_int 100)) ;;
    '(w1, e1) <- slider_setValue (notify_changed depth) n w ;;
    '(w2, e2) <- input_setValue (notify_changed depth) n w1 ;;
    Ok (w2, e1 ++ e2).

(** the user moves the slider, or edits the spin input *)
Definition slider_moved (depth : nat) (v : Z) (w : t) : result (t * emitted) :=
  slider_setValue (notify_changed depth) v w.
Definition input_edited (depth : nat) (v : Z) (w : t) : result (t * emitted) :=
  input_setValue (notify_changed depth) v w.

End StrengthWidget.

(** ** TextPromptWidget (widget.py, class TextPromptWidget) *)

Module TextPromptWidget.

(** [_multi] and [_single] hold the text of the two editors *)
Record t : Type := mk { _line_count : Z; _multi : string; _single : string }.

Definition init (line_count : Z) : t := mk line_count EmptyString EmptyString.

Definition text (w : t) : string :=
  if 1 <? _line_count w then _multi w else _single w.

(** the setter of [text]; the editor's [textChanged] runs
    [notify_text_changed], which emits [text_changed(self.text)] *)
Definition set_text (v : string) (w : t) : t * list string :=
  if String.eqb v (text w) then (w, [])
  else if 1 <? _line_count w
       then let w' := mk (_line_count w) v (_single w) in (w', [text w'])
       else let w' := mk (_line_count w) (_multi w) v in (w', [text w']).

(** the setter of [line_count] *)
Definition set_line_count (v : Z) (w : t) : t * list string :=
  let txt := text w in
  set_text txt (mk v (_multi w) (_single w)).

End TextPromptWidget.

(** ** Style and StyleSelectWidget *)

(** [Style] is declared in the package root; a style is taken as a value
    with its name and file name, compared by [==]. *)
Module Style.
Record t : Type := mk { name : string; filename : string }.
Definition eqb (a b : t) : bool :=
  String.eqb (name a) (name b) && String.eqb (filename a) (filename b).
End Style.

Module QComboBox.

(** the items (text and data), and the current index, -1 for none *)
Record t : Type := mk { items : list (string * string); currentIndex : Z }.

Fixpoint find {A : Type} (p : A -> bool) (xs : list A) (i : Z) : Z :=
  match xs with
  | [] => -1
  | x :: xs' => if p x then i else find p xs' (i + 1)
  end.

Definition findText (s : string) (c : t) : Z :=
  find (fun it => String.eqb (fst it) s) (items c) 0.
Definition findData (s : string) (c : t) : Z :=
  find (fun it => String.eqb (snd it) s) (items c) 0.

(** [setCurrentIndex]: the new box, and whether [currentIndexChanged]
    is emitted *)
Definition setCurrentIndex (i : Z) (c : t) : t * bool :=
  let i' := if (i <? 0) || (Z.of_nat (List.length (items c)) <=? i) then -1 else i in
  (mk (items c) i', negb (i' =? currentIndex c)).

(** [setCurrentText] on a box that is not editable *)
Definition setCurrentText (s : string) (c : t) : t * bool :=
  let i := findText s c in
  if 0 <=? i then setCurrentIndex i c else (c, false).

(** [clear], [addItem] and [insertItem].  An item put into an empty box
    becomes the current one; the current item stays the current one when
    an item is put before it. *)
Definition clear (c : t) : t := mk [] (-1).

Definition insertItem (index : Z) (text data : string) (c : t) : t :=
  let count := Z.of_nat (List.length (items c)) in
  let i := Z.max 0 (Z.min count index) in
  mk (firstn (Z.to_nat i) (items c) ++ (text, data) :: skipn (Z.to_nat i) (items c))
     (if count =? 0 then 0
      else if (0 <=? currentIndex c) && (i <=? currentIndex c) then currentIndex c + 1
      else currentIndex c).

Definition addItem (text data : string) (c : t) : t :=
  insertItem (Z.of_nat (List.length (items c))) text data c.

End QComboBox.

Module StyleSelectWidget.

Record t : Type := mk { _value : Style.t; _styles : list Style.t; _combo : QComboBox.t }.

(** [change_style], the slot of the combo's [currentIndexChanged];
    the list holds the emissions of [value_changed] *)
Definition change_style (w : t) : result (t * list Style.t) :=
  style <- Py.index (_styles w) (QComboBox.currentIndex (_combo w)) ;;
  if negb (Style.eqb style (_value w))
  then Ok (mk style (_styles w) (_combo w), [style])
  else Ok (w, []).

(** [update_styles], with the styles the client supports; the signals of
    the combo are blocked while it runs *)
Definition update_styles (supported : list Style.t) (w : t) : t * list Style.t :=
  let filled :=
    QComboBox.mk (map (fun s => (Style.name s, Style.filename s)) supported)
                 (match supported with [] => -1 | _ => 0 end) in
  if existsb (Style.eqb (_value w)) supported
  then (mk (_value w) supported
           (fst (QComboBox.setCurrentText (Style.name (_value w)) filled)), [])
  else match supported with
       | first :: _ =>
           (mk first supported (fst (QComboBox.setCurrentIndex 0 filled)), [first])
       | [] => (mk (_value w) supported filled, [])
       end.

(** [__init__], with [Styles.list().default] and the supported styles;
    its connections are made by [connect_signals] below *)
Definition init (default : Style.t) (supported : list Style.t) : t :=
  fst (update_styles supported (mk default [] (QComboBox.mk [] (-1)))).

(** the setter of [value] *)
Definition set_value (style : Style.t) (w : t) : result (t * list Style.t) :=
  if negb (Style.eqb style (_value w))
  then
    let (c, changed) := QComboBox.setCurrentText (Style.name style) (_combo w) in
    let w' := mk style (_styles w) c in
    if changed then change_style w' else Ok (w', [])
  else Ok (w, []).

End StyleSelectWidget.

(** ** The strength control of ControlWidget (widget.py, lines 144-151) *)

(** [ControlLayer] is declared in the model module; the part of it a
    [ControlWidget] reads. *)
Module ControlLayer.
Record t : Type := mk { id : nat; strength : Py.float; end_ : Py.float }.
End ControlLayer.

Module StrengthSpin.

(** [lambda x: setattr(control, "strength", x / 100)] *)
Definition inverse (x : Z) : Py.float := Py.truediv x 100.

(** the argument of [setValue] in
    [lambda x: self.strength_spin.setValue(int(x * 100))] *)
Definition forward (x : Py.float) : result Z := Py.int (Py.mul x (Py.of_int 100)).

(** the spin box and the control layer it edits *)
Record t : Type := mk { strength_spin : IntControl.t; control : ControlLayer.t }.

Definition with_strength (v : Py.float) (c : ControlLayer.t) : ControlLayer.t :=
  ControlLayer.mk (ControlLayer.id c) v (ControlLayer.end_ c).

(** [control.strength = v].  The property notifier is the one of spec 4.1:
    an equal value is a no-op, otherwise the value is stored and
    [strength_changed] runs its listener, the second lambda; the
    [valueChanged] of the spin box runs the first lambda. *)
Fixpoint assign_strength (depth : nat) (v : Py.float) (s : t) : result t :=
  match depth with
  | O => RecursionLimit
  | S d =>
      if Py.eqb (ControlLayer.strength (control s)) v then Ok s
      else
        let c := with_strength v (control s) in
        n <- forward v ;;
        let (sb, changed) := IntControl.setValue n (strength_spin s) in
        if changed
        then assign_strength d (inverse (IntControl.value sb)) (mk sb c)
        else Ok (mk sb c)
  end.

(** the user sets the spin box to [n] *)
Definition spin_edited (depth : nat) (n : Z) (s : t) : result t :=
  let (sb, changed) := IntControl.setValue n (strength_spin s) in
  if changed
  then assign_strength depth (inverse (IntControl.value sb)) (mk sb (control s))
  else Ok (mk sb (control s)).

(** [inverse(forward(x))] *)
Definition roundtrip (x : Py.float) : result Py.float :=
  n <- forward x ;; Ok (inverse n).

Definition in_domain (x : Py.float) : bool :=
  Py.leb (Py.of_int 0) x && Py.leb x (Py.of_int 1).

End StrengthSpin.

(** ** Signals and connections *)

Module Qt.

(** the widgets of the dock: the ones held in a field, the
    [ControlWidget]s created on demand, and their children *)
Inductive widget : Type :=
| Top (name : string)
| Created (n : nat)
| Child (parent : widget) (field : string).

Fixpoint widget_eqb (a b : widget) : bool :=
  match a, b with
  | Top x, Top y => String.eqb x y
  | Created x, Created y => Nat.eqb x y
  | Child p x, Child q y => widget_eqb p q && String.eqb x y
  | _, _ => false
  end.

(** the objects whose signals are connected *)
Inductive sender : Type :=
| OfModel (model : nat) (part : string)   (* a model, or the object in one of its attributes *)
| OfControl (layer : nat)                 (* a control layer *)
| OfJobs (queue : nat)                    (* a job queue *)
| OfWidget (w : widget)
| OfGlobal (name : string).               (* settings, root.connection, Styles.list() *)

Definition sender_eqb (a b : sender) : bool :=
  match a, b with
  | OfModel m x, OfModel n y => Nat.eqb m n && String.eqb x y
  | OfControl x, OfControl y => Nat.eqb x y
  | OfJobs x, OfJobs y => Nat.eqb x y
  | OfWidget x, OfWidget y => widget_eqb x y
  | OfGlobal x, OfGlobal y => String.eqb x y
  | _, _ => false
  end.

(** what a signal is connected to: a bound method of a widget, a lambda
    written in a widget's method, or a method or property on the model
    side *)
Inductive slot : Type :=
| Method (receiver : widget) (name : string)
| Lambda (owner : widget) (body : string)
| ModelSlot (receiver : sender) (name : string).

Definition slot_eqb (a b : slot) : bool :=
  match a, b with
  | Method r x, Method q y => widget_eqb r q && String.eqb x y
  | Lambda r x, Lambda q y => widget_eqb r q && String.eqb x y
  | ModelSlot r x, ModelSlot q y => sender_eqb r q && String.eqb x y
  | _, _ => false
  end.

Record connection : Type :=
  mkc { handle : nat; source : sender; signal : string; target : slot }.

(** the connections alive, oldest first, and the counters for fresh
    connection handles and fresh objects *)
Record store : Type :=
  mks { connections : list connection; next_handle : nat; next_object : nat }.

Definition empty : store := mks [] 0 0.

(** [signal.connect(slot)], returning the [QMetaObject.Connection] *)
Definition connect (src : sender) (sig : string) (sl : slot) (st : store) : nat * store :=
  (next_handle st,
   mks (connections st ++ [mkc (next_handle st) src sig sl])
       (S (next_handle st)) (next_object st)).

Definition active (h : nat) (st : store) : bool :=
  existsb (fun c => Nat.eqb (handle c) h) (connections st).

(** [QObject.disconnect(connection)]: [false] when the handle is not
    connected any more *)
Definition disconnect (h : nat) (st : store) : store * bool :=
  (mks (filter (fun c => negb (Nat.eqb (handle c) h)) (connections st))
       (next_handle st) (next_object st),
   active h st).

Definition joins (src : sender) (sig : string) (sl : slot) (c : connection) : bool :=
  sender_eqb (source c) src && String.eqb (signal c) sig && slot_eqb (target c) sl.

(** the connections without the latest one that satisfies [p] *)
Fixpoint release_one (p : connection -> bool) (cs : list connection) : list connection :=
  match cs with
  | [] => []
  | c :: rest =>
      if p c && negb (existsb p rest) then rest else c :: release_one p rest
  end.

(** [signal.disconnect(slot)]: releases one connection of the slot to the
    signal, and raises when there is none *)
Definition disconnect_slot (src : sender) (sig : string) (sl : slot) (st : store)
  : result store :=
  if existsb (joins src sig sl) (connections st)
  then Ok (mks (release_one (joins src sig sl) (connections st))
               (next_handle st) (next_object st))
  else Raise TypeError.

(** a fresh object identity ([JobQueue()], a new [ControlWidget]) *)
Definition fresh (st : store) : nat * store :=
  (next_object st, mks (connections st) (next_handle st) (S (next_object st))).

Fixpoint within (root w : widget) : bool :=
  widget_eqb root w ||
  match w with
  | Child p _ => within root p
  | _ => false
  end.

(** a connection Qt drops with the widget [root]: its sender, or the
    object of its bound method, is [root] or one of its children.  A
    lambda has no receiver object. *)
Definition dropped_with (root : widget) (c : connection) : bool :=
  match source c with
  | OfWidget w => within root w
  | _ => false
  end ||
  match target c with
  | Method r _ => within root r
  | _ => false
  end.

(** [widget.deleteLater()], the deletion taken as done at once *)
Definition deleteLater (root : widget) (st : store) : store :=
  mks (filter (fun c => negb (dropped_with root c)) (connections st))
      (next_handle st) (next_object st).

End Qt.

(** ** The module properties *)

Module Properties.

Inductive Bind : Type := one_way | two_way.

(** an element of a widget's binding list:
    [QMetaObject.Connection | Binding] *)
Inductive entry : Type :=
| Binding (model_connection : nat) (widget_connection : option nat)
| Connection (c : nat).

Definition handles (e : entry) : list nat :=
  match e with
  | Binding m (Some w) => [m; w]
  | Binding m None => [m]
  | Connection c => [c]
  end.

(** Modelled from the spec: [Binding.disconnect] of the module
    [properties], which is not in the file set.  It removes both
    subscriptions; a second call is safe (spec 4.2). *)
Definition disconnect (e : entry) (st : Qt.store) : Qt.store :=
  fold_left (fun s h => fst (Qt.disconnect h s)) (handles e) st.

(** the uniform disconnect of an entry, and whether it failed: a raw
    handle that was released before fails (spec 7), a binding does not *)
Definition disconnect_entry (e : entry) (st : Qt.store) : Qt.store * bool :=
  match e with
  | Binding _ _ => (disconnect e st, false)
  | Connection c => let (st', was) := Qt.disconnect c st in (st', negb was)
  end.

(** Modelled from the spec: [Binding.disconnect_all] of the module
    [properties], which is not in the file set.  It calls disconnect on
    every element, goes on after a failure, and tells the caller which
    elements failed (spec 4.3).  The result lists the calls made, in
    order, each with its failure flag. *)
Fixpoint disconnect_all (bindings : list entry) (st : Qt.store)
  : Qt.store * list (entry * bool) :=
  match bindings with
  | [] => (st, [])
  | e :: rest =>
      let (st1, failed) := disconnect_entry e st in
      let (st2, log) := disconnect_all rest st1 in
      (st2, (e, failed) :: log)
  end.

(** Modelled from the spec: [bind] of the module [properties], which is
    not in the file set.  It subscribes to the change notifier of the
    source property and, two-way, to the change signal of the target
    property (spec 4.2).  The initial write of the target is made by the
    caller below, with the setter of the target. *)
Definition bind (src : Qt.sender) (prop : string) (tgt : Qt.widget) (tprop : string)
    (mode : Bind) (st : Qt.store) : entry * Qt.store :=
  let (m, st1) :=
    Qt.connect src (prop ++ "_changed") (Qt.Method tgt ("set " ++ tprop)) st in
  match mode with
  | one_way => (Binding m None, st1)
  | two_way =>
      let (w, st2) :=
        Qt.connect (Qt.OfWidget tgt) (tprop ++ "_changed")
                   (Qt.ModelSlot src ("set " ++ prop)) st1 in
      (Binding m (Some w), st2)
  end.

(** Modelled from the spec: [bind_widget] of the module [properties]: the
    variant for a widget given by its change signal and its setter
    (spec 6). *)
Definition bind_widget (src : Qt.sender) (prop : string) (tgt : Qt.widget)
    (sig setter : string) (st : Qt.store) : entry * Qt.store :=
  let (m, st1) := Qt.connect src (prop ++ "_changed") (Qt.Method tgt setter) st in
  let (w, st2) :=
    Qt.connect (Qt.OfWidget tgt) sig (Qt.ModelSlot src ("set " ++ prop)) st1 in
  (Binding m (Some w), st2).

(** Modelled from the spec: [bind_combo] of the module [properties]: the
    variant for a selection control (spec 6). *)
Definition bind_combo (src : Qt.sender) (prop : string) (combo : Qt.widget)
    (st : Qt.store) : entry * Qt.store :=
  bind_widget src prop combo "currentIndexChanged" "setCurrentIndex" st.

End Properties.

(** ** Jobs and models

    The classes below are declared in the modules [jobs], [model] and
    [connection], which are not in the file set; each is given with the
    members and attributes this file uses. *)

Module JobState.
Inductive t : Type := queued | executing | finished | other (tag : nat).
Definition eqb (a b : t) : bool :=
  match a, b with
  | queued, queued | executing, executing | finished, finished => true
  | other x, other y => Nat.eqb x y
  | _, _ => false
  end.
End JobState.

Module JobKind.
Inductive t : Type := diffusion | other (tag : nat).
Definition eqb (a b : t) : bool :=
  match a, b with
  | diffusion, diffusion => true
  | other x, other y => Nat.eqb x y
  | _, _ => false
  end.
End JobKind.

Module Workspace.
Inductive t : Type := generation | upscaling | live.
End Workspace.

Module ConnectionState.
Inductive t : Type := disconnected | connecting | connected | error.
End ConnectionState.

Module Bounds.
Record t : Type := mk { x : Z; y : Z; width : Z; height : Z }.
Definition eqb (a b : t) : bool :=
  (x a =? x b) && (y a =? y b) && (width a =? width b) && (height a =? height b).
End Bounds.

(** an image, known by its identity *)
Definition Image : Type := nat.

Module Job.
Record t : Type := mk {
  id : string;
  kind : JobKind.t;
  state : JobState.t;
  prompt : string;
  bounds : Bounds.t;
  timestamp : nat * nat;       (* hour and minute *)
  results : list Image }.
End Job.

Module JobQueue.
Record t : Type := mk { id : nat; jobs : list Job.t }.
End JobQueue.

Module Model.

Record upscale_t : Type := mku {
  upscaler : string;
  factor : Py.float;
  use_diffusion : bool;
  upscale_strength : Py.float }.

Record live_t : Type := mkl { live_strength : Py.float; seed : Z }.

Record t : Type := mk {
  id : nat;
  workspace : Workspace.t;
  style : Style.t;
  prompt : string;
  negative_prompt : string;
  strength : Py.float;
  jobs : JobQueue.t;
  control : list ControlLayer.t;
  upscale : upscale_t;
  live : live_t }.

Definition with_factor (v : Py.float) (m : t) : t :=
  mk (id m) (workspace m) (style m) (prompt m) (negative_prompt m) (strength m)
     (jobs m) (control m)
     (mku (upscaler (upscale m)) v (use_diffusion (upscale m))
          (upscale_strength (upscale m)))
     (live m).

End Model.

(** ** QueueWidget *)

Module QueueWidget.

Record t : Type := mk { self : Qt.widget; _jobs : nat }.

Definition update_slot (w : Qt.widget) : Qt.slot := Qt.Method w "_update".

(** [__init__]: a queue of its own, and its [count_changed] connected *)
Definition init (self_ : Qt.widget) (st : Qt.store) : t * Qt.store :=
  let (q, st1) := Qt.fresh st in
  let (_, st2) := Qt.connect (Qt.OfJobs q) "count_changed" (update_slot self_) st1 in
  (mk self_ q, st2).

(** the setter of [jobs] *)
Definition set_jobs (jobs : JobQueue.t) (w : t) (st : Qt.store) : result (t * Qt.store) :=
  st1 <- Qt.disconnect_slot (Qt.OfJobs (_jobs w)) "count_changed" (update_slot (self w)) st ;;
  let (_, st2) :=
    Qt.connect (Qt.OfJobs (JobQueue.id jobs)) "count_changed" (update_slot (self w)) st1 in
  Ok (mk (self w) (JobQueue.id jobs), st2).

End QueueWidget.

(** ** HistoryWidget *)

Module HistoryWidget.

(** a list item: the header of a group of results, or one result *)
Inductive item : Type :=
| Header (text : string) (job_id : string) (tooltip : string)
| Preview (icon : Image) (job_id : string) (index : Z) (tooltip : string).

Record scrollbar : Type := mksb { isVisible : bool; value : Z; maximum : Z }.

Record t : Type := mk {
  self : Qt.widget;
  _jobs : nat;
  _connections : list Properties.entry;
  _last_prompt : option string;
  _last_bounds : option Bounds.t;
  items : list item;
  verticalScrollBar : scrollbar }.

Definition init (self_ : Qt.widget) (st : Qt.store) : t * Qt.store :=
  let (q, st1) := Qt.fresh st in
  (mk self_ q [] None None [] (mksb false 0 0), st1).

Definition digit (n : nat) : string :=
  String (Ascii.ascii_of_nat (48 + n)) EmptyString.
Definition two_digits (n : nat) : string :=
  (digit ((n / 10) mod 10) ++ digit (n mod 10))%string.
(** [f"{timestamp:%H:%M}"] *)
Definition hour_minute (ts : nat * nat) : string :=
  (two_digits (fst ts) ++ ":" ++ two_digits (snd ts))%string.

Definition newline : string := String (Ascii.ascii_of_nat 10) EmptyString.

Definition differs {A : Type} (eqb : A -> A -> bool) (last : option A) (v : A) : bool :=
  match last with
  | Some l => negb (eqb l v)
  | None => true
  end.

(** the items of [job.results], numbered from [i] *)
Fixpoint previews (job : Job.t) (i : Z) (imgs : list Image) : list item :=
  match imgs with
  | [] => []
  | img :: rest =>
      Preview img (Job.id job) i
        (Job.prompt job ++ newline ++ "Click to toggle preview, double-click to apply.")
      :: previews job (i + 1) rest
  end.

Definition add (job : Job.t) (w : t) : t :=
  if negb (JobState.eqb (Job.state job) JobState.finished)
     || negb (JobKind.eqb (Job.kind job) JobKind.diffusion)
  then w
  else
    let w1 :=
      if differs String.eqb (_last_prompt w) (Job.prompt job)
         || differs Bounds.eqb (_last_bounds w) (Job.bounds job)
      then
        let prompt := if negb (String.eqb (Job.prompt job) "")
                      then Job.prompt job else "<no prompt>"%string in
        let header :=
          Header (hour_minute (Job.timestamp job) ++ " - " ++ prompt)
                 (Job.id job) (Job.prompt job) in
        mk (self w) (_jobs w) (_connections w)
           (Some (Job.prompt job)) (Some (Job.bounds job))
           (items w ++ [header]) (verticalScrollBar w)
      else w in
    let w2 :=
      mk (self w1) (_jobs w1) (_connections w1) (_last_prompt w1) (_last_bounds w1)
         (items w1 ++ previews job 0 (Job.results job)) (verticalScrollBar w1) in
    let sb := verticalScrollBar w2 in
    if isVisible sb && (maximum sb - 4 <=? value sb)
    then mk (self w2) (_jobs w2) (_connections w2) (_last_prompt w2) (_last_bounds w2)
            (items w2) (mksb (isVisible sb) (maximum sb) (maximum sb))
    else w2.

Definition is_finished (job : Job.t) : bool :=
  JobKind.eqb (Job.kind job) JobKind.diffusion
  && JobState.eqb (Job.state job) JobState.finished.

(** [rebuild], for the queue the widget holds *)
Definition rebuild (jobs : JobQueue.t) (w : t) : t :=
  let cleared :=
    mk (self w) (_jobs w) (_connections w) (_last_prompt w) (_last_bounds w)
       [] (verticalScrollBar w) in
  fold_left (fun acc job => add job acc) (filter is_finished (JobQueue.jobs jobs)) cleared.

(** the setter of [jobs]; the selection of the items is not part of the
    state, so [update_selection] leaves it as it is *)
Definition set_jobs (jobs : JobQueue.t) (w : t) (st : Qt.store) : t * Qt.store :=
  let (st0, _) := Properties.disconnect_all (_connections w) st in
  let q := Qt.OfJobs (JobQueue.id jobs) in
  let (c1, st1) := Qt.connect q "selection_changed" (Qt.Method (self w) "update_selection") st0 in
  let (c2, st2) := Qt.connect (Qt.OfWidget (self w)) "itemSelectionChanged"
                              (Qt.Method (self w) "select_item") st1 in
  let (c3, st3) := Qt.connect q "job_finished" (Qt.Method (self w) "add") st2 in
  let w1 :=
    mk (self w) (JobQueue.id jobs)
       [Properties.Connection c1; Properties.Connection c2; Properties.Connection c3]
       (_last_prompt w) (_last_bounds w) (items w) (verticalScrollBar w) in
  (rebuild jobs w1, st3).

(** [item.data(UserRole)], [item.data(UserRole + 1)], [item.text()] and
    [item.data(ToolTipRole)].  A header has no data in the role
    [UserRole + 1]; a preview is made with the text [None], which reads
    as the empty string. *)
Definition job_of (it : item) : string :=
  match it with
  | Header _ j _ => j
  | Preview _ j _ _ => j
  end.

Definition index_of (it : item) : option Z :=
  match it with
  | Header _ _ _ => None
  | Preview _ _ i _ => Some i
  end.

Definition text_of (it : item) : string :=
  match it with
  | Header text _ _ => text
  | Preview _ _ _ _ => ""%string
  end.

Definition tooltip_of (it : item) : string :=
  match it with
  | Header _ _ tip => tip
  | Preview _ _ _ tip => tip
  end.

Definition item_info (it : item) : string * option Z := (job_of it, index_of it).

(** [next((job.id for job in jobs if self.is_finished(job)), None)] *)
Fixpoint first_finished (jobs : list Job.t) : option string :=
  match jobs with
  | [] => None
  | job :: rest => if is_finished job then Some (Job.id job) else first_finished rest
  end.

(** [id != first_id], of a job id and the optional id above *)
Definition other_id (id_ : string) (first_id : option string) : bool :=
  match first_id with
  | Some f => negb (String.eqb id_ f)
  | None => true
  end.

(** the loop of [prune]: [takeItem(0)] while there is an item and the
    first one belongs to another job *)
Fixpoint take_others (first_id : option string) (its : list item) : list item :=
  match its with
  | [] => []
  | it :: rest =>
      if other_id (job_of it) first_id then take_others first_id rest else its
  end.

Definition prune (jobs : JobQueue.t) (w : t) : t :=
  mk (self w) (_jobs w) (_connections w) (_last_prompt w) (_last_bounds w)
     (take_others (first_finished (JobQueue.jobs jobs)) (items w))
     (verticalScrollBar w).

(** [handle_preview_click]: the text of the clipboard after the click *)
Definition handle_preview_click (it : item) (clipboard : string) : string :=
  if negb (String.eqb (text_of it) "")
     && negb (String.eqb (text_of it) "<no prompt>")
  then tooltip_of it
  else clipboard.

End HistoryWidget.

(** ** Strings of Python *)

Module Str.

(** the text before the first [sep], and the text after it if [sep]
    occurs *)
Fixpoint partition (sep : Ascii.ascii) (s : string) : string * option string :=
  match s with
  | EmptyString => (EmptyString, None)
  | String c rest =>
      if Ascii.eqb c sep then (EmptyString, Some rest)
      else let (head, tail) := partition sep rest in (String c head, tail)
  end.

(** [s.split(sep, maxsplit)], for a separator of one character *)
Fixpoint split (sep : Ascii.ascii) (maxsplit : nat) (s : string) : list string :=
  match maxsplit with
  | O => [s]
  | S n =>
      match partition sep s with
      | (head, Some rest) => head :: split sep n rest
      | (head, None) => [head]
      end
  end.

(** [s[:-1]] *)
Fixpoint drop_last (s : string) : string :=
  match s with
  | EmptyString => EmptyString
  | String c rest =>
      match rest with
      | EmptyString => EmptyString
      | String _ _ => String c (drop_last rest)
      end
  end.

(** [s.removesuffix(suffix)] *)
Fixpoint removesuffix (suffix s : string) : string :=
  if String.eqb s suffix then EmptyString
  else match s with
       | EmptyString => EmptyString
       | String c rest => String c (removesuffix suffix rest)
       end.

(** [c in s] *)
Fixpoint contains (c : Ascii.ascii) (s : string) : bool :=
  match s with
  | EmptyString => false
  | String x rest => Ascii.eqb x c || contains c rest
  end.

End Str.

(** ** ControlWidget and ControlListWidget *)

Module ControlWidget.

Record t : Type := mk {
  self : Qt.widget;
  _model : nat;
  _control : nat;
  strength_spin : IntControl.t;
  end_spin : QDoubleSpinBox.t }.

(** [__init__(model, control, parent)]: the two spin boxes, and the
    connections in the order the constructor makes them.  The bindings
    the constructor gets from [bind_combo] and [bind_widget] are not
    kept anywhere. *)
Definition init (model : Model.t) (control : ControlLayer.t) (st : Qt.store)
  : result (t * Qt.store) :=
  let (n, st) := Qt.fresh st in
  let me := Qt.Created n in
  let layer := Qt.OfControl (ControlLayer.id control) in
  let (_, st) := Properties.bind_combo layer "mode" (Qt.Child me "mode_select") st in
  let (_, st) := Properties.bind_combo layer "layer_id" (Qt.Child me "layer_select") st in
  let (_, st) := Qt.connect (Qt.OfModel (Model.id model) "image_layers") "changed"
                            (Qt.Method me "_update_layers") st in
  let (_, st) := Qt.connect layer "has_active_job_changed"
                            (Qt.Lambda me "self.layer_select.setEnabled(not x)") st in
  let (_, st) := Qt.connect (Qt.OfWidget (Qt.Child me "generate_button")) "clicked"
                            (Qt.ModelSlot layer "generate") st in
  let (_, st) := Qt.connect layer "has_active_job_changed"
                            (Qt.Lambda me "self.generate_button.setEnabled(not x)") st in
  let (_, st) := Qt.connect (Qt.OfWidget (Qt.Child me "add_pose_button")) "clicked"
                            (Qt.Method me "_add_pose_character") st in
  (* self.strength_spin *)
  let spin := IntControl.setRange 0 100 IntControl.create in
  percent <- StrengthSpin.forward (ControlLayer.strength control) ;;
  let spin := fst (IntControl.setValue percent spin) in
  let (_, st) := Qt.connect (Qt.OfWidget (Qt.Child me "strength_spin")) "valueChanged"
                            (Qt.Lambda me "setattr(control, 'strength', x / 100)") st in
  let (_, st) := Qt.connect layer "strength_changed"
                            (Qt.Lambda me "self.strength_spin.setValue(int(x * 100))") st in
  (* self.end_spin *)
  let espin := QDoubleSpinBox.setRange (Py.of_int 0) (Py.of_int 1) QDoubleSpinBox.create in
  let espin := fst (QDoubleSpinBox.setValue (ControlLayer.end_ control) espin) in
  let (_, st) := Properties.bind_widget layer "end" (Qt.Child me "end_spin")
                                        "valueChanged" "setValue" st in
  let espin := fst (QDoubleSpinBox.setValue (ControlLayer.end_ control) espin) in
  let (_, st) := Qt.connect layer "error_text_changed" (Qt.Method me "_set_error") st in
  let (_, st) := Qt.connect (Qt.OfWidget (Qt.Child me "remove_button")) "clicked"
                            (Qt.Method me "remove") st in
  let (_, st) := Qt.connect layer "is_supported_changed" (Qt.Method me "_update_visibility") st in
  let (_, st) := Qt.connect layer "can_generate_changed" (Qt.Method me "_update_visibility") st in
  let (_, st) := Qt.connect layer "show_end_changed" (Qt.Method me "_update_visibility") st in
  let (_, st) := Qt.connect layer "is_pose_vector_changed" (Qt.Method me "_update_visibility") st in
  Ok (mk me (Model.id model) (ControlLayer.id control) spin espin, st).

(** the label [error_text]: its text and its tool tip *)
Record label : Type := mkl { text : string; toolTip : string }.

Definition _set_error (error : string) (l : label) : label :=
  let parts := Str.split "["%char 2 error in
  let l1 := mkl (hd EmptyString parts) (toolTip l) in
  match parts with
  | _ :: models :: _ =>
      mkl (text l1) ("Missing one of the following models: " ++ Str.drop_last models)%string
  | _ => l1
  end.

(** the children [_update_visibility] shows and hides *)
Module Part.
Inductive t : Type :=
| layer_select | generate_button | add_pose_button | strength_spin | end_spin | error_text.
Definition eqb (a b : t) : bool :=
  match a, b with
  | layer_select, layer_select | generate_button, generate_button
  | add_pose_button, add_pose_button | strength_spin, strength_spin
  | end_spin, end_spin | error_text, error_text => true
  | _, _ => false
  end.
End Part.

(** the properties of the control layer [_update_visibility] reads *)
Record shows : Type := mkshows {
  is_supported : bool;
  can_generate : bool;
  show_end : bool;
  is_pose_vector : bool }.

(** the two local functions of [_update_visibility], as the calls of
    [setVisible] they make *)
Definition controls (c : shows) : list (Part.t * bool) :=
  [(Part.layer_select, is_supported c);
   (Part.generate_button, can_generate c);
   (Part.add_pose_button, is_pose_vector c);
   (Part.strength_spin, is_supported c);
   (Part.end_spin, show_end c)].

Definition error (c : shows) : list (Part.t * bool) :=
  [(Part.error_text, negb (is_supported c))].

Definition _update_visibility (c : shows) : list (Part.t * bool) :=
  if is_supported c then error c ++ controls c else controls c ++ error c.

Definition setVisible (call : Part.t * bool) (visible : Part.t -> bool) : Part.t -> bool :=
  fun p => if Part.eqb p (fst call) then snd call else visible p.

(** which children are visible after a sequence of calls *)
Definition after (calls : list (Part.t * bool)) (visible : Part.t -> bool) : Part.t -> bool :=
  fold_left (fun v call => setVisible call v) calls visible.

(** the loop of [_update_layers] over the layers (name and unique id):
    the box, and [index] *)
Fixpoint add_layers (layers : list (string * string)) (layer_id : string)
    (combo : QComboBox.t) (index : Z) : QComboBox.t * Z :=
  match layers with
  | [] => (combo, index)
  | (name, uid) :: rest =>
      let combo1 := QComboBox.addItem name uid combo in
      let index1 :=
        if String.eqb uid layer_id
        then Z.of_nat (List.length (QComboBox.items combo1)) - 1
        else index in
      add_layers rest layer_id combo1 index1
  end.

(** [_update_layers], with [self._model.image_layers],
    [self._control.layer_id] and whether the control is in
    [self._model.control]: the box [layer_select], and whether [remove]
    is called.  The signals of the box are blocked. *)
Definition _update_layers (image_layers : list (string * string)) (layer_id : string)
    (listed : bool) (layer_select : QComboBox.t) : QComboBox.t * bool :=
  let (filled, index) :=
    add_layers (rev image_layers) layer_id (QComboBox.clear layer_select) (-1) in
  if (index =? -1) && listed then (filled, true)
  else (fst (QComboBox.setCurrentIndex index filled), false).

End ControlWidget.

Module ControlListWidget.

(** what [_model] holds: a model, or the widget a caller passed in its
    place ([ControlListWidget(self)] in the constructors below) *)
Inductive holder : Type :=
| AModel (id : nat)
| AWidget (w : Qt.widget).

Definition holds (h : holder) (model : Model.t) : bool :=
  match h with
  | AModel id => Nat.eqb id (Model.id model)
  | AWidget _ => false
  end.

Record t : Type := mk {
  self : Qt.widget;
  _model : holder;
  _controls : list ControlWidget.t;
  _model_connections : list Properties.entry }.

Definition init (self_ : Qt.widget) (model : holder) : t := mk self_ model [] [].

(** the loop [while len(self._controls) > 0: self._remove_widget(self._controls[0])] *)
Fixpoint remove_widgets (cs : list ControlWidget.t) (st : Qt.store) : Qt.store :=
  match cs with
  | [] => st
  | c :: rest => remove_widgets rest (Qt.deleteLater (ControlWidget.self c) st)
  end.

(** the loop [for control in self._model.control: self._add_widget(control)] *)
Fixpoint add_widgets (model : Model.t) (cs : list ControlLayer.t)
    (acc : list ControlWidget.t) (st : Qt.store)
  : result (list ControlWidget.t * Qt.store) :=
  match cs with
  | [] => Ok (acc, st)
  | c :: rest =>
      '(cw, st1) <- ControlWidget.init model c st ;;
      add_widgets model rest (acc ++ [cw]) st1
  end.

(** the setter of [model] *)
Definition set_model (model : Model.t) (w : t) (st : Qt.store) : result (t * Qt.store) :=
  if negb (holds (_model w) model) then
    let (st0, _) := Properties.disconnect_all (_model_connections w) st in
    let st1 := remove_widgets (_controls w) st0 in
    '(cws, st2) <- add_widgets model (Model.control model) [] st1 ;;
    let list_ := Qt.OfModel (Model.id model) "control" in
    let (c1, st3) := Qt.connect list_ "added" (Qt.Method (self w) "_add_widget") st2 in
    let (c2, st4) := Qt.connect list_ "removed" (Qt.Method (self w) "_remove_widget") st3 in
    Ok (mk (self w) (AModel (Model.id model)) cws
           [Properties.Connection c1; Properties.Connection c2], st4)
  else Ok (w, st).

End ControlListWidget.

(** the connections [StyleSelectWidget.__init__] makes to the style list
    and to the server connection *)
Definition connect_style_signals (me : Qt.widget) (st : Qt.store) : Qt.store :=
  let (_, st) := Qt.connect (Qt.OfGlobal "Styles.list()") "changed"
                            (Qt.Method me "update_styles") st in
  let (_, st) := Qt.connect (Qt.OfGlobal "Styles.list()") "name_changed"
                            (Qt.Method me "update_styles") st in
  let (_, st) := Qt.connect (Qt.OfGlobal "root.connection") "state_changed"
                            (Qt.Method me "update_styles") st in
  st.

(** ** GenerationWidget *)

(** what the constructors read from [root], [settings] and [Styles] *)
Module Env.
Record t : Type := mk {
  active_model : nat;
  prompt_line_count : Z;
  default_style : Style.t;
  supported_styles : list Style.t }.
End Env.

Module GenerationWidget.

Record t : Type := mk {
  self : Qt.widget;
  _model : nat;
  _model_bindings : list Properties.entry;
  workspace_select : Workspace.t;
  style_select : StyleSelectWidget.t;
  prompt_textbox : TextPromptWidget.t;
  negative_textbox : TextPromptWidget.t;
  control_list : ControlListWidget.t;
  strength_slider : StrengthWidget.t;
  queue_button : QueueWidget.t;
  history : HistoryWidget.t }.

Definition init (env : Env.t) (st : Qt.store) : t * Qt.store :=
  let me := Qt.Top "_generation" in
  let (_, st) := Qt.connect (Qt.OfGlobal "settings") "changed"
                            (Qt.Method me "update_settings") st in
  let st := connect_style_signals (Qt.Child me "style_select") st in
  let prompt := fst (TextPromptWidget.set_line_count (Env.prompt_line_count env)
                       (TextPromptWidget.init 2)) in
  let (queue, st) := QueueWidget.init (Qt.Child me "queue_button") st in
  let (hist, st) := HistoryWidget.init (Qt.Child me "history") st in
  (mk me (Env.active_model env) [] Workspace.generation
      (StyleSelectWidget.init (Env.default_style env) (Env.supported_styles env))
      prompt (TextPromptWidget.init 1)
      (ControlListWidget.init (Qt.Child me "control_list") (ControlListWidget.AWidget me))
      (StrengthWidget.init (1, 100)) queue hist, st).

(** the setter of [model].  After each [bind] the target is written with
    the current value of the source, through the setter of the target;
    the change signals of that write do not travel back (spec 4.2). *)
Definition set_model (depth : nat) (model : Model.t) (w : t) (st : Qt.store)
  : result (t * Qt.store) :=
  if negb (Nat.eqb (_model w) (Model.id model)) then
    let me := self w in
    let m := Qt.OfModel (Model.id model) "" in
    let (st, _) := Properties.disconnect_all (_model_bindings w) st in
    let (b1, st) := Properties.bind m "workspace" (Qt.Child me "workspace_select") "value"
                                    Properties.one_way st in
    let workspace := Model.workspace model in
    let (b2, st) := Properties.bind m "style" (Qt.Child me "style_select") "value"
                                    Properties.two_way st in
    '(style, _) <- StyleSelectWidget.set_value (Model.style model) (style_select w) ;;
    let (b3, st) := Properties.bind m "prompt" (Qt.Child me "prompt_textbox") "text"
                                    Properties.two_way st in
    let prompt := fst (TextPromptWidget.set_text (Model.prompt model) (prompt_textbox w)) in
    let (b4, st) := Properties.bind m "negative_prompt" (Qt.Child me "negative_textbox") "text"
                                    Properties.two_way st in
    let negative :=
      fst (TextPromptWidget.set_text (Model.negative_prompt model) (negative_textbox w)) in
    let (b5, st) := Properties.bind m "strength" (Qt.Child me "strength_slider") "value"
                                    Properties.two_way st in
    '(strength, _) <- StrengthWidget.set_value depth (Model.strength model) (strength_slider w) ;;
    let (c6, st) := Qt.connect m "progress_changed" (Qt.Method me "update_progress") st in
    let (c7, st) := Qt.connect m "error_changed" (Qt.Method (Qt.Child me "error_text") "setText") st in
    let (c8, st) := Qt.connect m "has_error_changed"
                               (Qt.Method (Qt.Child me "error_text") "setVisible") st in
    let (c9, st) := Qt.connect m "can_apply_result_changed"
                               (Qt.Method (Qt.Child me "apply_button") "setEnabled") st in
    let (c10, st) := Qt.connect (Qt.OfWidget (Qt.Child me "add_control_button")) "clicked"
                                (Qt.ModelSlot (Qt.OfModel (Model.id model) "control") "add") st in
    let bindings :=
      [b1; b2; b3; b4; b5; Properties.Connection c6; Properties.Connection c7;
       Properties.Connection c8; Properties.Connection c9; Properties.Connection c10] in
    '(controls, st) <- ControlListWidget.set_model model (control_list w) st ;;
    '(queue, st) <- QueueWidget.set_jobs (Model.jobs model) (queue_button w) st ;;
    let (hist, st) := HistoryWidget.set_jobs (Model.jobs model) (history w) st in
    Ok (mk me (Model.id model) bindings workspace style prompt negative controls
           strength queue hist, st)
  else Ok (w, st).

End GenerationWidget.

(** ** UpscaleWidget *)

Module UpscaleWidget.

Record t : Type := mk {
  self : Qt.widget;
  _model : nat;
  _model_bindings : list Properties.entry;
  workspace_select : Workspace.t;
  model_select : QComboBox.t;
  factor_slider : IntControl.t;
  factor_input : QDoubleSpinBox.t;
  refinement_checkbox : bool;
  style_select : StyleSelectWidget.t;
  strength_slider : StrengthWidget.t;
  queue_button : QueueWidget.t }.

Definition with_factor_slider (c : IntControl.t) (w : t) : t :=
  mk (self w) (_model w) (_model_bindings w) (workspace_select w) (model_select w)
     c (factor_input w) (refinement_checkbox w) (style_select w) (strength_slider w)
     (queue_button w).

Definition with_factor_input (c : QDoubleSpinBox.t) (w : t) : t :=
  mk (self w) (_model w) (_model_bindings w) (workspace_select w) (model_select w)
     (factor_slider w) c (refinement_checkbox w) (style_select w) (strength_slider w)
     (queue_button w).

Definition init (env : Env.t) (st : Qt.store) : t * Qt.store :=
  let me := Qt.Top "_upscaling" in
  let (_, st) := Qt.connect (Qt.OfGlobal "root.connection") "state_changed"
                            (Qt.Method me "update_models") st in
  let st := connect_style_signals (Qt.Child me "style_select") st in
  let (queue, st) := QueueWidget.init (Qt.Child me "queue_button") st in
  (mk me (Env.active_model env) [] Workspace.generation (QComboBox.mk [] (-1))
      (IntControl.setMaximum 400 (IntControl.setMinimum 100 IntControl.create))
      (QDoubleSpinBox.setMaximum (Py.of_int 4)
         (QDoubleSpinBox.setMinimum (Py.of_int 1) QDoubleSpinBox.create))
      true
      (StyleSelectWidget.init (Env.default_style env) (Env.supported_styles env))
      (StrengthWidget.init (20, 50)) queue, st).

(** the handlers around the scale factor, and the two [setValue] calls
    that reach them *)
Inductive call : Type :=
| update_factor (value : Py.float)
| change_factor_slider (value : Z)
| change_factor (value : Py.float)
| assign_factor (value : Py.float)           (* self.model.upscale.factor = value *)
| factor_slider_setValue (value : Z)
| factor_input_setValue (value : Py.float).

(** One handler, run on the widget and the model it holds.  [listening]
    tells whether [update_factor] is connected to [factor_changed] of that
    model; the notifier of [factor] is the one of spec 4.1. *)
Fixpoint run (depth : nat) (listening : bool) (c : call) (s : t * Model.t)
  : result (t * Model.t) :=
  match depth with
  | O => RecursionLimit
  | S d =>
      let (w, model) := s in
      match c with
      | factor_slider_setValue v =>
          let (sl, changed) := IntControl.setValue v (factor_slider w) in
          let s' := (with_factor_slider sl w, model) in
          if changed then run d listening (change_factor_slider (IntControl.value sl)) s'
          else Ok s'
      | factor_input_setValue v =>
          let (sp, changed) := QDoubleSpinBox.setValue v (factor_input w) in
          let s' := (with_factor_input sp w, model) in
          if changed then run d listening (change_factor (QDoubleSpinBox.value sp)) s'
          else Ok s'
      | update_factor value =>
          n <- Py.int (Py.mul value (Py.of_int 100)) ;;
          s1 <- run d listening (factor_slider_setValue n) s ;;
          run d listening (factor_input_setValue value) s1
      | change_factor_slider value =>
          r <- Py.round (Py.truediv value 50) ;;
          let value := r * 50 in
          if negb (IntControl.value (factor_slider w) =? value)
          then run d listening (factor_slider_setValue value) s
          else
            let value_float := Py.truediv value 100 in
            s1 <- run d listening (assign_factor value_float) s ;;
            if negb (Py.eqb (QDoubleSpinBox.value (factor_input (fst s1))) value_float)
            then run d listening (factor_input_setValue value_float) s1
            else Ok s1
      | change_factor value =>
          s1 <- run d listening (assign_factor value) s ;;
          value_int <- Py.round (Py.mul value (Py.of_int 100)) ;;
          let (w1, model1) := s1 in
          if negb (IntControl.value (factor_slider w1) =? value_int)
          then (* with SignalBlocker(self.factor_slider) *)
            Ok (with_factor_slider (fst (IntControl.setValue value_int (factor_slider w1))) w1,
                model1)
          else Ok s1
      | assign_factor v =>
          if Py.eqb (Model.factor (Model.upscale model)) v then Ok s
          else
            let s' := (w, Model.with_factor v model) in
            if listening then run d listening (update_factor v) s' else Ok s'
      end
  end.

Definition listens (w : t) (model : Model.t) (st : Qt.store) : bool :=
  existsb (Qt.joins (Qt.OfModel (Model.id model) "upscale") "factor_changed"
                    (Qt.Method (self w) "update_factor"))
          (Qt.connections st).

(** the setter of [model]; it gives back the model as well, whose factor
    the handlers can write *)
Definition set_model (depth : nat) (model : Model.t) (w : t) (st : Qt.store)
  : result (t * Model.t * Qt.store) :=
  if negb (Nat.eqb (_model w) (Model.id model)) then
    let me := self w in
    let m := Qt.OfModel (Model.id model) "" in
    let up := Qt.OfModel (Model.id model) "upscale" in
    let (st, _) := Properties.disconnect_all (_model_bindings w) st in
    let (b1, st) := Properties.bind m "workspace" (Qt.Child me "workspace_select") "value"
                                    Properties.one_way st in
    let workspace := Model.workspace model in
    let (b2, st) := Properties.bind_combo up "upscaler" (Qt.Child me "model_select") st in
    let select :=
      fst (QComboBox.setCurrentIndex
             (QComboBox.findData (Model.upscaler (Model.upscale model)) (model_select w))
             (model_select w)) in
    let (c3, st) := Qt.connect up "factor_changed" (Qt.Method me "update_factor") st in
    let (c4, st) := Qt.connect up "target_extent_changed"
                               (Qt.Method me "update_target_extent") st in
    let (b5, st) := Properties.bind_widget up "use_diffusion" (Qt.Child me "refinement_checkbox")
                                           "toggled" "setChecked" st in
    let checked := Model.use_diffusion (Model.upscale model) in
    let (b6, st) := Properties.bind m "style" (Qt.Child me "style_select") "value"
                                    Properties.two_way st in
    '(style, _) <- StyleSelectWidget.set_value (Model.style model) (style_select w) ;;
    let (b7, st) := Properties.bind up "strength" (Qt.Child me "strength_slider") "value"
                                    Properties.two_way st in
    '(strength, _) <- StrengthWidget.set_value depth
                        (Model.upscale_strength (Model.upscale model)) (strength_slider w) ;;
    let (c8, st) := Qt.connect m "progress_changed" (Qt.Method me "update_progress") st in
    let (c9, st) := Qt.connect m "error_changed" (Qt.Method (Qt.Child me "error_text") "setText") st in
    let (c10, st) := Qt.connect m "has_error_changed"
                                (Qt.Method (Qt.Child me "error_text") "setVisible") st in
    let bindings :=
      [b1; b2; Properties.Connection c3; Properties.Connection c4; b5; b6; b7;
       Properties.Connection c8; Properties.Connection c9; Properties.Connection c10] in
    '(queue, st) <- QueueWidget.set_jobs (Model.jobs model) (queue_button w) st ;;
    let w1 := mk me (Model.id model) bindings workspace select (factor_slider w)
                 (factor_input w) checked style strength queue in
    '(w2, model2) <- run depth (listens w1 model st)
                         (update_factor (Model.factor (Model.upscale model))) (w1, model) ;;
    Ok (w2, model2, st)
  else Ok (w, model, st).

(** the values of [UpscalerName.default], [.quality] and [.sharp] *)
Record UpscalerName : Type := mkn { default : string; quality : string; sharp : string }.

(** the loop of [update_models] over [client.upscalers] *)
Fixpoint insert_models (names : UpscalerName) (upscalers : list string) (combo : QComboBox.t)
  : QComboBox.t :=
  match upscalers with
  | [] => combo
  | file :: rest =>
      let combo1 :=
        if String.eqb file (default names)
        then QComboBox.insertItem 0
               ("Default (" ++ Str.removesuffix ".pth" file ++ ")")%string file combo
        else if String.eqb file (quality names)
        then QComboBox.insertItem 1
               ("Quality (" ++ Str.removesuffix ".pth" file ++ ")")%string file combo
        else if String.eqb file (sharp names)
        then QComboBox.insertItem 2
               ("Sharp (" ++ Str.removesuffix ".pth" file ++ ")")%string file combo
        else QComboBox.addItem file file combo in
      insert_models names rest combo1
  end.

(** [update_models], with the upscalers of [root.connection.client_if_connected]
    ([None] when there is no client) and [self.model.upscale.upscaler];
    the signals of the box are blocked *)
Definition update_models (names : UpscalerName) (upscalers : option (list string))
    (upscaler : string) (model_select : QComboBox.t) : QComboBox.t :=
  match upscalers with
  | Some files =>
      let filled := insert_models names files (QComboBox.clear model_select) in
      let selected := QComboBox.findData upscaler filled in
      fst (QComboBox.setCurrentIndex (Z.max selected 0) filled)
  | None => model_select
  end.

End UpscaleWidget.

(** ** LiveWidget *)

Module LiveWidget.

Record t : Type := mk {
  self : Qt.widget;
  _model : nat;
  _model_bindings : list Properties.entry;
  workspace_select : Workspace.t;
  style_select : StyleSelectWidget.t;
  strength_slider : StrengthWidget.t;
  seed_input : IntControl.t;
  control_list : ControlListWidget.t;
  prompt_textbox : TextPromptWidget.t;
  negative_textbox : TextPromptWidget.t }.

Definition init (env : Env.t) (st : Qt.store) : t * Qt.store :=
  let me := Qt.Top "_live" in
  let (_, st) := Qt.connect (Qt.OfGlobal "settings") "changed"
                            (Qt.Method me "update_settings") st in
  let st := connect_style_signals (Qt.Child me "style_select") st in
  (mk me (Env.active_model env) [] Workspace.generation
      (StyleSelectWidget.init (Env.default_style env) (Env.supported_styles env))
      (StrengthWidget.init (1, 100))
      (IntControl.setMaximum (2 ^ 31 - 1) (IntControl.setMinimum 0 IntControl.create))
      (ControlListWidget.init (Qt.Child me "control_list") (ControlListWidget.AWidget me))
      (TextPromptWidget.init 1) (TextPromptWidget.init 1), st).

(** the setter of [model] *)
Definition set_model (depth : nat) (model : Model.t) (w : t) (st : Qt.store)
  : result (t * Qt.store) :=
  if negb (Nat.eqb (_model w) (Model.id model)) then
    let me := self w in
    let m := Qt.OfModel (Model.id model) "" in
    let lv := Qt.OfModel (Model.id model) "live" in
    let (st, _) := Properties.disconnect_all (_model_bindings w) st in
    let (b1, st) := Properties.bind m "workspace" (Qt.Child me "workspace_select") "value"
                                    Properties.one_way st in
    let workspace := Model.workspace model in
    let (b2, st) := Properties.bind m "style" (Qt.Child me "style_select") "value"
                                    Properties.two_way st in
    '(style, _) <- StyleSelectWidget.set_value (Model.style model) (style_select w) ;;
    let (b3, st) := Properties.bind lv "strength" (Qt.Child me "strength_slider") "value"
                                    Properties.two_way st in
    '(strength, _) <- StrengthWidget.set_value depth
                        (Model.live_strength (Model.live model)) (strength_slider w) ;;
    let (b4, st) := Properties.bind_widget lv "seed" (Qt.Child me "seed_input")
                                           "valueChanged" "setValue" st in
    let seed := fst (IntControl.setValue (Model.seed (Model.live model)) (seed_input w)) in
    let (b5, st) := Properties.bind m "prompt" (Qt.Child me "prompt_textbox") "text"
                                    Properties.two_way st in
    let prompt := fst (TextPromptWidget.set_text (Model.prompt model) (prompt_textbox w)) in
    let (b6, st) := Properties.bind m "negative_prompt" (Qt.Child me "negative_textbox") "text"
                                    Properties.two_way st in
    let negative :=
      fst (TextPromptWidget.set_text (Model.negative_prompt model) (negative_textbox w)) in
    let (c7, st) := Qt.connect lv "is_active_changed" (Qt.Method me "update_is_active") st in
    let (c8, st) := Qt.connect lv "has_result_changed"
                               (Qt.Method (Qt.Child me "apply_button") "setEnabled") st in
    let (c9, st) := Qt.connect (Qt.OfWidget (Qt.Child me "add_control_button")) "clicked"
                               (Qt.ModelSlot (Qt.OfModel (Model.id model) "control") "add") st in
    let (c10, st) := Qt.connect (Qt.OfWidget (Qt.Child me "random_seed_button")) "clicked"
                                (Qt.ModelSlot lv "generate_seed") st in
    let (c11, st) := Qt.connect m "error_changed"
                                (Qt.Method (Qt.Child me "error_text") "setText") st in
    let (c12, st) := Qt.connect m "has_error_changed"
                                (Qt.Method (Qt.Child me "error_text") "setVisible") st in
    let (c13, st) := Qt.connect lv "result_available" (Qt.Method me "show_result") st in
    let bindings :=
      [b1; b2; b3; b4; b5; b6; Properties.Connection c7; Properties.Connection c8;
       Properties.Connection c9; Properties.Connection c10; Properties.Connection c11;
       Properties.Connection c12; Properties.Connection c13] in
    '(controls, st) <- ControlListWidget.set_model model (control_list w) st ;;
    Ok (mk me (Model.id model) bindings workspace style strength seed controls
           prompt negative, st)
  else Ok (w, st).

End LiveWidget.

(** ** WelcomeWidget *)

Module WelcomeWidget.

(** the two labels: the text of [_connect_status], and the text and the
    visibility of [_connect_error] *)
Record t : Type := mk {
  _connect_status : string;
  _connect_error : string;
  _connect_error_visible : bool }.

(** what [update] reads: [root.connection.state], whether
    [settings.server_mode] is [ServerMode.managed],
    [self._server.upgrade_required] and [connection.client.url] *)
Record seen : Type := mkseen {
  state : ConnectionState.t;
  managed : bool;
  upgrade_required : bool;
  url : string }.

Definition is_error (e : seen) : bool :=
  match state e with ConnectionState.error => true | _ => false end.
Definition is_disconnected (e : seen) : bool :=
  match state e with ConnectionState.disconnected => true | _ => false end.
Definition is_connecting (e : seen) : bool :=
  match state e with ConnectionState.connecting => true | _ => false end.
Definition is_connected (e : seen) : bool :=
  match state e with ConnectionState.connected => true | _ => false end.

Definition update (e : seen) (w : t) : t :=
  let w :=
    if is_disconnected e || is_error e
    then mk "Not connected to server." (_connect_error w) (_connect_error_visible w)
    else w in
  let w :=
    if is_error e
    then mk (_connect_status w)
            "Connection attempt failed! Click below to configure and reconnect." true
    else w in
  let w :=
    if is_disconnected e && managed e
    then mk (_connect_status w)
            (if upgrade_required e
             then "Server version is outdated. Click below to upgrade."
             else "Server is not installed or not running. Click below to start.")
            true
    else w in
  let w :=
    if is_connecting e
    then mk "Connecting to server..." (_connect_error w) (_connect_error_visible w)
    else w in
  if is_connected e
  then mk ("Connected to server at " ++ url e ++ "." ++ HistoryWidget.newline
           ++ HistoryWidget.newline
           ++ "Create a new document or open an existing image to start!")
          (_connect_error w) false
  else w.

(** [__init__]: the labels as they are made, and the first [update] *)
Definition init (e : seen) : t := update e (mk "Not connected to server." "" false).

(** the slot run once for each change of the connection state *)
Definition updates (es : list seen) (w : t) : t := fold_left (fun w e => update e w) es w.

(** [update] makes the error label visible *)
Definition raises (e : seen) : bool := is_error e || (is_disconnected e && managed e).

End WelcomeWidget.

(** ** ImageDiffusionWidget *)

Module ImageDiffusionWidget.

(** the pages of the stack [_frame] *)
Inductive page : Type := _welcome | _generation | _upscaling | _live.

Record t : Type := mk {
  generation : GenerationWidget.t;
  upscaling : UpscaleWidget.t;
  live : LiveWidget.t;
  currentWidget : page }.

(** [__init__]: the first page added to a stack is its current page *)
Definition init (env : Env.t) (st : Qt.store) : t * Qt.store :=
  let (g, st) := GenerationWidget.init env st in
  let (u, st) := UpscaleWidget.init env st in
  let (l, st) := LiveWidget.init env st in
  let me := Qt.Top "dock" in
  let (_, st) := Qt.connect (Qt.OfGlobal "root.connection") "state_changed"
                            (Qt.Method me "update") st in
  let (_, st) := Qt.connect (Qt.OfGlobal "root") "model_created"
                            (Qt.Method me "register_model") st in
  (mk g u l _welcome, st).

(** [update], with [root.model_for_active_document()] and
    [root.connection.state]; it gives back the model as well *)
Definition update (depth : nat) (model : option Model.t) (state : ConnectionState.t)
    (w : t) (st : Qt.store) : result (t * option Model.t * Qt.store) :=
  match model, state with
  | None, _
  | _, ConnectionState.disconnected
  | _, ConnectionState.connecting
  | _, ConnectionState.error =>
      Ok (mk (generation w) (upscaling w) (live w) _welcome, model, st)
  | Some m, ConnectionState.connected =>
      match Model.workspace m with
      | Workspace.generation =>
          '(g, st1) <- GenerationWidget.set_model depth m (generation w) st ;;
          Ok (mk g (upscaling w) (live w) _generation, Some m, st1)
      | Workspace.upscaling =>
          '(u, m1, st1) <- UpscaleWidget.set_model depth m (upscaling w) st ;;
          Ok (mk (generation w) u (live w) _upscaling, Some m1, st1)
      | Workspace.live =>
          '(l, st1) <- LiveWidget.set_model depth m (live w) st ;;
          Ok (mk (generation w) (upscaling w) l _live, Some m, st1)
      end
  end.

End ImageDiffusionWidget.

(** ** The selection of StyleSelectWidget *)

(** the combo lists the styles, no two styles share a name, and the
    current index of the combo is the position of [_value] *)
Definition selection_agrees (w : StyleSelectWidget.t) : Prop :=
  QComboBox.items (StyleSelectWidget._combo w)
  = map (fun s => (Style.name s, Style.filename s)) (StyleSelectWidget._styles w) /\
  NoDup (map Style.name (StyleSelectWidget._styles w)) /\
  0 <= QComboBox.currentIndex (StyleSelectWidget._combo w) /\
  Py.index (StyleSelectWidget._styles w)
           (QComboBox.currentIndex (StyleSelectWidget._combo w))
  = Ok (StyleSelectWidget._value w).

(** ** What a list of history items shows *)

(** the results a list item stands for: job, index and image of a preview *)
Definition shown (it : HistoryWidget.item) : list (string * Z * Image) :=
  match it with
  | HistoryWidget.Header _ _ _ => []
  | HistoryWidget.Preview img j i _ => [(j, i, img)]
  end.

(** the results of a job, numbered from [i] *)
Fixpoint numbered (id_ : string) (i : Z) (imgs : list Image) : list (string * Z * Image) :=
  match imgs with
  | [] => []
  | img :: rest => (id_, i, img) :: numbered id_ (i + 1) rest
  end.

(** the header [add] makes for a job *)
Definition header_of (job : Job.t) : HistoryWidget.item :=
  HistoryWidget.Header
    (HistoryWidget.hour_minute (Job.timestamp job) ++ " - " ++
     (if negb (String.eqb (Job.prompt job) "") then Job.prompt job else "<no prompt>"))%string
    (Job.id job) (Job.prompt job).

(** * Scenarios and observations

    The values the statements below are made about: a dock as its
    constructor leaves it, two models, and the projections that read a
    result. *)

(** the surroundings of the dock: no model yet, two styles *)
Definition env0 : Env.t :=
  Env.mk 0 2 (Style.mk "Photo" "photo.json")
         [Style.mk "Photo" "photo.json"; Style.mk "Anime" "anime.json"].

(** a model with one control layer, and one with none *)
Definition model_a : Model.t :=
  Model.mk 1 Workspace.generation (Style.mk "Anime" "anime.json") "a cat" ""
    (Py.truediv 1 2) (JobQueue.mk 100 [])
    [ControlLayer.mk 7 (Py.truediv 1 2) (Py.of_int 1)]
    (Model.mku "" (Py.of_int 2) true (Py.truediv 3 10))
    (Model.mkl (Py.truediv 3 10) 5).

Definition model_b : Model.t :=
  Model.mk 2 Workspace.generation (Style.mk "Photo" "photo.json") "a dog" ""
    (Py.truediv 3 4) (JobQueue.mk 200 []) []
    (Model.mku "" (Py.of_int 2) true (Py.truediv 3 10))
    (Model.mkl (Py.truediv 3 10) 5).

(** [model_a] with another scale factor *)
Definition scaled (factor : Py.float) : Model.t := Model.with_factor factor model_a.

(** a diffusion job that is still queued *)
Definition queued_job : Job.t :=
  Job.mk "job-1" JobKind.diffusion JobState.queued "a cat" (Bounds.mk 0 0 512 512)
         (12%nat, 30%nat) [1%nat; 2%nat].

(** the dock after construction *)
Definition dock0 : ImageDiffusionWidget.t * Qt.store :=
  ImageDiffusionWidget.init env0 Qt.empty.

(** the generation page attached to [model_a] *)
Definition attached_a : result (GenerationWidget.t * Qt.store) :=
  GenerationWidget.set_model 1000 model_a
    (ImageDiffusionWidget.generation (fst dock0)) (snd dock0).

(** the dock with [model_a] on its generation page, and the store then *)
Definition dock_a : ImageDiffusionWidget.t * Qt.store :=
  match attached_a with
  | Ok (g, st) =>
      (ImageDiffusionWidget.mk g (ImageDiffusionWidget.upscaling (fst dock0))
         (ImageDiffusionWidget.live (fst dock0)) ImageDiffusionWidget._generation, st)
  | _ => dock0
  end.

(** the same page after [model_b] is assigned *)
Definition switched_to_b : result (GenerationWidget.t * Qt.store) :=
  '(g, st) <- attached_a ;; GenerationWidget.set_model 1000 model_b g st.

(** the three workspace pages, each after the model [m] is assigned *)
Definition holding (m : Model.t) : GenerationWidget.t * UpscaleWidget.t * LiveWidget.t :=
  let g := ImageDiffusionWidget.generation (fst dock0) in
  let u := ImageDiffusionWidget.upscaling (fst dock0) in
  let l := ImageDiffusionWidget.live (fst dock0) in
  (match GenerationWidget.set_model 1000 m g (snd dock0) with
   | Ok (g', _) => g'
   | _ => g
   end,
   match UpscaleWidget.set_model 1000 m u (snd dock0) with
   | Ok (u', _, _) => u'
   | _ => u
   end,
   match LiveWidget.set_model 1000 m l (snd dock0) with
   | Ok (l', _) => l'
   | _ => l
   end).

(** a [ControlWidget]'s strength control right after construction, for a
    control layer of strength 1.0 *)
Definition full_strength : StrengthSpin.t :=
  StrengthSpin.mk (fst (IntControl.setValue 100 (IntControl.setRange 0 100 IntControl.create)))
                  (ControlLayer.mk 0 (Py.of_int 1) (Py.of_int 1)).

(** a connection whose signal belongs to the model [m]: to the model or
    an object in one of its attributes, to one of its control layers, or
    to its job queue *)
Definition subscribed_to (m : Model.t) (c : Qt.connection) : bool :=
  match Qt.source c with
  | Qt.OfModel id _ => Nat.eqb id (Model.id m)
  | Qt.OfControl layer =>
      existsb (fun cl => Nat.eqb (ControlLayer.id cl) layer) (Model.control m)
  | Qt.OfJobs q => Nat.eqb q (JobQueue.id (Model.jobs m))
  | _ => false
  end.

(** the connections to [m] that are left in the store *)
Definition residual (m : Model.t) (r : result (GenerationWidget.t * Qt.store))
  : result (list (Qt.sender * string * Qt.slot)) :=
  '(_, st) <- r ;;
  Ok (map (fun c => (Qt.source c, Qt.signal c, Qt.target c))
          (filter (subscribed_to m) (Qt.connections st))).

(** the value of the spin box and the strength of the control layer *)
Definition percent_and_strength (r : result StrengthSpin.t) : result (Z * Py.float) :=
  s <- r ;;
  Ok (IntControl.value (StrengthSpin.strength_spin s),
      ControlLayer.strength (StrengthSpin.control s)).

(** whether [inverse(forward(x)) == x] *)
Definition roundtrip_holds (x : Py.float) : bool :=
  match StrengthSpin.roundtrip x with
  | Ok y => Py.eqb y x
  | _ => false
  end.

(** the values of the slider and of the input, and the emissions *)
Definition slider_and_input (r : result (StrengthWidget.t * StrengthWidget.emitted))
  : result (Z * Z * StrengthWidget.emitted) :=
  '(w, e) <- r ;;
  Ok (IntControl.value (StrengthWidget._slider w),
      IntControl.value (StrengthWidget._input w), e).

(** the value of the strength spin box of a new [ControlWidget] *)
Definition spin_percent (r : result (ControlWidget.t * Qt.store)) : result Z :=
  '(cw, _) <- r ;; Ok (IntControl.value (ControlWidget.strength_spin cw)).

(** the slider, the input and the model's factor after the setter *)
Definition factor_controls (r : result (UpscaleWidget.t * Model.t * Qt.store))
  : result (Z * Py.float * Py.float) :=
  '(w, m, _) <- r ;;
  Ok (IntControl.value (UpscaleWidget.factor_slider w),
      QDoubleSpinBox.value (UpscaleWidget.factor_input w),
      Model.factor (Model.upscale m)).

(** the positions of the factor slider: the multiples of 50 in 100..400 *)
Definition factor_grid : list Z := [100; 150; 200; 250; 300; 350; 400].

(** the ranges [UpscaleWidget.__init__] gives the slider and the input of
    the scale factor *)
Definition factor_ranges (w : UpscaleWidget.t) : Prop :=
  IntControl.minimum (UpscaleWidget.factor_slider w) = 100 /\
  IntControl.maximum (UpscaleWidget.factor_slider w) = 400 /\
  QDoubleSpinBox.minimum (UpscaleWidget.factor_input w) = Py.of_int 1 /\
  QDoubleSpinBox.maximum (UpscaleWidget.factor_input w) = Py.of_int 4.

(** slider, input and model hold the same scale factor, [k] percent *)
Definition factor_agrees (k : Z) (s : UpscaleWidget.t * Model.t) : Prop :=
  factor_ranges (fst s) /\
  IntControl.value (UpscaleWidget.factor_slider (fst s)) = k /\
  Py.eqb (QDoubleSpinBox.value (UpscaleWidget.factor_input (fst s))) (Py.truediv k 100) = true /\
  Py.eqb (Model.factor (Model.upscale (snd s))) (Py.truediv k 100) = true.

(** the texts a [QLineEdit] and a [QPlainTextEdit] give back as they were
    set: printable ASCII characters and line feeds, no more of them than
    the maximum length of a line edit *)
Definition plain_char (c : ascii) : bool :=
  let n := nat_of_ascii c in
  Nat.eqb n 10 || (Nat.leb 32 n && Nat.leb n 126).

Fixpoint plain_chars (s : string) : bool :=
  match s with
  | EmptyString => true
  | String c rest => plain_char c && plain_chars rest
  end.

Definition plain (s : string) : bool :=
  plain_chars s && (Z.of_nat (String.length s) <=? 32767).

(** the page of a workspace, and the model a page of the dock holds *)
Definition page_of (workspace : Workspace.t) : ImageDiffusionWidget.page :=
  match workspace with
  | Workspace.generation => ImageDiffusionWidget._generation
  | Workspace.upscaling => ImageDiffusionWidget._upscaling
  | Workspace.live => ImageDiffusionWidget._live
  end.

Definition model_of (w : ImageDiffusionWidget.t) (p : ImageDiffusionWidget.page) : option nat :=
  match p with
  | ImageDiffusionWidget._welcome => None
  | ImageDiffusionWidget._generation =>
      Some (GenerationWidget._model (ImageDiffusionWidget.generation w))
  | ImageDiffusionWidget._upscaling =>
      Some (UpscaleWidget._model (ImageDiffusionWidget.upscaling w))
  | ImageDiffusionWidget._live => Some (LiveWidget._model (ImageDiffusionWidget.live w))
  end.

(** ** When a page of the dock can take a model *)

(** the combo of a style box lists the styles the box holds *)
Definition lists_its_styles (w : StyleSelectWidget.t) : Prop :=
  QComboBox.items (StyleSelectWidget._combo w)
  = map (fun s => (Style.name s, Style.filename s)) (StyleSelectWidget._styles w).

(** the percentage of the strength [v] lies in the ranges of the slider
    and of the input *)
Definition strength_fits (v : Py.float) (w : StrengthWidget.t) : bool :=
  match Py.int (Py.mul v (Py.of_int 100)) with
  | Ok n =>
      (IntControl.minimum (StrengthWidget._slider w) <=? n)
      && (n <=? IntControl.maximum (StrengthWidget._slider w))
      && (IntControl.minimum (StrengthWidget._input w) <=? n)
      && (n <=? IntControl.maximum (StrengthWidget._input w))
  | _ => false
  end.

(** a number that fits the C [int] of a Qt control *)
Definition fits_int (n : Z) : bool := (- 2 ^ 31 <=? n) && (n <=? 2 ^ 31 - 1).

(** the strength of every control layer converts to a percentage Qt takes *)
Definition strengths_convert (controls : list ControlLayer.t) : bool :=
  forallb (fun c => match StrengthSpin.forward (ControlLayer.strength c) with
                    | Ok n => fits_int n
                    | _ => false
                    end) controls.

(** [_update] of the queue button is connected to the queue it holds, by
    a connection that is none of the entries [released] and that does not
    go with one of the control widgets [removed] *)
Definition queue_listens (q : QueueWidget.t) (released : list Properties.entry)
    (removed : list ControlWidget.t) (st : Qt.store) : bool :=
  existsb (fun c =>
             Qt.joins (Qt.OfJobs (QueueWidget._jobs q)) "count_changed"
                      (QueueWidget.update_slot (QueueWidget.self q)) c
             && forallb (fun e => negb (existsb (Nat.eqb (Qt.handle c))
                                                (Properties.handles e))) released
             && forallb (fun cw => negb (Qt.dropped_with (ControlWidget.self cw) c)) removed)
          (Qt.connections st).

(** a connection to follow through a setter, if there is one to follow *)
Definition held (c : option Qt.connection) (st : Qt.store) : Prop :=
  match c with
  | Some x => In x (Qt.connections st)
  | None => True
  end.

(** the page of the model's workspace can take the model *)
Definition ready (m : Model.t) (w : ImageDiffusionWidget.t) (st : Qt.store) : Prop :=
  match Model.workspace m with
  | Workspace.generation =>
      let g := ImageDiffusionWidget.generation w in
      lists_its_styles (GenerationWidget.style_select g) /\
      strength_fits (Model.strength m) (GenerationWidget.strength_slider g) = true /\
      strengths_convert (Model.control m) = true /\
      queue_listens (GenerationWidget.queue_button g)
        (GenerationWidget._model_bindings g
         ++ ControlListWidget._model_connections (GenerationWidget.control_list g))
        (ControlListWidget._controls (GenerationWidget.control_list g)) st = true
  | Workspace.upscaling =>
      let u := ImageDiffusionWidget.upscaling w in
      lists_its_styles (UpscaleWidget.style_select u) /\
      strength_fits (Model.upscale_strength (Model.upscale m))
                    (UpscaleWidget.strength_slider u) = true /\
      queue_listens (UpscaleWidget.queue_button u) (UpscaleWidget._model_bindings u) [] st
      = true /\
      factor_ranges u /\
      exists k, In k factor_grid /\ Model.factor (Model.upscale m) = Py.truediv k 100
  | Workspace.live =>
      let l := ImageDiffusionWidget.live w in
      lists_its_styles (LiveWidget.style_select l) /\
      strength_fits (Model.live_strength (Model.live m)) (LiveWidget.strength_slider l) = true /\
      fits_int (Model.seed (Model.live m)) = true /\
      strengths_convert (Model.control m) = true
  end.

(** the error text of a [ControlWidget] is visible together with the
    layer box or the strength box *)
Definition crowded (visible : ControlWidget.Part.t -> bool) : bool :=
  visible ControlWidget.Part.error_text
  && (visible ControlWidget.Part.layer_select || visible ControlWidget.Part.strength_spin).

(** * Properties *)

(** ** Helpers *)

Lemma forall_percent (P : Z -> bool) :
  forallb P (map Z.of_nat (seq 0 101)) = true ->
  forall n, 0 <= n <= 100 -> P n = true.
Proof.
  intros H n Hn. rewrite forallb_forall in H. apply H.
  apply in_map_iff. exists (Z.to_nat n). split; [lia|].
  apply in_seq. lia.
Qed.

Lemma JobState_eqb_eq (a b : JobState.t) : JobState.eqb a b = true <-> a = b.
Proof.
  split.
  - destruct a, b; simpl; try discriminate; try reflexivity.
    intros H. apply Nat.eqb_eq in H. now subst.
  - intros ->. destruct b; simpl; try reflexivity. apply Nat.eqb_refl.
Qed.

Lemma JobKind_eqb_eq (a b : JobKind.t) : JobKind.eqb a b = true <-> a = b.
Proof.
  split.
  - destruct a, b; simpl; try discriminate; try reflexivity.
    intros H. apply Nat.eqb_eq in H. now subst.
  - intros ->. destruct b; simpl; try reflexivity. apply Nat.eqb_refl.
Qed.

(** ** The strength control of ControlWidget *)

(** C1 (defect of the code).  The conversion from the model's strength to
    the percentage is [int(x * 100)], a truncation, not [round(x * 100)]:
    a strength of 0.29 gives 28 where rounding gives 29, and a spin box
    set to 29 falls back to 28 with the model's strength at 0.28.  The two
    values of the scenario, 0.37 and 82, come out as the claim says. *)
Theorem C1_strength_percentage_truncates :
  StrengthSpin.forward (Py.truediv 29 100) = Ok 28 /\
  Py.round (Py.mul (Py.truediv 29 100) (Py.of_int 100)) = Ok 29 /\
  percent_and_strength (StrengthSpin.spin_edited 1000 29 full_strength)
    = Ok (28, Py.truediv 28 100) /\
  percent_and_strength (StrengthSpin.assign_strength 1000 (Py.truediv 37 100) full_strength)
    = Ok (37, Py.truediv 37 100) /\
  percent_and_strength (StrengthSpin.spin_edited 1000 82 full_strength)
    = Ok (82, Py.truediv 82 100).
Proof.
  repeat split; vm_compute; reflexivity.
Qed.

(** C3, as stated, fails: 0.375 lies in the domain and comes back as 0.37. *)
Lemma C3_roundtrip_loses_fraction :
  StrengthSpin.in_domain (Py.truediv 3 8) = true /\
  StrengthSpin.roundtrip (Py.truediv 3 8) = Ok (Py.truediv 37 100) /\
  Py.eqb (Py.truediv 37 100) (Py.truediv 3 8) = false.
Proof.
  repeat split; vm_compute; reflexivity.
Qed.

(** C3 (amended).  For a strength that is a whole percentage, [x = n / 100]
    with [n] an integer of 0..100 other than 29, 57 and 58, the value lies
    in the domain and [inverse(forward(x)) == x]. *)
Theorem C3_roundtrip_on_percentages (n : Z) :
  0 <= n <= 100 -> n <> 29 -> n <> 57 -> n <> 58 ->
  StrengthSpin.in_domain (StrengthSpin.inverse n) = true /\
  exists y, StrengthSpin.roundtrip (StrengthSpin.inverse n) = Ok y /\
            Py.eqb y (StrengthSpin.inverse n) = true.
Proof.
  intros Hn H29 H57 H58.
  pose (P := fun n => StrengthSpin.in_domain (StrengthSpin.inverse n)
                      && ((n =? 29) || (n =? 57) || (n =? 58)
                          || roundtrip_holds (StrengthSpin.inverse n))).
  assert (HP : P n = true).
  { apply forall_percent; [vm_compute; reflexivity | exact Hn]. }
  unfold P in HP. apply andb_true_iff in HP. destruct HP as [Hd Hr].
  split; [exact Hd|].
  repeat (apply orb_true_iff in Hr; destruct Hr as [Hr|Hr]);
    try (apply Z.eqb_eq in Hr; contradiction).
  unfold roundtrip_holds in Hr.
  destruct (StrengthSpin.roundtrip (StrengthSpin.inverse n)) as [y| |]; try discriminate.
  exists y. split; [reflexivity | exact Hr].
Qed.

Lemma C3_roundtrip_on_percentages_witness :
  StrengthSpin.in_domain (StrengthSpin.inverse 37) = true /\
  exists y, StrengthSpin.roundtrip (StrengthSpin.inverse 37) = Ok y /\
            Py.eqb y (StrengthSpin.inverse 37) = true.
Proof.
  apply (C3_roundtrip_on_percentages 37); lia.
Defined.

(** ** Property setters *)

(** C4.  Assigning to [TextPromptWidget.text], [StrengthWidget.value] or
    [StyleSelectWidget.value] a value equal to the one the property holds
    changes nothing and emits no change signal. *)
Theorem C4_equal_value_is_noop
    (depth : nat) (tw : TextPromptWidget.t) (sw : StrengthWidget.t)
    (yw : StyleSelectWidget.t) (txt : string) (v : Py.float) (style : Style.t) :
  String.eqb txt (TextPromptWidget.text tw) = true ->
  Py.eqb v (StrengthWidget.value sw) = true ->
  Style.eqb style (StyleSelectWidget._value yw) = true ->
  TextPromptWidget.set_text txt tw = (tw, []) /\
  StrengthWidget.set_value depth v sw = Ok (sw, []) /\
  StyleSelectWidget.set_value style yw = Ok (yw, []).
Proof.
  intros Ht Hv Hs. repeat split.
  - unfold TextPromptWidget.set_text. now rewrite Ht.
  - unfold StrengthWidget.set_value. now rewrite Hv.
  - unfold StyleSelectWidget.set_value. now rewrite Hs.
Qed.

Lemma C4_equal_value_is_noop_witness :
  let tw := TextPromptWidget.mk 2 "a cat" "" in
  let sw := StrengthWidget.init (1, 100) in
  let st := Style.mk "Photo" "photo.json" in
  let yw := StyleSelectWidget.init st [st] in
  TextPromptWidget.set_text "a cat" tw = (tw, []) /\
  StrengthWidget.set_value 0 (Py.truediv 1 100) sw = Ok (sw, []) /\
  StyleSelectWidget.set_value st yw = Ok (yw, []).
Proof.
  apply C4_equal_value_is_noop; reflexivity.
Defined.

(** ** StrengthWidget *)

(** C8 (defect of the code).  The spin input always ranges over 1..100,
    the slider over [slider_range].  In the widget of the upscale page,
    made with the range (20, 50), an input of 80 leaves the slider at 50
    and the input at 80; [value_changed] carries 0.5 each time. *)
Theorem C8_slider_and_input_part :
  slider_and_input (StrengthWidget.input_edited 1000 80 (StrengthWidget.init (20, 50)))
  = Ok (50, 80, [Py.truediv 50 100; Py.truediv 50 100; Py.truediv 50 100; Py.truediv 50 100]).
Proof.
  vm_compute. reflexivity.
Qed.

(** With both ranges equal, as in the default widget, the handler does
    bring the two controls together. *)
Lemma notify_changed_S (d : nat) (v : Z) (w : StrengthWidget.t) :
  StrengthWidget.notify_changed (S d) v w =
  ('(w1, e1) <- (if negb (IntControl.value (StrengthWidget._slider w) =? v)
                 then StrengthWidget.slider_setValue (StrengthWidget.notify_changed d) v w
                 else Ok (w, [])) ;;
   '(w2, e2) <- (if negb (IntControl.value (StrengthWidget._input w1) =? v)
                 then StrengthWidget.input_setValue (StrengthWidget.notify_changed d) v w1
                 else Ok (w1, [])) ;;
   Ok (w2, e1 ++ e2 ++ [StrengthWidget.value w2])).
Proof. reflexivity. Qed.

Lemma notify_changed_settled (d : nat) (v : Z) (w : StrengthWidget.t) :
  IntControl.value (StrengthWidget._slider w) = v ->
  IntControl.value (StrengthWidget._input w) = v ->
  StrengthWidget.notify_changed (S d) v w = Ok (w, [StrengthWidget.value w]).
Proof.
  intros Hs Hi.
  rewrite notify_changed_S.
  rewrite Hs, Z.eqb_refl. cbn [negb bind].
  rewrite Hi, Z.eqb_refl. reflexivity.
Qed.

Lemma notify_changed_same_range (d : nat) (lo hi v : Z) (w : StrengthWidget.t) :
  IntControl.minimum (StrengthWidget._slider w) = lo ->
  IntControl.maximum (StrengthWidget._slider w) = hi ->
  IntControl.minimum (StrengthWidget._input w) = lo ->
  IntControl.maximum (StrengthWidget._input w) = hi ->
  lo <= v <= hi ->
  IntControl.value (StrengthWidget._slider w) = v
  \/ IntControl.value (StrengthWidget._input w) = v ->
  exists e,
    StrengthWidget.notify_changed (S (S d)) v w
    = Ok (StrengthWidget.mk (IntControl.mk lo hi v) (IntControl.mk lo hi v),
          e ++ [Py.truediv v 100]).
Proof.
  intros Hsl Hsh Hil Hih Hv Hfrom.
  destruct w as [[smin smax sv] [imin imax iv]].
  cbn [StrengthWidget._slider StrengthWidget._input IntControl.minimum
       IntControl.maximum IntControl.value] in *.
  subst smin smax imin imax.
  assert (Hb : qBound lo v hi = v) by (unfold qBound; lia).
  set (both := StrengthWidget.mk (IntControl.mk lo hi v) (IntControl.mk lo hi v)).
  assert (Hsettled : StrengthWidget.notify_changed (S d) v both
                     = Ok (both, [Py.truediv v 100])).
  { apply notify_changed_settled; reflexivity. }
  destruct Hfrom as [-> | ->].
  - (* the slider moved *)
    destruct (Z.eqb_spec iv v) as [-> | Hne].
    + exists []. apply notify_changed_settled; reflexivity.
    + exists [Py.truediv v 100].
      rewrite notify_changed_S.
      cbn [StrengthWidget._slider StrengthWidget._input IntControl.value].
      rewrite Z.eqb_refl. cbn [negb bind].
      cbn [StrengthWidget._slider StrengthWidget._input IntControl.value].
      destruct (Z.eqb_spec iv v) as [|_]; [contradiction|]. cbn [negb].
      unfold StrengthWidget.input_setValue, IntControl.setValue.
      cbn [StrengthWidget._slider StrengthWidget._input IntControl.minimum
           IntControl.maximum IntControl.value].
      rewrite Hb.
      destruct (Z.eqb_spec v iv) as [|_]; [congruence|]. cbn [negb].
      fold both. rewrite Hsettled. reflexivity.
  - (* the input changed *)
    destruct (Z.eqb_spec sv v) as [-> | Hne].
    + exists []. apply notify_changed_settled; reflexivity.
    + exists [Py.truediv v 100].
      rewrite notify_changed_S.
      cbn [StrengthWidget._slider StrengthWidget._input IntControl.value].
      destruct (Z.eqb_spec sv v) as [|_]; [contradiction|]. cbn [negb].
      unfold StrengthWidget.slider_setValue, IntControl.setValue.
      cbn [StrengthWidget._slider StrengthWidget._input IntControl.minimum
           IntControl.maximum IntControl.value].
      rewrite Hb.
      destruct (Z.eqb_spec v sv) as [|_]; [congruence|]. cbn [negb].
      fold both. rewrite Hsettled. cbn [bind].
      cbn [StrengthWidget._input StrengthWidget._slider IntControl.value both].
      rewrite Z.eqb_refl. reflexivity.
Qed.

(** ** HistoryWidget *)

(** C10.  For a job that is not finished, or not a diffusion job, [add]
    returns the widget as it was: the items, the last prompt and the last
    bounds stay; so a job that changes the items is a finished diffusion
    job. *)
Theorem C10_add_ignores_other_jobs (job : Job.t) (w : HistoryWidget.t) :
  Job.state job <> JobState.finished \/ Job.kind job <> JobKind.diffusion ->
  HistoryWidget.add job w = w.
Proof.
  intros H. unfold HistoryWidget.add.
  destruct (JobState.eqb (Job.state job) JobState.finished) eqn:Es;
    [|reflexivity].
  destruct (JobKind.eqb (Job.kind job) JobKind.diffusion) eqn:Ek;
    [|reflexivity].
  apply JobState_eqb_eq in Es. apply JobKind_eqb_eq in Ek.
  destruct H; contradiction.
Qed.

Lemma C10_add_ignores_other_jobs_witness :
  HistoryWidget.add queued_job (fst (HistoryWidget.init (Qt.Top "history") Qt.empty))
  = fst (HistoryWidget.init (Qt.Top "history") Qt.empty).
Proof.
  apply C10_add_ignores_other_jobs. left. simpl. discriminate.
Defined.

(** a finished diffusion job does add its header and its results *)
Example add_finished_job :
  HistoryWidget.items
    (HistoryWidget.add
       (Job.mk "job-1" JobKind.diffusion JobState.finished "" (Bounds.mk 0 0 512 512)
               (9%nat, 5%nat) [7%nat])
       (fst (HistoryWidget.init (Qt.Top "history") Qt.empty)))
  = [HistoryWidget.Header "09:05 - <no prompt>" "job-1" "";
     HistoryWidget.Preview 7%nat "job-1" 0
       (HistoryWidget.newline ++ "Click to toggle preview, double-click to apply.")].
Proof. reflexivity. Qed.

(** ** ImageDiffusionWidget *)

(** C9.  Without a model for the active document, or with the connection
    disconnected, connecting or in error, [update] makes the welcome page
    current, and touches neither the workspace widgets nor the connections. *)
Theorem C9_update_shows_welcome
    (depth : nat) (model : option Model.t) (state : ConnectionState.t)
    (w : ImageDiffusionWidget.t) (st : Qt.store) :
  model = None \/ state = ConnectionState.disconnected
  \/ state = ConnectionState.connecting \/ state = ConnectionState.error ->
  ImageDiffusionWidget.update depth model state w st
  = Ok (ImageDiffusionWidget.mk (ImageDiffusionWidget.generation w)
          (ImageDiffusionWidget.upscaling w) (ImageDiffusionWidget.live w)
          ImageDiffusionWidget._welcome, model, st).
Proof.
  intros [-> | [-> | [-> | ->]]]; unfold ImageDiffusionWidget.update.
  - reflexivity.
  - destruct model; reflexivity.
  - destruct model; reflexivity.
  - destruct model; reflexivity.
Qed.

Lemma C9_update_shows_welcome_witness :
  let w := fst (ImageDiffusionWidget.init env0 Qt.empty) in
  let st := snd (ImageDiffusionWidget.init env0 Qt.empty) in
  ImageDiffusionWidget.update 1000 None ConnectionState.connected w st
  = Ok (ImageDiffusionWidget.mk (ImageDiffusionWidget.generation w)
          (ImageDiffusionWidget.upscaling w) (ImageDiffusionWidget.live w)
          ImageDiffusionWidget._welcome, None, st).
Proof.
  apply C9_update_shows_welcome. left. reflexivity.
Defined.

(** ** Model setters *)

(** C7.  Assigning to [GenerationWidget], [UpscaleWidget], [LiveWidget] or
    [ControlListWidget] the model it holds changes nothing: the widget, its
    binding list and the connections are the ones before. *)
Theorem C7_same_model_changes_nothing
    (depth : nat) (model : Model.t) (st : Qt.store)
    (g : GenerationWidget.t) (u : UpscaleWidget.t) (l : LiveWidget.t)
    (c : ControlListWidget.t) :
  GenerationWidget._model g = Model.id model ->
  UpscaleWidget._model u = Model.id model ->
  LiveWidget._model l = Model.id model ->
  ControlListWidget._model c = ControlListWidget.AModel (Model.id model) ->
  GenerationWidget.set_model depth model g st = Ok (g, st) /\
  UpscaleWidget.set_model depth model u st = Ok (u, model, st) /\
  LiveWidget.set_model depth model l st = Ok (l, st) /\
  ControlListWidget.set_model model c st = Ok (c, st).
Proof.
  intros Hg Hu Hl Hc. repeat split.
  - unfold GenerationWidget.set_model. rewrite Hg, Nat.eqb_refl. reflexivity.
  - unfold UpscaleWidget.set_model. rewrite Hu, Nat.eqb_refl. reflexivity.
  - unfold LiveWidget.set_model. rewrite Hl, Nat.eqb_refl. reflexivity.
  - unfold ControlListWidget.set_model. rewrite Hc.
    cbn [ControlListWidget.holds]. rewrite Nat.eqb_refl. reflexivity.
Qed.

(** ** Binding.disconnect_all *)

Lemma active_after_disconnect (h : nat) (st : Qt.store) :
  Qt.active h (fst (Qt.disconnect h st)) = false.
Proof.
  unfold Qt.active, Qt.disconnect. cbn [fst Qt.connections].
  destruct (existsb _ _) eqn:E; [|reflexivity].
  apply existsb_exists in E. destruct E as [c [Hin Hc]].
  apply filter_In in Hin. destruct Hin as [_ Hf].
  rewrite Hc in Hf. discriminate.
Qed.

Lemma inactive_stays_disconnect (h h' : nat) (st : Qt.store) :
  Qt.active h st = false -> Qt.active h (fst (Qt.disconnect h' st)) = false.
Proof.
  unfold Qt.active, Qt.disconnect. cbn [fst Qt.connections]. intros H.
  destruct (existsb _ (filter _ _)) eqn:E; [|reflexivity].
  apply existsb_exists in E. destruct E as [c [Hin Hc]].
  apply filter_In in Hin. destruct Hin as [Hin _].
  rewrite <- H. symmetry. apply existsb_exists. exists c. auto.
Qed.

Lemma kept_by_disconnect (h : nat) (c : Qt.connection) (st : Qt.store) :
  In c (Qt.connections st) -> Qt.handle c <> h ->
  In c (Qt.connections (fst (Qt.disconnect h st))).
Proof.
  intros Hin Hne. unfold Qt.disconnect. cbn [fst Qt.connections].
  apply filter_In. split; [exact Hin|].
  apply negb_true_iff. apply Nat.eqb_neq. exact Hne.
Qed.

Lemma disconnect_entry_fst (e : Properties.entry) (st : Qt.store) :
  fst (Properties.disconnect_entry e st) = Properties.disconnect e st.
Proof.
  destruct e as [m [w|] | c]; reflexivity.
Qed.

Lemma entry_released (e : Properties.entry) (h : nat) (st : Qt.store) :
  In h (Properties.handles e) -> Qt.active h (Properties.disconnect e st) = false.
Proof.
  unfold Properties.disconnect.
  destruct e as [m [w|] | c]; cbn [Properties.handles fold_left In]; intros H.
  - destruct H as [<- | [<- | []]].
    + apply inactive_stays_disconnect, active_after_disconnect.
    + apply active_after_disconnect.
  - destruct H as [<- | []]. apply active_after_disconnect.
  - destruct H as [<- | []]. apply active_after_disconnect.
Qed.

Lemma inactive_stays_entry (e : Properties.entry) (h : nat) (st : Qt.store) :
  Qt.active h st = false -> Qt.active h (Properties.disconnect e st) = false.
Proof.
  unfold Properties.disconnect. intros H.
  destruct e as [m [w|] | c]; cbn [Properties.handles fold_left];
    repeat apply inactive_stays_disconnect; exact H.
Qed.

Lemma kept_by_entry (e : Properties.entry) (c : Qt.connection) (st : Qt.store) :
  In c (Qt.connections st) -> ~ In (Qt.handle c) (Properties.handles e) ->
  In c (Qt.connections (Properties.disconnect e st)).
Proof.
  unfold Properties.disconnect. intros Hin Hno.
  destruct e as [m [w|] | k]; cbn [Properties.handles fold_left In] in *;
    repeat apply kept_by_disconnect; try exact Hin; intros Heq; apply Hno; auto.
Qed.

Lemma disconnect_all_cons (e : Properties.entry) (rest : list Properties.entry)
    (st : Qt.store) :
  Properties.disconnect_all (e :: rest) st =
  (fst (Properties.disconnect_all rest (Properties.disconnect e st)),
   (e, snd (Properties.disconnect_entry e st))
     :: snd (Properties.disconnect_all rest (Properties.disconnect e st))).
Proof.
  cbn [Properties.disconnect_all]. rewrite <- disconnect_entry_fst.
  destruct (Properties.disconnect_entry e st) as [st1 failed]. cbn [fst snd].
  destruct (Properties.disconnect_all rest st1). reflexivity.
Qed.

Lemma inactive_stays_all (bindings : list Properties.entry) (h : nat) (st : Qt.store) :
  Qt.active h st = false ->
  Qt.active h (fst (Properties.disconnect_all bindings st)) = false.
Proof.
  revert st. induction bindings as [|e rest IH]; intros st H; [exact H|].
  rewrite disconnect_all_cons. cbn [fst].
  apply IH, inactive_stays_entry, H.
Qed.

(** C6.  [Binding.disconnect_all] calls disconnect once on every element
    of the sequence, in order, bindings and raw handles alike, whether or
    not an earlier element failed; afterwards no handle of any element is
    connected, and the other connections are kept.  On the empty sequence
    it does nothing. *)
Theorem C6_disconnect_all_processes_every_element
    (bindings : list Properties.entry) (st : Qt.store) :
  map fst (snd (Properties.disconnect_all bindings st)) = bindings /\
  (forall e h, In e bindings -> In h (Properties.handles e) ->
     Qt.active h (fst (Properties.disconnect_all bindings st)) = false) /\
  (forall c, In c (Qt.connections st) ->
     (forall e, In e bindings -> ~ In (Qt.handle c) (Properties.handles e)) ->
     In c (Qt.connections (fst (Properties.disconnect_all bindings st)))) /\
  Properties.disconnect_all [] st = (st, []).
Proof.
  split; [|split; [|split; [|reflexivity]]].
  - revert st. induction bindings as [|e rest IH]; intros st; [reflexivity|].
    rewrite disconnect_all_cons. cbn [snd map fst]. now rewrite IH.
  - revert st. induction bindings as [|e rest IH]; intros st e' h Hin Hh; [destruct Hin|].
    rewrite disconnect_all_cons. cbn [fst].
    destruct Hin as [<- | Hin].
    + apply inactive_stays_all, entry_released, Hh.
    + eapply IH; eassumption.
  - revert st. induction bindings as [|e rest IH]; intros st c Hin Hno; [exact Hin|].
    rewrite disconnect_all_cons. cbn [fst].
    apply IH.
    + apply kept_by_entry; [exact Hin|]. apply Hno. now left.
    + intros e' He'. apply Hno. now right.
Qed.

(** a raw handle released before fails in the middle of the sequence; the
    elements after it are disconnected all the same, and the failure is
    reported *)
Example disconnect_all_goes_on_after_failure :
  let st := snd (Qt.connect (Qt.OfModel 1 "") "error_changed" (Qt.Method (Qt.Top "w") "f")
                 (snd (Qt.connect (Qt.OfModel 1 "") "progress_changed"
                                  (Qt.Method (Qt.Top "w") "g") Qt.empty))) in
  let bindings := [Properties.Connection 0%nat; Properties.Connection 7%nat;
                   Properties.Binding 1%nat None] in
  Qt.connections (fst (Properties.disconnect_all bindings st)) = [] /\
  map snd (snd (Properties.disconnect_all bindings st)) = [false; true; false].
Proof. split; reflexivity. Qed.

(** ** Switching models *)

(** C2 (defect of the code).  The setter releases the entries of
    [_model_bindings], of the control list, of the queue button and of the
    history, but [ControlListWidget._remove_widget] only calls
    [deleteLater] on a [ControlWidget]: the lambdas its constructor
    connected to the control layer of the previous model stay connected.
    After the page moves from [model_a], which has one control layer, to
    [model_b], three subscriptions to [model_a] remain. *)
Theorem C2_control_widget_lambdas_stay_connected :
  residual model_a switched_to_b =
  Ok [(Qt.OfControl 7, "has_active_job_changed"%string,
       Qt.Lambda (Qt.Created 3) "self.layer_select.setEnabled(not x)");
      (Qt.OfControl 7, "has_active_job_changed"%string,
       Qt.Lambda (Qt.Created 3) "self.generate_button.setEnabled(not x)");
      (Qt.OfControl 7, "strength_changed"%string,
       Qt.Lambda (Qt.Created 3) "self.strength_spin.setValue(int(x * 100))")].
Proof.
  vm_compute. reflexivity.
Qed.

(** without a control layer nothing of the previous model remains *)
Example switch_without_control_layers :
  residual model_b
    ('(g, st) <- GenerationWidget.set_model 1000 model_b
                   (ImageDiffusionWidget.generation (fst dock0)) (snd dock0) ;;
     GenerationWidget.set_model 1000 model_a g st)
  = Ok [].
Proof.
  vm_compute. reflexivity.
Qed.

Lemma C7_same_model_changes_nothing_witness :
  let g := fst (fst (holding model_a)) in
  let u := snd (fst (holding model_a)) in
  let l := snd (holding model_a) in
  let c := GenerationWidget.control_list g in
  GenerationWidget.set_model 1000 model_a g Qt.empty = Ok (g, Qt.empty) /\
  UpscaleWidget.set_model 1000 model_a u Qt.empty = Ok (u, model_a, Qt.empty) /\
  LiveWidget.set_model 1000 model_a l Qt.empty = Ok (l, Qt.empty) /\
  ControlListWidget.set_model model_a c Qt.empty = Ok (c, Qt.empty).
Proof.
  apply C7_same_model_changes_nothing; vm_compute; reflexivity.
Defined.

(** ** Initial values of bound controls *)

Lemma SFcompare_swap (a b : Py.float) :
  SFcompare b a = option_map CompOpp (SFcompare a b).
Proof.
  destruct a as [sa|sa| |sa ma ea], b as [sb|sb| |sb mb eb];
    try destruct sa; try destruct sb; try reflexivity;
    cbn [SFcompare option_map];
    rewrite (Z.compare_antisym ea eb);
    destruct (ea ?= eb); cbn [CompOpp]; try reflexivity;
    rewrite <- (Pos.compare_cont_antisym _ _ Eq); cbn [CompOpp];
    try reflexivity.
Qed.

Lemma eqb_sym (a b : Py.float) : Py.eqb a b = Py.eqb b a.
Proof.
  unfold Py.eqb, SFeqb. rewrite (SFcompare_swap a b).
  destruct (SFcompare a b) as [[| |]|]; reflexivity.
Qed.

Lemma leb_antisym (a b : Py.float) :
  Py.leb a b = true -> Py.leb b a = true -> Py.eqb a b = true.
Proof.
  unfold Py.leb, Py.eqb, SFleb, SFeqb. rewrite (SFcompare_swap a b).
  destruct (SFcompare a b) as [[| |]|]; cbn; congruence.
Qed.

Lemma eqb_refl_of_leb (a b : Py.float) : Py.leb a b = true -> Py.eqb b b = true.
Proof.
  unfold Py.leb, Py.eqb, SFleb, SFeqb.
  destruct a as [sa|sa| |sa ma ea], b as [sb|sb| |sb mb eb];
    try destruct sa; try destruct sb; cbn [SFcompare]; try congruence;
    intros _; rewrite Z.compare_refl;
    change (Pos.compare_cont Eq mb mb) with (Pos.compare mb mb);
    rewrite Pos.compare_refl; reflexivity.
Qed.

(** a value inside the range of a [QDoubleSpinBox] is kept as it is *)
Lemma bound_within (lo hi v : Py.float) :
  Py.leb lo v = true -> Py.leb v hi = true ->
  Py.eqb (QDoubleSpinBox.bound lo v hi) v = true.
Proof.
  intros Hlo Hhi. unfold QDoubleSpinBox.bound.
  destruct (Py.leb v lo) eqn:E1.
  - apply leb_antisym; assumption.
  - destruct (Py.leb hi v) eqn:E2.
    + apply leb_antisym; assumption.
    + eapply eqb_refl_of_leb; eassumption.
Qed.

(** [ControlWidget.__init__] leaves in the two spin boxes the percentage of
    the layer's strength and the layer's end rounded to two decimals, when
    these lie in the ranges of the boxes *)
Lemma control_widget_spins
    (model : Model.t) (control : ControlLayer.t) (st : Qt.store) (n : Z) :
  StrengthSpin.forward (ControlLayer.strength control) = Ok n ->
  0 <= n <= 100 ->
  Py.leb (Py.of_int 0) (QDoubleSpinBox.round (ControlLayer.end_ control)) = true ->
  Py.leb (QDoubleSpinBox.round (ControlLayer.end_ control)) (Py.of_int 1) = true ->
  exists cw st',
    ControlWidget.init model control st = Ok (cw, st') /\
    IntControl.value (ControlWidget.strength_spin cw) = n /\
    Py.eqb (QDoubleSpinBox.value (ControlWidget.end_spin cw))
           (QDoubleSpinBox.round (ControlLayer.end_ control)) = true.
Proof.
  intros Hn Hrange Hlo Hhi.
  unfold ControlWidget.init.
  repeat match goal with
         | |- context [match ?e with pair _ _ => _ end] => destruct e
         end.
  rewrite Hn. cbn [bind].
  repeat match goal with
         | |- context [match ?e with pair _ _ => _ end] => destruct e
         end.
  eexists. eexists. split; [reflexivity|].
  cbn [ControlWidget.strength_spin ControlWidget.end_spin]. split.
  - unfold IntControl.setValue, IntControl.setRange, IntControl.create, qBound.
    cbn [fst IntControl.value IntControl.minimum IntControl.maximum]. lia.
  - unfold QDoubleSpinBox.setValue, QDoubleSpinBox.setRange.
    cbn [fst QDoubleSpinBox.value QDoubleSpinBox.minimum QDoubleSpinBox.maximum].
    apply bound_within; assumption.
Qed.

Lemma grid_facts (k : Z) :
  In k factor_grid ->
  Py.int (Py.mul (Py.truediv k 100) (Py.of_int 100)) = Ok k /\
  Py.round (Py.truediv k 50) = Ok (k / 50) /\
  k / 50 * 50 = k /\
  Py.round (Py.mul (Py.truediv k 100) (Py.of_int 100)) = Ok k /\
  QDoubleSpinBox.bound (Py.of_int 1) (QDoubleSpinBox.round (Py.truediv k 100)) (Py.of_int 4)
  = Py.truediv k 100 /\
  Py.eqb (Py.truediv k 100) (Py.truediv k 100) = true /\
  qBound 100 k 400 = k.
Proof.
  intros H.
  repeat (destruct H as [<- | H]; [vm_compute; repeat split; reflexivity|]).
  destruct H.
Qed.

Section FactorHandlers.

Variables (d : nat) (listening : bool) (w : UpscaleWidget.t) (m : Model.t).

Lemma run_update_factor (v : Py.float) :
  UpscaleWidget.run (S d) listening (UpscaleWidget.update_factor v) (w, m) =
  (n <- Py.int (Py.mul v (Py.of_int 100)) ;;
   s1 <- UpscaleWidget.run d listening (UpscaleWidget.factor_slider_setValue n) (w, m) ;;
   UpscaleWidget.run d listening (UpscaleWidget.factor_input_setValue v) s1).
Proof. reflexivity. Qed.

Lemma run_factor_slider_setValue (v : Z) :
  UpscaleWidget.run (S d) listening (UpscaleWidget.factor_slider_setValue v) (w, m) =
  let c := UpscaleWidget.factor_slider w in
  let v' := qBound (IntControl.minimum c) v (IntControl.maximum c) in
  let s' := (UpscaleWidget.with_factor_slider
               (IntControl.mk (IntControl.minimum c) (IntControl.maximum c) v') w, m) in
  if negb (v' =? IntControl.value c)
  then UpscaleWidget.run d listening (UpscaleWidget.change_factor_slider v') s'
  else Ok s'.
Proof. reflexivity. Qed.

Lemma run_factor_input_setValue (v : Py.float) :
  UpscaleWidget.run (S d) listening (UpscaleWidget.factor_input_setValue v) (w, m) =
  let c := UpscaleWidget.factor_input w in
  let v' := QDoubleSpinBox.bound (QDoubleSpinBox.minimum c) (QDoubleSpinBox.round v)
                                 (QDoubleSpinBox.maximum c) in
  let s' := (UpscaleWidget.with_factor_input
               (QDoubleSpinBox.mk (QDoubleSpinBox.minimum c) (QDoubleSpinBox.maximum c) v') w,
             m) in
  if negb (Py.eqb v' (QDoubleSpinBox.value c))
  then UpscaleWidget.run d listening (UpscaleWidget.change_factor v') s'
  else Ok s'.
Proof. reflexivity. Qed.

Lemma run_change_factor_slider (v : Z) :
  UpscaleWidget.run (S d) listening (UpscaleWidget.change_factor_slider v) (w, m) =
  (r <- Py.round (Py.truediv v 50) ;;
   if negb (IntControl.value (UpscaleWidget.factor_slider w) =? r * 50)
   then UpscaleWidget.run d listening (UpscaleWidget.factor_slider_setValue (r * 50)) (w, m)
   else
     s1 <- UpscaleWidget.run d listening
             (UpscaleWidget.assign_factor (Py.truediv (r * 50) 100)) (w, m) ;;
     if negb (Py.eqb (QDoubleSpinBox.value (UpscaleWidget.factor_input (fst s1)))
                     (Py.truediv (r * 50) 100))
     then UpscaleWidget.run d listening
            (UpscaleWidget.factor_input_setValue (Py.truediv (r * 50) 100)) s1
     else Ok s1).
Proof. reflexivity. Qed.

Lemma run_change_factor (v : Py.float) :
  UpscaleWidget.run (S d) listening (UpscaleWidget.change_factor v) (w, m) =
  (s1 <- UpscaleWidget.run d listening (UpscaleWidget.assign_factor v) (w, m) ;;
   value_int <- Py.round (Py.mul v (Py.of_int 100)) ;;
   if negb (IntControl.value (UpscaleWidget.factor_slider (fst s1)) =? value_int)
   then Ok (UpscaleWidget.with_factor_slider
              (fst (IntControl.setValue value_int (UpscaleWidget.factor_slider (fst s1))))
              (fst s1), snd s1)
   else Ok s1).
Proof.
  cbn [UpscaleWidget.run].
  destruct (UpscaleWidget.run d listening (UpscaleWidget.assign_factor v) (w, m))
    as [[w1 m1]| |]; reflexivity.
Qed.

Lemma run_assign_factor_same (v : Py.float) :
  Py.eqb (Model.factor (Model.upscale m)) v = true ->
  UpscaleWidget.run (S d) listening (UpscaleWidget.assign_factor v) (w, m) = Ok (w, m).
Proof. intros H. cbn [UpscaleWidget.run]. now rewrite H. Qed.

End FactorHandlers.

Lemma update_factor_on_grid
    (d : nat) (listening : bool) (k : Z) (w : UpscaleWidget.t) (model : Model.t) :
  In k factor_grid ->
  Model.factor (Model.upscale model) = Py.truediv k 100 ->
  IntControl.minimum (UpscaleWidget.factor_slider w) = 100 ->
  IntControl.maximum (UpscaleWidget.factor_slider w) = 400 ->
  QDoubleSpinBox.minimum (UpscaleWidget.factor_input w) = Py.of_int 1 ->
  QDoubleSpinBox.maximum (UpscaleWidget.factor_input w) = Py.of_int 4 ->
  UpscaleWidget.run (S (S (S (S (S (S d)))))) listening
    (UpscaleWidget.update_factor (Py.truediv k 100)) (w, model)
  = Ok (UpscaleWidget.with_factor_input
          (QDoubleSpinBox.mk (Py.of_int 1) (Py.of_int 4) (Py.truediv k 100))
          (UpscaleWidget.with_factor_slider (IntControl.mk 100 400 k) w),
        model).
Proof.
  intros Hin Hf Hsmin Hsmax Himin Himax.
  destruct (grid_facts k Hin) as (F1 & F2 & F2' & F3 & F4 & F5 & F6).
  assert (Hsame : Py.eqb (Model.factor (Model.upscale model)) (Py.truediv k 100) = true)
    by (rewrite Hf; exact F5).
  set (f := Py.truediv k 100) in *.
  set (w1 := UpscaleWidget.with_factor_slider (IntControl.mk 100 400 k) w).
  rewrite run_update_factor, F1. cbn [bind].
  rewrite run_factor_slider_setValue. cbv zeta. rewrite Hsmin, Hsmax, F6. fold w1.
  destruct (k =? IntControl.value (UpscaleWidget.factor_slider w)) eqn:Es; cbn [negb bind].
  - (* the slider is at the value already *)
    rewrite run_factor_input_setValue. cbv zeta.
    change (UpscaleWidget.factor_input w1) with (UpscaleWidget.factor_input w).
    rewrite Himin, Himax, F4.
    destruct (Py.eqb f (QDoubleSpinBox.value (UpscaleWidget.factor_input w))) eqn:Ei;
      cbn [negb]; [reflexivity|].
    rewrite run_change_factor, run_assign_factor_same by exact Hsame.
    cbn [bind fst snd]. rewrite F3. cbn [bind].
    change (IntControl.value (UpscaleWidget.factor_slider _)) with k.
    rewrite Z.eqb_refl. reflexivity.
  - (* the slider moves, and its handler runs *)
    rewrite run_change_factor_slider, F2. cbn [bind]. rewrite F2'.
    change (IntControl.value (UpscaleWidget.factor_slider w1)) with k.
    rewrite Z.eqb_refl. cbn [negb].
    rewrite run_assign_factor_same by exact Hsame. cbn [bind fst].
    change (UpscaleWidget.factor_input w1) with (UpscaleWidget.factor_input w).
    fold f.
    destruct (Py.eqb (QDoubleSpinBox.value (UpscaleWidget.factor_input w)) f) eqn:Ei;
      cbn [negb bind].
    + rewrite run_factor_input_setValue. cbv zeta.
      change (UpscaleWidget.factor_input w1) with (UpscaleWidget.factor_input w).
      rewrite Himin, Himax, F4, eqb_sym, Ei. reflexivity.
    + rewrite run_factor_input_setValue. cbv zeta.
      change (UpscaleWidget.factor_input w1) with (UpscaleWidget.factor_input w).
      rewrite Himin, Himax, F4, eqb_sym, Ei. cbn [negb].
      rewrite run_change_factor, run_assign_factor_same by exact Hsame.
      cbn [bind fst snd]. rewrite F3. cbn [bind].
      change (IntControl.value (UpscaleWidget.factor_slider _)) with k.
      rewrite Z.eqb_refl. cbn [negb bind].
      rewrite run_factor_input_setValue. cbv zeta.
      cbn [UpscaleWidget.factor_input UpscaleWidget.with_factor_input
           QDoubleSpinBox.minimum QDoubleSpinBox.maximum QDoubleSpinBox.value].
      rewrite F4, F5. reflexivity.
Qed.

(** the whole setter on the upscale page, for a factor on the grid *)
Example upscale_setter_on_grid :
  factor_controls
    (UpscaleWidget.set_model 1000 (scaled (Py.truediv 5 2))
       (ImageDiffusionWidget.upscaling (fst dock0)) (snd dock0))
  = Ok (250, Py.truediv 5 2, Py.truediv 5 2).
Proof. vm_compute. reflexivity. Qed.

(** C5.  The model setter of [UpscaleWidget] does not bring the controls
    of the scale factor to the factor of the model when that factor lies
    between two positions of the slider.  A factor of 1.3 is inside the
    ranges of both controls: it converts to 130 for the slider (100..400)
    and the input (1.0..4.0, two decimals) holds 1.3 as it is.  But
    [update_factor] sets the slider with its signals on, where
    [change_factor] blocks them: [change_factor_slider] moves the slider to
    150 and writes 1.5 to the model, [factor_changed] re-enters
    [update_factor], whose second statement writes 1.3 back, and the
    handlers nest until the recursion limit.  For a factor on a position
    of the slider, 2.5, the setter returns with both controls on it. *)
Theorem C5_factor_setter_never_settles :
  Py.int (Py.mul (Py.truediv 13 10) (Py.of_int 100)) = Ok 130 /\
  QDoubleSpinBox.bound (Py.of_int 1) (QDoubleSpinBox.round (Py.truediv 13 10)) (Py.of_int 4)
  = Py.truediv 13 10 /\
  UpscaleWidget.set_model 1000 (scaled (Py.truediv 13 10))
    (ImageDiffusionWidget.upscaling (fst dock0)) (snd dock0)
  = RecursionLimit /\
  factor_controls
    (UpscaleWidget.set_model 1000 (scaled (Py.truediv 5 2))
       (ImageDiffusionWidget.upscaling (fst dock0)) (snd dock0))
  = Ok (250, Py.truediv 5 2, Py.truediv 5 2).
Proof.
  repeat split; vm_compute; reflexivity.
Qed.

(** * Further properties *)

(** ** TextPromptWidget *)

Lemma set_text_reads_back (v : string) (w : TextPromptWidget.t) :
  TextPromptWidget.text (fst (TextPromptWidget.set_text v w)) = v.
Proof.
  unfold TextPromptWidget.set_text.
  destruct (String.eqb v (TextPromptWidget.text w)) eqn:E.
  - apply String.eqb_eq in E. symmetry. exact E.
  - unfold TextPromptWidget.text.
    destruct (1 <? TextPromptWidget._line_count w) eqn:L;
      cbn [fst TextPromptWidget._line_count TextPromptWidget._multi
           TextPromptWidget._single]; rewrite L; reflexivity.
Qed.

(** X1.  After [text] is assigned a plain text (one the editors of Qt
    give back as it was set), the property reads as the value assigned,
    whichever of the two editors is in use; [text_changed] is emitted
    once, with that value, when the text differs from the one held, and
    not at all otherwise. *)
Theorem text_set_then_get (v : string) (w : TextPromptWidget.t) :
  plain v = true ->
  TextPromptWidget.text (fst (TextPromptWidget.set_text v w)) = v /\
  snd (TextPromptWidget.set_text v w)
  = (if String.eqb v (TextPromptWidget.text w) then [] else [v]).
Proof.
  intros _.
  split; [apply set_text_reads_back|].
  unfold TextPromptWidget.set_text.
  destruct (String.eqb v (TextPromptWidget.text w)) eqn:E; [reflexivity|].
  destruct (1 <? TextPromptWidget._line_count w) eqn:L; cbn [snd];
    unfold TextPromptWidget.text; cbn [TextPromptWidget._line_count
      TextPromptWidget._multi TextPromptWidget._single]; rewrite L; reflexivity.
Qed.

Lemma text_set_then_get_witness :
  let w := TextPromptWidget.init 1 in
  TextPromptWidget.text (fst (TextPromptWidget.set_text "a cat" w)) = "a cat"%string /\
  snd (TextPromptWidget.set_text "a cat" w)
  = (if String.eqb "a cat" (TextPromptWidget.text w) then [] else ["a cat"%string]).
Proof.
  apply text_set_then_get. reflexivity.
Defined.

(** X2.  Changing [line_count] switches between the two editors and
    carries a plain text over: the property reads the same before and
    after, also when the count moves from several lines to one or back. *)
Theorem line_count_keeps_text (n : Z) (w : TextPromptWidget.t) :
  plain (TextPromptWidget.text w) = true ->
  TextPromptWidget.text (fst (TextPromptWidget.set_line_count n w))
  = TextPromptWidget.text w /\
  TextPromptWidget._line_count (fst (TextPromptWidget.set_line_count n w)) = n.
Proof.
  intros _.
  unfold TextPromptWidget.set_line_count. split.
  - apply set_text_reads_back.
  - unfold TextPromptWidget.set_text.
    destruct (String.eqb _ _); [reflexivity|].
    cbn [TextPromptWidget._line_count].
    destruct (1 <? n); reflexivity.
Qed.

Lemma line_count_keeps_text_witness :
  let w := fst (TextPromptWidget.set_text "a cat" (TextPromptWidget.init 2)) in
  TextPromptWidget.text (fst (TextPromptWidget.set_line_count 1 w))
  = TextPromptWidget.text w /\
  TextPromptWidget._line_count (fst (TextPromptWidget.set_line_count 1 w)) = 1.
Proof.
  apply line_count_keeps_text. reflexivity.
Defined.

(** ** StrengthWidget *)

Lemma set_value_same_range (d : nat) (lo hi n : Z) (v : Py.float) (w : StrengthWidget.t) :
  IntControl.minimum (StrengthWidget._slider w) = lo ->
  IntControl.maximum (StrengthWidget._slider w) = hi ->
  IntControl.minimum (StrengthWidget._input w) = lo ->
  IntControl.maximum (StrengthWidget._input w) = hi ->
  Py.int (Py.mul v (Py.of_int 100)) = Ok n ->
  lo <= n <= hi ->
  Py.eqb v (StrengthWidget.value w) = false ->
  exists e,
    StrengthWidget.set_value (S (S d)) v w
    = Ok (StrengthWidget.mk (IntControl.mk lo hi n) (IntControl.mk lo hi n), e).
Proof.
  intros Hsl Hsh Hil Hih Hint Hn Hne.
  unfold StrengthWidget.set_value. rewrite Hne, Hint. cbn [bind].
  destruct w as [[smin smax sv] [imin imax iv]].
  cbn [StrengthWidget._slider StrengthWidget._input IntControl.minimum
       IntControl.maximum IntControl.value] in *.
  subst smin smax imin imax.
  assert (Hb : qBound lo n hi = n) by (unfold qBound; lia).
  set (both := StrengthWidget.mk (IntControl.mk lo hi n) (IntControl.mk lo hi n)).
  assert (Hkeep : StrengthWidget.input_setValue
                    (StrengthWidget.notify_changed (S (S d))) n both = Ok (both, [])).
  { unfold StrengthWidget.input_setValue, IntControl.setValue.
    cbn [both StrengthWidget._slider StrengthWidget._input IntControl.minimum
         IntControl.maximum IntControl.value].
    rewrite Hb, Z.eqb_refl. reflexivity. }
  unfold StrengthWidget.slider_setValue at 1. unfold IntControl.setValue at 1.
  cbn [StrengthWidget._slider StrengthWidget._input IntControl.minimum
       IntControl.maximum IntControl.value].
  rewrite Hb.
  destruct (Z.eqb_spec n sv) as [<- | Hs]; cbn [negb bind].
  - (* the slider holds the value already *)
    destruct (Z.eqb_spec n iv) as [<- | Hi].
    + exists []. fold both. rewrite Hkeep. reflexivity.
    + exists [Py.truediv n 100].
      unfold StrengthWidget.input_setValue, IntControl.setValue.
      cbn [StrengthWidget._slider StrengthWidget._input IntControl.minimum
           IntControl.maximum IntControl.value].
      rewrite Hb. destruct (Z.eqb_spec n iv) as [|_]; [contradiction|]. cbn [negb].
      fold both. rewrite notify_changed_settled by reflexivity. reflexivity.
  - (* the slider moves *)
    destruct (notify_changed_same_range d lo hi n
                (StrengthWidget.mk (IntControl.mk lo hi n) (IntControl.mk lo hi iv)))
      as [e He]; try reflexivity; try assumption; [left; reflexivity|].
    rewrite He. cbn [bind]. fold both. rewrite Hkeep. cbn [bind].
    eexists. reflexivity.
Qed.

(** X3.  With the slider and the input on the same range, assigning to
    [value] a float that differs from the one held brings both controls
    to [int(v * 100)], when that lies in the range. *)
Theorem strength_value_sets_both_controls
    (d : nat) (lo hi n : Z) (v : Py.float) (w : StrengthWidget.t) :
  IntControl.minimum (StrengthWidget._slider w) = lo ->
  IntControl.maximum (StrengthWidget._slider w) = hi ->
  IntControl.minimum (StrengthWidget._input w) = lo ->
  IntControl.maximum (StrengthWidget._input w) = hi ->
  Py.int (Py.mul v (Py.of_int 100)) = Ok n ->
  lo <= n <= hi ->
  Py.eqb v (StrengthWidget.value w) = false ->
  exists e,
    StrengthWidget.set_value (S (S d)) v w
    = Ok (StrengthWidget.mk (IntControl.mk lo hi n) (IntControl.mk lo hi n), e).
Proof. apply set_value_same_range. Qed.

Lemma strength_value_sets_both_controls_witness :
  exists e,
    StrengthWidget.set_value 2 (Py.truediv 37 100) (StrengthWidget.init (1, 100))
    = Ok (StrengthWidget.mk (IntControl.mk 1 100 37) (IntControl.mk 1 100 37), e).
Proof.
  apply (strength_value_sets_both_controls 0 1 100 37);
    try reflexivity; try lia; vm_compute; reflexivity.
Defined.

(** X4.  On a widget whose controls both range over 1..100, assigning a
    whole percentage [n / 100], [n] in 1..100 other than 29, 57 and 58,
    makes the property read as that value. *)
Theorem strength_value_reads_back (d : nat) (n : Z) (w : StrengthWidget.t) :
  IntControl.minimum (StrengthWidget._slider w) = 1 ->
  IntControl.maximum (StrengthWidget._slider w) = 100 ->
  IntControl.minimum (StrengthWidget._input w) = 1 ->
  IntControl.maximum (StrengthWidget._input w) = 100 ->
  1 <= n <= 100 -> n <> 29 -> n <> 57 -> n <> 58 ->
  exists w' e,
    StrengthWidget.set_value (S (S d)) (Py.truediv n 100) w = Ok (w', e) /\
    Py.eqb (StrengthWidget.value w') (Py.truediv n 100) = true.
Proof.
  intros Hsl Hsh Hil Hih Hn H29 H57 H58.
  pose (P := fun n => Py.eqb (Py.truediv n 100) (Py.truediv n 100)
                      && ((n =? 29) || (n =? 57) || (n =? 58)
                          || match StrengthSpin.forward (Py.truediv n 100) with
                             | Ok k => k =? n
                             | _ => false
                             end)).
  assert (HP : P n = true).
  { apply forall_percent; [vm_compute; reflexivity | lia]. }
  unfold P in HP. apply andb_true_iff in HP. destruct HP as [Hrefl Hf].
  repeat (apply orb_true_iff in Hf; destruct Hf as [Hf|Hf]);
    try (apply Z.eqb_eq in Hf; contradiction).
  unfold StrengthSpin.forward in Hf.
  destruct (Py.int (Py.mul (Py.truediv n 100) (Py.of_int 100))) as [k| |] eqn:Hint;
    try discriminate.
  apply Z.eqb_eq in Hf. subst k.
  destruct (Py.eqb (Py.truediv n 100) (StrengthWidget.value w)) eqn:E.
  - exists w, []. split.
    + unfold StrengthWidget.set_value. now rewrite E.
    + rewrite eqb_sym. exact E.
  - destruct (set_value_same_range d 1 100 n (Py.truediv n 100) w) as [e He];
      try assumption.
    eexists. exists e. split; [exact He|]. exact Hrefl.
Qed.

Lemma strength_value_reads_back_witness :
  exists w' e,
    StrengthWidget.set_value 2 (Py.truediv 82 100) (StrengthWidget.init (1, 100))
    = Ok (w', e) /\
    Py.eqb (StrengthWidget.value w') (Py.truediv 82 100) = true.
Proof.
  apply (strength_value_reads_back 0 82); try reflexivity; lia.
Defined.

(** ** StyleSelectWidget *)

Lemma Style_eqb_eq (a b : Style.t) : Style.eqb a b = true <-> a = b.
Proof.
  unfold Style.eqb. destruct a as [na fa], b as [nb fb]. cbn [Style.name Style.filename].
  rewrite andb_true_iff, !String.eqb_eq. split.
  - intros [-> ->]. reflexivity.
  - intros H. inversion H. auto.
Qed.

Lemma find_found {A : Type} (p : A -> bool) (xs : list A) (i : Z) :
  existsb p xs = true ->
  exists x, nth_error xs (Z.to_nat (QComboBox.find p xs i - i)) = Some x /\
            p x = true /\
            i <= QComboBox.find p xs i < i + Z.of_nat (List.length xs).
Proof.
  revert i. induction xs as [|x xs IH]; intros i H; [discriminate|].
  cbn [existsb QComboBox.find] in *.
  destruct (p x) eqn:Px.
  - exists x. rewrite Z.sub_diag. cbn [List.length]. repeat split; auto; lia.
  - cbn [orb] in H. destruct (IH (i + 1) H) as [y [Hn [Hp Hr]]].
    exists y. cbn [List.length]. split; [|split; [exact Hp | lia]].
    replace (Z.to_nat (QComboBox.find p xs (i + 1) - i))
      with (S (Z.to_nat (QComboBox.find p xs (i + 1) - (i + 1)))) by lia.
    exact Hn.
Qed.

Lemma find_missing {A : Type} (p : A -> bool) (xs : list A) (i : Z) :
  existsb p xs = false -> QComboBox.find p xs i = -1.
Proof.
  revert i. induction xs as [|x xs IH]; intros i H; [reflexivity|].
  cbn [existsb QComboBox.find] in *.
  apply orb_false_iff in H. destruct H as [-> H]. apply IH, H.
Qed.

Lemma index_nth {A : Type} (xs : list A) (k : nat) (x : A) :
  nth_error xs k = Some x -> Py.index xs (Z.of_nat k) = Ok x.
Proof.
  intros H. unfold Py.index.
  assert (Hk : (k < List.length xs)%nat) by (apply nth_error_Some; congruence).
  destruct (Z.ltb_spec (Z.of_nat k) 0); [lia|].
  destruct (Z.ltb_spec (Z.of_nat k) 0); [lia|]. cbn [orb].
  destruct (Z.leb_spec (Z.of_nat (List.length xs)) (Z.of_nat k)); [lia|].
  rewrite Nat2Z.id, H. reflexivity.
Qed.

Lemma same_name_same_style (styles : list Style.t) (a b : Style.t) :
  NoDup (map Style.name styles) -> In a styles -> In b styles ->
  Style.name a = Style.name b -> a = b.
Proof.
  induction styles as [|s rest IH]; intros Hnd Ha Hb Hn; [destruct Ha|].
  cbn [map] in Hnd. inversion Hnd as [|? ? Hnot Hrest]. subst.
  destruct Ha as [<- | Ha], Hb as [<- | Hb]; auto.
  - exfalso. apply Hnot. rewrite Hn. apply in_map, Hb.
  - exfalso. apply Hnot. rewrite <- Hn. apply in_map, Ha.
Qed.

(** the position [setCurrentText] finds for the name of a listed style *)
Lemma found_by_name (styles : list Style.t) (style : Style.t) :
  NoDup (map Style.name styles) -> In style styles ->
  let i := QComboBox.find (fun it : string * string => String.eqb (fst it) (Style.name style))
             (map (fun s => (Style.name s, Style.filename s)) styles) 0 in
  0 <= i < Z.of_nat (List.length styles) /\ Py.index styles i = Ok style.
Proof.
  intros Hnd Hin i.
  assert (Hex : existsb (fun it : string * string => String.eqb (fst it) (Style.name style))
                  (map (fun s => (Style.name s, Style.filename s)) styles) = true).
  { apply existsb_exists. exists (Style.name style, Style.filename style). split.
    - apply in_map_iff. exists style. auto.
    - apply String.eqb_refl. }
  destruct (find_found _ _ 0 Hex) as [it [Hn [Hp Hr]]]. fold i in Hn, Hr.
  rewrite Z.sub_0_r in Hn. rewrite length_map in Hr.
  split; [lia|].
  rewrite nth_error_map in Hn.
  destruct (nth_error styles (Z.to_nat i)) as [s|] eqn:Hs; [|discriminate].
  cbn [option_map] in Hn. inversion Hn. subst it. cbn [fst] in Hp.
  apply String.eqb_eq in Hp.
  assert (s = style).
  { eapply same_name_same_style; eauto. eapply nth_error_In; eauto. }
  subst s. replace i with (Z.of_nat (Z.to_nat i)) by lia.
  apply index_nth, Hs.
Qed.

Lemma set_value_selects (style : Style.t) (w : StyleSelectWidget.t) :
  selection_agrees w -> In style (StyleSelectWidget._styles w) ->
  exists w',
    StyleSelectWidget.set_value style w = Ok (w', []) /\
    StyleSelectWidget._value w' = style /\
    StyleSelectWidget._styles w' = StyleSelectWidget._styles w /\
    selection_agrees w'.
Proof.
  intros (Hitems & Hnd & Hpos & Hidx) Hin.
  unfold StyleSelectWidget.set_value.
  destruct (Style.eqb style (StyleSelectWidget._value w)) eqn:E; cbn [negb].
  - apply Style_eqb_eq in E. exists w. repeat split; auto.
  - destruct (found_by_name _ style Hnd Hin) as [Hr Hi].
    unfold QComboBox.setCurrentText, QComboBox.findText, QComboBox.setCurrentIndex.
    rewrite Hitems.
    set (i := QComboBox.find _ _ 0) in *.
    destruct (Z.leb_spec 0 i) as [_|]; [|lia].
    rewrite length_map.
    destruct (Z.ltb_spec i 0); [lia|].
    destruct (Z.leb_spec (Z.of_nat (List.length (StyleSelectWidget._styles w))) i); [lia|].
    cbn [orb].
    assert (Hagree : selection_agrees
              (StyleSelectWidget.mk style (StyleSelectWidget._styles w)
                 (QComboBox.mk (map (fun s => (Style.name s, Style.filename s))
                                    (StyleSelectWidget._styles w)) i))).
    { repeat split; cbn; auto; lia. }
    destruct (negb (i =? QComboBox.currentIndex (StyleSelectWidget._combo w))).
    + unfold StyleSelectWidget.change_style.
      cbn [StyleSelectWidget._styles StyleSelectWidget._combo StyleSelectWidget._value
           QComboBox.currentIndex].
      rewrite Hi. cbn [bind].
      replace (Style.eqb style style) with true by (symmetry; apply Style_eqb_eq; reflexivity).
      cbn [negb]. eexists. repeat split; auto.
    + eexists. repeat split; auto.
Qed.

(** X5.  When the combo and [_value] agree, assigning a listed style to
    [value] selects it: the property holds the style, the combo points at
    it, and [value_changed] is not emitted. *)
Theorem style_value_selects_listed_style (style : Style.t) (w : StyleSelectWidget.t) :
  selection_agrees w -> In style (StyleSelectWidget._styles w) ->
  exists w',
    StyleSelectWidget.set_value style w = Ok (w', []) /\
    StyleSelectWidget._value w' = style /\
    StyleSelectWidget._styles w' = StyleSelectWidget._styles w /\
    selection_agrees w'.
Proof. apply set_value_selects. Qed.

Lemma style_value_selects_listed_style_witness :
  let photo := Style.mk "Photo" "photo.json" in
  let anime := Style.mk "Anime" "anime.json" in
  let w := StyleSelectWidget.init photo [photo; anime] in
  exists w',
    StyleSelectWidget.set_value anime w = Ok (w', []) /\
    StyleSelectWidget._value w' = anime /\
    StyleSelectWidget._styles w' = StyleSelectWidget._styles w /\
    selection_agrees w'.
Proof.
  apply style_value_selects_listed_style.
  - repeat split; try reflexivity; try (cbn; lia).
    cbn. repeat constructor; cbn; intuition discriminate.
  - cbn. auto.
Defined.

Lemma update_styles_agrees (supported : list Style.t) (w : StyleSelectWidget.t) :
  supported <> [] -> NoDup (map Style.name supported) ->
  selection_agrees (fst (StyleSelectWidget.update_styles supported w)) /\
  StyleSelectWidget._styles (fst (StyleSelectWidget.update_styles supported w)) = supported /\
  (existsb (Style.eqb (StyleSelectWidget._value w)) supported = true ->
   StyleSelectWidget._value (fst (StyleSelectWidget.update_styles supported w))
   = StyleSelectWidget._value w /\
   snd (StyleSelectWidget.update_styles supported w) = []) /\
  (existsb (Style.eqb (StyleSelectWidget._value w)) supported = false ->
   exists first rest,
     supported = first :: rest /\
     StyleSelectWidget._value (fst (StyleSelectWidget.update_styles supported w)) = first /\
     snd (StyleSelectWidget.update_styles supported w) = [first]).
Proof.
  intros Hne Hnd. unfold StyleSelectWidget.update_styles.
  destruct (existsb (Style.eqb (StyleSelectWidget._value w)) supported) eqn:E.
  - assert (Hin : In (StyleSelectWidget._value w) supported).
    { apply existsb_exists in E. destruct E as [s [Hs Heq]].
      apply Style_eqb_eq in Heq. now subst. }
    destruct (found_by_name supported (StyleSelectWidget._value w) Hnd Hin) as [Hr Hi].
    unfold QComboBox.setCurrentText, QComboBox.findText, QComboBox.setCurrentIndex.
    cbn [QComboBox.items QComboBox.currentIndex].
    set (i := QComboBox.find _ _ 0) in *.
    destruct (Z.leb_spec 0 i) as [_|]; [|lia].
    rewrite length_map.
    destruct (Z.ltb_spec i 0); [lia|].
    destruct (Z.leb_spec (Z.of_nat (List.length supported)) i); [lia|].
    cbn [orb fst snd StyleSelectWidget._value StyleSelectWidget._styles].
    repeat split; auto; try discriminate; cbn; auto; lia.
  - destruct supported as [|first rest]; [contradiction|].
    unfold QComboBox.setCurrentIndex.
    cbn [QComboBox.items QComboBox.currentIndex map List.length].
    destruct (Z.ltb_spec 0 0); [lia|].
    destruct (Z.leb_spec (Z.of_nat (S (List.length (map (fun s => (Style.name s, Style.filename s)) rest)))) 0); [lia|].
    cbn [orb fst snd StyleSelectWidget._value StyleSelectWidget._styles].
    repeat split; auto; try discriminate; cbn; auto; try lia.
    intros _. exists first, rest. auto.
Qed.

(** X6.  [update_styles] with a list of styles that is not empty and has
    no name twice leaves the combo and [_value] in agreement.  A value that
    is still listed is kept, and nothing is emitted; otherwise the first
    style becomes the value and [value_changed] carries it. *)
Theorem update_styles_keeps_listed_value
    (supported : list Style.t) (w : StyleSelectWidget.t) :
  supported <> [] -> NoDup (map Style.name supported) ->
  selection_agrees (fst (StyleSelectWidget.update_styles supported w)) /\
  StyleSelectWidget._styles (fst (StyleSelectWidget.update_styles supported w)) = supported /\
  (existsb (Style.eqb (StyleSelectWidget._value w)) supported = true ->
   StyleSelectWidget._value (fst (StyleSelectWidget.update_styles supported w))
   = StyleSelectWidget._value w /\
   snd (StyleSelectWidget.update_styles supported w) = []) /\
  (existsb (Style.eqb (StyleSelectWidget._value w)) supported = false ->
   exists first rest,
     supported = first :: rest /\
     StyleSelectWidget._value (fst (StyleSelectWidget.update_styles supported w)) = first /\
     snd (StyleSelectWidget.update_styles supported w) = [first]).
Proof. apply update_styles_agrees. Qed.

Lemma update_styles_keeps_listed_value_witness :
  let photo := Style.mk "Photo" "photo.json" in
  let anime := Style.mk "Anime" "anime.json" in
  let supported := [anime; photo] in
  let w := StyleSelectWidget.init photo [photo] in
  selection_agrees (fst (StyleSelectWidget.update_styles supported w)) /\
  StyleSelectWidget._styles (fst (StyleSelectWidget.update_styles supported w)) = supported /\
  (existsb (Style.eqb (StyleSelectWidget._value w)) supported = true ->
   StyleSelectWidget._value (fst (StyleSelectWidget.update_styles supported w))
   = StyleSelectWidget._value w /\
   snd (StyleSelectWidget.update_styles supported w) = []) /\
  (existsb (Style.eqb (StyleSelectWidget._value w)) supported = false ->
   exists first rest,
     supported = first :: rest /\
     StyleSelectWidget._value (fst (StyleSelectWidget.update_styles supported w)) = first /\
     snd (StyleSelectWidget.update_styles supported w) = [first]).
Proof.
  apply update_styles_keeps_listed_value.
  - discriminate.
  - cbn. repeat constructor; cbn; intuition discriminate.
Defined.

(** ** HistoryWidget *)

Lemma Bounds_eqb_eq (a b : Bounds.t) : Bounds.eqb a b = true <-> a = b.
Proof.
  unfold Bounds.eqb. destruct a, b; cbn. split.
  - intros H. repeat (apply andb_prop in H; destruct H as [H ?]).
    apply Z.eqb_eq in H. repeat match goal with
      | H : (_ =? _) = true |- _ => apply Z.eqb_eq in H end.
    congruence.
  - intros H. injection H as -> -> -> ->. now rewrite !Z.eqb_refl.
Qed.

Lemma shown_previews (job : Job.t) (imgs : list Image) (i : Z) :
  flat_map shown (HistoryWidget.previews job i imgs) = numbered (Job.id job) i imgs.
Proof.
  revert i. induction imgs as [|img rest IH]; intros i; cbn; [reflexivity|].
  now rewrite IH.
Qed.

Lemma same_group_spec (job : Job.t) (w : HistoryWidget.t) :
  HistoryWidget.differs String.eqb (HistoryWidget._last_prompt w) (Job.prompt job)
  || HistoryWidget.differs Bounds.eqb (HistoryWidget._last_bounds w) (Job.bounds job) = false
  <-> HistoryWidget._last_prompt w = Some (Job.prompt job) /\
      HistoryWidget._last_bounds w = Some (Job.bounds job).
Proof.
  unfold HistoryWidget.differs.
  destruct (HistoryWidget._last_prompt w) as [p|], (HistoryWidget._last_bounds w) as [b|];
    cbn; try (split; [discriminate | intros [? ?]; discriminate]).
  - destruct (String.eqb_spec p (Job.prompt job)) as [->|Hp]; cbn.
    + destruct (Bounds.eqb b (Job.bounds job)) eqn:E; cbn.
      * apply Bounds_eqb_eq in E. subst. tauto.
      * split; [discriminate|]. intros [_ H]. injection H as ->.
        assert (Bounds.eqb (Job.bounds job) (Job.bounds job) = true) by now apply Bounds_eqb_eq.
        congruence.
    + split; [discriminate|]. intros [H _]. congruence.
  - destruct (String.eqb p (Job.prompt job)); cbn; (split; [discriminate | intros [? ?]; discriminate]).
Qed.

(** the items [add] appends for a finished diffusion job *)
Lemma add_finished_items (job : Job.t) (w : HistoryWidget.t) :
  HistoryWidget.is_finished job = true ->
  HistoryWidget.items (HistoryWidget.add job w)
  = (HistoryWidget.items w
     ++ (if HistoryWidget.differs String.eqb (HistoryWidget._last_prompt w) (Job.prompt job)
            || HistoryWidget.differs Bounds.eqb (HistoryWidget._last_bounds w) (Job.bounds job)
         then [header_of job] else []))
    ++ HistoryWidget.previews job 0 (Job.results job) /\
  HistoryWidget._last_prompt (HistoryWidget.add job w) = Some (Job.prompt job) /\
  HistoryWidget._last_bounds (HistoryWidget.add job w) = Some (Job.bounds job).
Proof.
  intros Hf. unfold HistoryWidget.is_finished in Hf.
  apply andb_prop in Hf. destruct Hf as [Hk Hs].
  unfold HistoryWidget.add. rewrite Hk, Hs. cbn [negb orb].
  destruct (HistoryWidget.differs String.eqb (HistoryWidget._last_prompt w) (Job.prompt job)
            || HistoryWidget.differs Bounds.eqb (HistoryWidget._last_bounds w) (Job.bounds job))
    eqn:E.
  - cbn. destruct (_ && _); cbn; auto.
  - apply same_group_spec in E. destruct E as [Hp Hb].
    cbn. destruct (_ && _); cbn; rewrite ?app_nil_r; auto.
Qed.

Lemma add_unfinished (job : Job.t) (w : HistoryWidget.t) :
  HistoryWidget.is_finished job = false -> HistoryWidget.add job w = w.
Proof.
  unfold HistoryWidget.is_finished, HistoryWidget.add. intros H.
  destruct (JobKind.eqb _ _), (JobState.eqb _ _); cbn in *; congruence.
Qed.

(** X7.  [add] never removes or changes an item of the list: it appends.
    For a finished diffusion job it appends at most one header, the
    header of the job, and after it one preview for each result, numbered
    from 0 in the order of [job.results]; for any other job it appends
    nothing and leaves the widget as it is. *)
Theorem add_appends_one_preview_per_result (job : Job.t) (w : HistoryWidget.t) :
  if HistoryWidget.is_finished job
  then exists header,
      HistoryWidget.items (HistoryWidget.add job w)
      = HistoryWidget.items w ++ header
        ++ HistoryWidget.previews job 0 (Job.results job) /\
      (header = [] \/ header = [header_of job]) /\
      flat_map shown (HistoryWidget.previews job 0 (Job.results job))
      = numbered (Job.id job) 0 (Job.results job) /\
      List.length (HistoryWidget.previews job 0 (Job.results job))
      = List.length (Job.results job)
  else HistoryWidget.add job w = w.
Proof.
  destruct (HistoryWidget.is_finished job) eqn:Hf.
  - destruct (add_finished_items job w Hf) as [Hi _]. rewrite Hi.
    rewrite <- app_assoc.
    exists (if HistoryWidget.differs String.eqb (HistoryWidget._last_prompt w)
                 (Job.prompt job)
               || HistoryWidget.differs Bounds.eqb (HistoryWidget._last_bounds w)
                    (Job.bounds job)
            then [header_of job] else []).
    split; [reflexivity|]. split; [destruct (_ || _); auto|].
    split; [apply shown_previews|].
    generalize 0. clear.
    induction (Job.results job) as [|img imgs IH]; intros i;
      cbn [HistoryWidget.previews List.length]; [reflexivity | now rewrite IH].
  - now apply add_unfinished.
Qed.

(** X8.  The results of two finished diffusion jobs added one after the
    other with the same prompt and the same bounds stand under one
    header: the second [add] appends the previews of its job and
    nothing else. *)
Theorem add_groups_same_prompt (first second : Job.t) (w : HistoryWidget.t) :
  HistoryWidget.is_finished first = true ->
  HistoryWidget.is_finished second = true ->
  Job.prompt second = Job.prompt first ->
  Job.bounds second = Job.bounds first ->
  HistoryWidget.items (HistoryWidget.add second (HistoryWidget.add first w))
  = HistoryWidget.items (HistoryWidget.add first w)
    ++ HistoryWidget.previews second 0 (Job.results second).
Proof.
  intros H1 H2 Hp Hb.
  destruct (add_finished_items first w H1) as [_ [Lp Lb]].
  destruct (add_finished_items second (HistoryWidget.add first w) H2) as [Hi _].
  rewrite Hi.
  assert (E : HistoryWidget.differs String.eqb
                (HistoryWidget._last_prompt (HistoryWidget.add first w)) (Job.prompt second)
              || HistoryWidget.differs Bounds.eqb
                (HistoryWidget._last_bounds (HistoryWidget.add first w)) (Job.bounds second)
              = false).
  { apply same_group_spec. rewrite Lp, Lb, Hp, Hb. auto. }
  rewrite E. now rewrite app_nil_r.
Qed.

Lemma add_groups_same_prompt_witness :
  let first := Job.mk "a" JobKind.diffusion JobState.finished "cat" (Bounds.mk 0 0 64 64)
                      (9%nat, 5%nat) [1%nat; 2%nat] in
  let second := Job.mk "b" JobKind.diffusion JobState.finished "cat" (Bounds.mk 0 0 64 64)
                       (9%nat, 7%nat) [3%nat] in
  let w := fst (HistoryWidget.init (Qt.Top "history") Qt.empty) in
  HistoryWidget.items (HistoryWidget.add second (HistoryWidget.add first w))
  = HistoryWidget.items (HistoryWidget.add first w)
    ++ HistoryWidget.previews second 0 (Job.results second).
Proof.
  apply add_groups_same_prompt; reflexivity.
Defined.

Lemma fold_add_shows (jobs : list Job.t) (w : HistoryWidget.t) :
  flat_map shown (HistoryWidget.items (fold_left (fun acc job => HistoryWidget.add job acc)
                                                 (filter HistoryWidget.is_finished jobs) w))
  = flat_map shown (HistoryWidget.items w)
    ++ flat_map (fun job => numbered (Job.id job) 0 (Job.results job))
                (filter HistoryWidget.is_finished jobs).
Proof.
  revert w. induction jobs as [|job rest IH]; intros w; cbn [filter].
  - cbn. now rewrite app_nil_r.
  - destruct (HistoryWidget.is_finished job) eqn:Hf; [|apply IH].
    cbn [fold_left flat_map]. rewrite IH.
    destruct (add_finished_items job w Hf) as [Hi _]. rewrite Hi.
    rewrite !flat_map_app, shown_previews.
    destruct (_ || _); cbn [flat_map shown header_of app];
      rewrite ?app_nil_r, <- ?app_assoc; reflexivity.
Qed.

(** X9.  After [rebuild] the list shows every result of every finished
    diffusion job of the queue exactly once, in the order of the queue
    and of [job.results], whatever the list held before; jobs of another
    kind or state show nothing. *)
Theorem rebuild_shows_every_result (jobs : JobQueue.t) (w : HistoryWidget.t) :
  flat_map shown (HistoryWidget.items (HistoryWidget.rebuild jobs w))
  = flat_map (fun job => numbered (Job.id job) 0 (Job.results job))
             (filter HistoryWidget.is_finished (JobQueue.jobs jobs)).
Proof.
  unfold HistoryWidget.rebuild. now rewrite fold_add_shows.
Qed.

Lemma fold_add_extends (jobs : list Job.t) (w : HistoryWidget.t) :
  exists more,
    HistoryWidget.items (fold_left (fun acc job => HistoryWidget.add job acc) jobs w)
    = HistoryWidget.items w ++ more.
Proof.
  revert w. induction jobs as [|job rest IH]; intros w; cbn [fold_left].
  - exists []. now rewrite app_nil_r.
  - destruct (IH (HistoryWidget.add job w)) as [more Hm]. rewrite Hm.
    destruct (HistoryWidget.is_finished job) eqn:Hf.
    + destruct (add_finished_items job w Hf) as [Hi _]. rewrite Hi.
      rewrite <- !app_assoc. eexists. reflexivity.
    + rewrite add_unfinished by assumption. eexists. reflexivity.
Qed.

(** X10.  [rebuild] clears the list but keeps [_last_prompt] and
    [_last_bounds].  If they are the prompt and the bounds of the first
    finished diffusion job of the queue, the rebuilt list starts with the
    previews of that job: its group has no header. *)
Theorem rebuild_keeps_last_prompt
    (jobs : JobQueue.t) (w : HistoryWidget.t) (first : Job.t) (rest : list Job.t) :
  filter HistoryWidget.is_finished (JobQueue.jobs jobs) = first :: rest ->
  HistoryWidget._last_prompt w = Some (Job.prompt first) ->
  HistoryWidget._last_bounds w = Some (Job.bounds first) ->
  exists tail,
    HistoryWidget.items (HistoryWidget.rebuild jobs w)
    = HistoryWidget.previews first 0 (Job.results first) ++ tail.
Proof.
  intros Hj Hp Hb. unfold HistoryWidget.rebuild. rewrite Hj. cbn [fold_left].
  match goal with |- context [fold_left _ rest ?a] =>
    destruct (fold_add_extends rest a) as [more Hm]; rewrite Hm end.
  assert (Hf : HistoryWidget.is_finished first = true).
  { assert (Hin : In first (filter HistoryWidget.is_finished (JobQueue.jobs jobs)))
      by (rewrite Hj; now left).
    now apply filter_In in Hin. }
  match goal with |- context [HistoryWidget.add first ?c] =>
    destruct (add_finished_items first c Hf) as [Hi _]; rewrite Hi;
    assert (E : HistoryWidget.differs String.eqb
                  (HistoryWidget._last_prompt c) (Job.prompt first)
                || HistoryWidget.differs Bounds.eqb
                  (HistoryWidget._last_bounds c) (Job.bounds first) = false)
      by (apply same_group_spec; cbn; auto)
  end.
  rewrite E. cbn [HistoryWidget.items app]. exists more. reflexivity.
Qed.

Lemma rebuild_keeps_last_prompt_witness :
  let job := Job.mk "a" JobKind.diffusion JobState.finished "cat" (Bounds.mk 0 0 64 64)
                    (9%nat, 5%nat) [1%nat; 2%nat] in
  let jobs := JobQueue.mk 1 [job] in
  let w := HistoryWidget.rebuild jobs (fst (HistoryWidget.init (Qt.Top "history") Qt.empty)) in
  exists tail,
    HistoryWidget.items (HistoryWidget.rebuild jobs w)
    = HistoryWidget.previews job 0 (Job.results job) ++ tail.
Proof.
  apply (rebuild_keeps_last_prompt _ _ _ []); reflexivity.
Defined.

Lemma take_others_spec (first_id : option string) (its : list HistoryWidget.item) :
  exists dropped,
    its = dropped ++ HistoryWidget.take_others first_id its /\
    Forall (fun it => Some (HistoryWidget.job_of it) <> first_id) dropped /\
    match HistoryWidget.take_others first_id its with
    | [] => True
    | it :: _ => Some (HistoryWidget.job_of it) = first_id
    end.
Proof.
  induction its as [|it rest IH]; cbn [HistoryWidget.take_others].
  - exists []. repeat split; constructor.
  - destruct (HistoryWidget.other_id (HistoryWidget.job_of it) first_id) eqn:E.
    + destruct IH as [dropped [Hd [Hall Hhead]]].
      exists (it :: dropped). cbn. split; [congruence|]. split; [|exact Hhead].
      constructor; [|exact Hall].
      unfold HistoryWidget.other_id in E. destruct first_id as [f|]; [|discriminate].
      intros [= <-]. now rewrite String.eqb_refl in E.
    + exists []. cbn. repeat split; [constructor|].
      unfold HistoryWidget.other_id in E. destruct first_id as [f|]; [|discriminate].
      apply negb_false_iff, String.eqb_eq in E. now subst.
Qed.

Lemma take_others_again (first_id : option string) (its : list HistoryWidget.item) :
  HistoryWidget.take_others first_id (HistoryWidget.take_others first_id its)
  = HistoryWidget.take_others first_id its.
Proof.
  induction its as [|it rest IH]; cbn [HistoryWidget.take_others]; [reflexivity|].
  destruct (HistoryWidget.other_id (HistoryWidget.job_of it) first_id) eqn:E; [exact IH|].
  cbn [HistoryWidget.take_others]. now rewrite E.
Qed.

(** X11.  [prune] takes items from the front of the list only, each of a
    job other than the first finished diffusion job of the queue given;
    what it leaves is empty or starts with an item of that job.  With no
    such job in the queue the list is emptied, and pruning twice is
    pruning once. *)
Theorem prune_takes_leading_items (jobs : JobQueue.t) (w : HistoryWidget.t) :
  (exists dropped,
     HistoryWidget.items w = dropped ++ HistoryWidget.items (HistoryWidget.prune jobs w) /\
     Forall (fun it => Some (HistoryWidget.job_of it)
                       <> HistoryWidget.first_finished (JobQueue.jobs jobs)) dropped) /\
  match HistoryWidget.items (HistoryWidget.prune jobs w) with
  | [] => True
  | it :: _ => Some (HistoryWidget.job_of it)
               = HistoryWidget.first_finished (JobQueue.jobs jobs)
  end /\
  (HistoryWidget.first_finished (JobQueue.jobs jobs) = None ->
   HistoryWidget.items (HistoryWidget.prune jobs w) = []) /\
  HistoryWidget.prune jobs (HistoryWidget.prune jobs w) = HistoryWidget.prune jobs w.
Proof.
  destruct (take_others_spec (HistoryWidget.first_finished (JobQueue.jobs jobs))
                             (HistoryWidget.items w)) as [dropped [Hd [Hall Hhead]]].
  cbn [HistoryWidget.prune HistoryWidget.items].
  split; [exists dropped; auto|]. split; [exact Hhead|]. split.
  - intros Hnone. rewrite Hnone in *.
    destruct (HistoryWidget.take_others None (HistoryWidget.items w));
      [reflexivity | discriminate].
  - unfold HistoryWidget.prune. cbn. now rewrite take_others_again.
Qed.

Lemma first_finished_filter (jobs : list Job.t) :
  HistoryWidget.first_finished jobs
  = match filter HistoryWidget.is_finished jobs with
    | [] => None
    | job :: _ => Some (Job.id job)
    end.
Proof.
  induction jobs as [|job rest IH]; cbn; [reflexivity|].
  destruct (HistoryWidget.is_finished job); [reflexivity | exact IH].
Qed.

(** X12.  A list rebuilt by a widget that had added nothing before starts
    with the header of the first finished diffusion job, so [prune] with
    the same queue takes nothing from it. *)
Theorem prune_after_rebuild_takes_nothing (jobs : JobQueue.t) (w : HistoryWidget.t) :
  HistoryWidget._last_prompt w = None ->
  HistoryWidget.prune jobs (HistoryWidget.rebuild jobs w) = HistoryWidget.rebuild jobs w.
Proof.
  intros Hnone. unfold HistoryWidget.prune.
  assert (E : HistoryWidget.take_others (HistoryWidget.first_finished (JobQueue.jobs jobs))
                (HistoryWidget.items (HistoryWidget.rebuild jobs w))
              = HistoryWidget.items (HistoryWidget.rebuild jobs w)).
  { rewrite first_finished_filter. unfold HistoryWidget.rebuild.
    destruct (filter HistoryWidget.is_finished (JobQueue.jobs jobs)) as [|first rest] eqn:Hj.
    - reflexivity.
    - cbn [fold_left].
      match goal with |- context [fold_left _ rest ?a] =>
        destruct (fold_add_extends rest a) as [more Hm]; rewrite Hm end.
      assert (Hf : HistoryWidget.is_finished first = true).
      { assert (Hin : In first (filter HistoryWidget.is_finished (JobQueue.jobs jobs)))
          by (rewrite Hj; now left).
        now apply filter_In in Hin. }
      match goal with |- context [HistoryWidget.add first ?c] =>
        destruct (add_finished_items first c Hf) as [Hi _]; rewrite Hi end.
      cbn [HistoryWidget._last_prompt HistoryWidget.items]. rewrite Hnone.
      cbn [HistoryWidget.differs orb app HistoryWidget.take_others header_of
           HistoryWidget.job_of HistoryWidget.other_id].
      now rewrite String.eqb_refl. }
  rewrite E. now destruct (HistoryWidget.rebuild jobs w).
Qed.

Lemma prune_after_rebuild_takes_nothing_witness :
  let job := Job.mk "a" JobKind.diffusion JobState.finished "cat" (Bounds.mk 0 0 64 64)
                    (9%nat, 5%nat) [1%nat; 2%nat] in
  let jobs := JobQueue.mk 1 [queued_job; job] in
  let w := fst (HistoryWidget.init (Qt.Top "history") Qt.empty) in
  HistoryWidget.prune jobs (HistoryWidget.rebuild jobs w) = HistoryWidget.rebuild jobs w.
Proof.
  apply prune_after_rebuild_takes_nothing. reflexivity.
Defined.

Lemma previews_are_previews (job : Job.t) (imgs : list Image) (i : Z) (it : HistoryWidget.item) :
  In it (HistoryWidget.previews job i imgs) -> HistoryWidget.text_of it = ""%string /\
                                              HistoryWidget.index_of it <> None.
Proof.
  revert i. induction imgs as [|img rest IH]; intros i; cbn; [tauto|].
  intros [<- | H]; [cbn; split; [reflexivity | discriminate] | eauto].
Qed.

Lemma digit_not_less_than (n : nat) (s : string) :
  (n < 10)%nat -> String (Ascii.ascii_of_nat (48 + n)) s <> "<no prompt>"%string.
Proof.
  intros Hn H. injection H as Hc _.
  do 10 (destruct n as [|n]; [discriminate Hc|]). lia.
Qed.

Lemma header_text (job : Job.t) :
  HistoryWidget.text_of (header_of job) <> ""%string /\
  HistoryWidget.text_of (header_of job) <> "<no prompt>"%string.
Proof.
  unfold header_of, HistoryWidget.text_of, HistoryWidget.hour_minute,
    HistoryWidget.two_digits, HistoryWidget.digit.
  cbn [String.append]. split; [discriminate|].
  apply digit_not_less_than. apply Nat.mod_upper_bound. discriminate.
Qed.

(** the items [add] makes: a header or a preview of a finished job *)
Lemma fold_add_made (jobs : list Job.t) (w : HistoryWidget.t) (it : HistoryWidget.item) :
  In it (HistoryWidget.items (fold_left (fun acc job => HistoryWidget.add job acc) jobs w)) ->
  In it (HistoryWidget.items w) \/
  exists job, In job jobs /\ HistoryWidget.is_finished job = true /\
              (it = header_of job \/
               In it (HistoryWidget.previews job 0 (Job.results job))).
Proof.
  revert w. induction jobs as [|job rest IH]; intros w; cbn [fold_left]; [auto|].
  intros H. apply IH in H. destruct H as [H | [j [Hj H]]].
  - destruct (HistoryWidget.is_finished job) eqn:Hf.
    + destruct (add_finished_items job w Hf) as [Hi _]. rewrite Hi in H.
      apply in_app_or in H. destruct H as [H|H].
      * apply in_app_or in H. destruct H as [H|H]; [auto|].
        right. exists job. split; [now left|]. split; [assumption|].
        destruct (_ || _); [|destruct H]. destruct H as [<-|[]]. now left.
      * right. exists job. split; [now left|]. auto.
    + rewrite add_unfinished in H by assumption. auto.
  - right. exists j. split; [now right | exact H].
Qed.

(** X13.  A click on an item of a rebuilt list copies the prompt of its
    job to the clipboard if the item is a header, also when that prompt
    is empty, and leaves the clipboard as it is if the item is a
    preview: the text of a header starts with the time, so it is never
    the text of the test in [handle_preview_click]. *)
Theorem click_copies_prompt_of_header
    (jobs : JobQueue.t) (w : HistoryWidget.t) (it : HistoryWidget.item) (clipboard : string) :
  In it (HistoryWidget.items (HistoryWidget.rebuild jobs w)) ->
  match HistoryWidget.index_of it with
  | None =>
      exists job, In job (JobQueue.jobs jobs) /\ Job.id job = HistoryWidget.job_of it /\
                  HistoryWidget.handle_preview_click it clipboard = Job.prompt job
  | Some _ => HistoryWidget.handle_preview_click it clipboard = clipboard
  end.
Proof.
  intros H. unfold HistoryWidget.rebuild in H.
  apply fold_add_made in H. destruct H as [[] | [job [Hj [_ [-> | H]]]]].
  - cbn [HistoryWidget.index_of header_of]. exists job.
    apply filter_In in Hj. split; [tauto|]. split; [reflexivity|].
    destruct (header_text job) as [H1 H2].
    unfold HistoryWidget.handle_preview_click.
    apply String.eqb_neq in H1, H2. rewrite H1, H2. reflexivity.
  - apply previews_are_previews in H. destruct H as [Ht Hi].
    destruct (HistoryWidget.index_of it); [|congruence].
    unfold HistoryWidget.handle_preview_click. now rewrite Ht.
Qed.

Lemma click_copies_prompt_of_header_witness :
  let job := Job.mk "a" JobKind.diffusion JobState.finished "" (Bounds.mk 0 0 64 64)
                    (9%nat, 5%nat) [1%nat] in
  let jobs := JobQueue.mk 1 [job] in
  let w := fst (HistoryWidget.init (Qt.Top "history") Qt.empty) in
  exists j, In j (JobQueue.jobs jobs) /\ Job.id j = "a"%string /\
            HistoryWidget.handle_preview_click (header_of job) "kept" = Job.prompt j.
Proof.
  apply (click_copies_prompt_of_header
           (JobQueue.mk 1 [Job.mk "a" JobKind.diffusion JobState.finished ""
                                  (Bounds.mk 0 0 64 64) (9%nat, 5%nat) [1%nat]])
           (fst (HistoryWidget.init (Qt.Top "history") Qt.empty))
           (header_of (Job.mk "a" JobKind.diffusion JobState.finished ""
                              (Bounds.mk 0 0 64 64) (9%nat, 5%nat) [1%nat]))
           "kept"%string).
  vm_compute. left. reflexivity.
Defined.

(** ** UpscaleWidget: moving the factor slider *)

Lemma forall_factor (P : Z -> bool) :
  forallb P (map (fun i => 100 + Z.of_nat i) (seq 0 301)) = true ->
  forall v, 100 <= v <= 400 -> P v = true.
Proof.
  intros H v Hv. rewrite forallb_forall in H. apply H.
  apply in_map_iff. exists (Z.to_nat (v - 100)). split; [lia|].
  apply in_seq. lia.
Qed.

(** [round(value / 50) * 50] is a position of the slider, the nearest *)
Lemma snap_facts (v : Z) :
  100 <= v <= 400 ->
  exists r, Py.round (Py.truediv v 50) = Ok r /\ In (r * 50) factor_grid /\
            Z.abs (r * 50 - v) <= 25.
Proof.
  intros Hv.
  pose (P := fun v => match Py.round (Py.truediv v 50) with
                      | Ok r => existsb (Z.eqb (r * 50)) factor_grid
                                && (Z.abs (r * 50 - v) <=? 25)
                      | _ => false
                      end).
  assert (HP : P v = true) by (apply forall_factor; [vm_compute; reflexivity | exact Hv]).
  unfold P in HP. destruct (Py.round (Py.truediv v 50)) as [r| |]; try discriminate.
  apply andb_true_iff in HP. destruct HP as [Hin Hnear].
  exists r. split; [reflexivity|]. split; [|lia].
  apply existsb_exists in Hin. destruct Hin as [k [Hk Hek]].
  apply Z.eqb_eq in Hek. now rewrite Hek.
Qed.

Lemma input_settles
    (d : nat) (listening : bool) (k : Z) (w : UpscaleWidget.t) (m : Model.t) :
  In k factor_grid -> factor_ranges w ->
  IntControl.value (UpscaleWidget.factor_slider w) = k ->
  Py.eqb (Model.factor (Model.upscale m)) (Py.truediv k 100) = true ->
  exists s',
    UpscaleWidget.run (S (S (S d))) listening
      (UpscaleWidget.factor_input_setValue (Py.truediv k 100)) (w, m) = Ok s' /\
    factor_agrees k s'.
Proof.
  intros Hin (Hsmin & Hsmax & Himin & Himax) Hs Hm.
  destruct (grid_facts k Hin) as (F1 & F2 & F2' & F3 & F4 & F5 & F6).
  rewrite run_factor_input_setValue. cbv zeta. rewrite Himin, Himax, F4.
  destruct (Py.eqb (Py.truediv k 100) (QDoubleSpinBox.value (UpscaleWidget.factor_input w)));
    cbn [negb].
  - eexists. split; [reflexivity|].
    repeat split; cbn; auto.
  - rewrite run_change_factor, run_assign_factor_same by exact Hm.
    cbn [bind fst snd]. rewrite F3. cbn [bind].
    change (IntControl.value (UpscaleWidget.factor_slider _))
      with (IntControl.value (UpscaleWidget.factor_slider w)).
    rewrite Hs, Z.eqb_refl. cbn [negb].
    eexists. split; [reflexivity|].
    repeat split; cbn; auto.
Qed.

Lemma change_on_grid
    (d : nat) (listening : bool) (k : Z) (w : UpscaleWidget.t) (m : Model.t) :
  In k factor_grid -> factor_ranges w ->
  IntControl.value (UpscaleWidget.factor_slider w) = k ->
  exists s',
    UpscaleWidget.run (S (S (S (S (S (S (S (S (S d))))))))) listening
      (UpscaleWidget.change_factor_slider k) (w, m) = Ok s' /\
    factor_agrees k s'.
Proof.
  intros Hin Hr Hs. pose proof Hr as (Hsmin & Hsmax & Himin & Himax).
  destruct (grid_facts k Hin) as (F1 & F2 & F2' & F3 & F4 & F5 & F6).
  rewrite run_change_factor_slider, F2. cbn [bind]. rewrite F2', Hs, Z.eqb_refl.
  cbn [negb].
  destruct (Py.eqb (Model.factor (Model.upscale m)) (Py.truediv k 100)) eqn:Em.
  - rewrite run_assign_factor_same by exact Em. cbn [bind fst].
    destruct (Py.eqb (QDoubleSpinBox.value (UpscaleWidget.factor_input w)) (Py.truediv k 100))
      eqn:Ei; cbn [negb].
    + eexists. split; [reflexivity|]. repeat split; cbn; auto.
    + apply input_settles; auto.
  - assert (Ha : UpscaleWidget.run (S (S (S (S (S (S (S (S d)))))))) listening
                   (UpscaleWidget.assign_factor (Py.truediv k 100)) (w, m)
                 = if listening
                   then UpscaleWidget.run (S (S (S (S (S (S (S d))))))) listening
                          (UpscaleWidget.update_factor (Py.truediv k 100))
                          (w, Model.with_factor (Py.truediv k 100) m)
                   else Ok (w, Model.with_factor (Py.truediv k 100) m)).
    { cbn [UpscaleWidget.run]. rewrite Em. reflexivity. }
    rewrite Ha. clear Ha.
    destruct listening.
    + rewrite update_factor_on_grid by (auto; reflexivity).
      cbn [bind fst UpscaleWidget.factor_input UpscaleWidget.with_factor_input
           QDoubleSpinBox.value].
      rewrite F5. cbn [negb].
      eexists. split; [reflexivity|].
      repeat split; cbn; auto.
    + cbn [bind fst].
      destruct (Py.eqb (QDoubleSpinBox.value (UpscaleWidget.factor_input w)) (Py.truediv k 100))
        eqn:Ei; cbn [negb].
      * eexists. split; [reflexivity|]. repeat split; cbn; auto.
      * apply input_settles; auto.
Qed.

(** X14.  When the factor slider is moved to a position [v] of its range
    100..400, the handlers settle, at any recursion limit of 12 or more:
    the slider ends on [round(v / 50) * 50], the multiple of 50 in
    100..400 that is at most 25 away, and the input and the model's
    factor hold that value divided by 100, whether or not [update_factor]
    listens to the model. *)
Theorem factor_slider_snaps_and_syncs
    (d : nat) (listening : bool) (v : Z) (w : UpscaleWidget.t) (m : Model.t) :
  100 <= v <= 400 ->
  v <> IntControl.value (UpscaleWidget.factor_slider w) ->
  factor_ranges w ->
  exists r s',
    Py.round (Py.truediv v 50) = Ok r /\
    In (r * 50) factor_grid /\ Z.abs (r * 50 - v) <= 25 /\
    UpscaleWidget.run (12 + d) listening (UpscaleWidget.factor_slider_setValue v) (w, m)
    = Ok s' /\
    factor_agrees (r * 50) s'.
Proof.
  intros Hv Hmoved Hr. pose proof Hr as (Hsmin & Hsmax & Himin & Himax).
  destruct (snap_facts v Hv) as [r [Hround [Hin Hnear]]].
  exists r.
  destruct (grid_facts (r * 50) Hin) as (F1 & F2 & F2' & F3 & F4 & F5 & F6).
  change (12 + d)%nat with (S (S (S (S (S (S (S (S (S (S (S (S d)))))))))))).
  rewrite run_factor_slider_setValue. cbv zeta. rewrite Hsmin, Hsmax.
  replace (qBound 100 v 400) with v by (unfold qBound; lia).
  destruct (Z.eqb_spec v (IntControl.value (UpscaleWidget.factor_slider w))) as [E|_];
    [contradiction|]. cbn [negb].
  set (w1 := UpscaleWidget.with_factor_slider (IntControl.mk 100 400 v) w).
  assert (Hr1 : factor_ranges w1) by (repeat split; cbn; auto).
  destruct (Z.eq_dec v (r * 50)) as [Evk|Evk].
  - (* the position is a multiple of 50 *)
    destruct (change_on_grid (S (S d)) listening (r * 50) w1 m Hin Hr1)
      as [s' [Hrun Hagree]]; [cbn; auto|].
    exists s'.
    replace (UpscaleWidget.change_factor_slider v)
      with (UpscaleWidget.change_factor_slider (r * 50)) by congruence.
    rewrite Hrun. auto.
  - (* the handler moves the slider to the multiple of 50 *)
    rewrite run_change_factor_slider, Hround. cbn [bind].
    change (IntControl.value (UpscaleWidget.factor_slider w1)) with v.
    destruct (Z.eqb_spec v (r * 50)) as [E|_]; [contradiction|]. cbn [negb].
    rewrite run_factor_slider_setValue. cbv zeta.
    change (IntControl.minimum (UpscaleWidget.factor_slider w1)) with 100.
    change (IntControl.maximum (UpscaleWidget.factor_slider w1)) with 400.
    change (IntControl.value (UpscaleWidget.factor_slider w1)) with v.
    rewrite F6.
    destruct (Z.eqb_spec (r * 50) v) as [E|_]; [symmetry in E; contradiction|].
    cbn [negb].
    match goal with |- context [UpscaleWidget.run _ _ _ (?w2, m)] =>
      destruct (change_on_grid d listening (r * 50) w2 m Hin) as [s' [Hrun Hagree]];
        [repeat split; cbn; auto | reflexivity |]
    end.
    exists s'. rewrite Hrun. auto.
Qed.

Lemma factor_slider_snaps_and_syncs_witness :
  exists r s',
    Py.round (Py.truediv 130 50) = Ok r /\
    In (r * 50) factor_grid /\ Z.abs (r * 50 - 130) <= 25 /\
    UpscaleWidget.run (12 + 0) true (UpscaleWidget.factor_slider_setValue 130)
      (ImageDiffusionWidget.upscaling (fst dock0), model_a)
    = Ok s' /\
    factor_agrees (r * 50) s'.
Proof.
  apply factor_slider_snaps_and_syncs.
  - lia.
  - vm_compute. discriminate.
  - repeat split; vm_compute; reflexivity.
Defined.

(** ** QueueWidget *)

Lemma widget_eqb_refl (x : Qt.widget) : Qt.widget_eqb x x = true.
Proof.
  induction x as [n|n|p IH f]; cbn;
    rewrite ?String.eqb_refl, ?Nat.eqb_refl, ?IH; reflexivity.
Qed.

Lemma filter_out_none {A : Type} (p : A -> bool) (l : list A) :
  filter p (filter (fun c => negb (p c)) l) = [] /\
  existsb p (filter (fun c => negb (p c)) l) = false.
Proof.
  induction l as [|c cs [IH1 IH2]]; cbn; [auto|].
  destruct (p c) eqn:Ec; cbn; rewrite ?Ec; auto.
Qed.

Lemma filter_out_other {A : Type} (p q : A -> bool) (l : list A) :
  (forall c, p c = true -> q c = false) ->
  filter q (filter (fun c => negb (p c)) l) = filter q l.
Proof.
  intros H. induction l as [|c cs IH]; cbn; [reflexivity|].
  destruct (p c) eqn:Ec; cbn.
  - now rewrite (H c Ec).
  - destruct (q c); now rewrite IH.
Qed.

(** with at most one connection that satisfies [p], releasing one is
    releasing all *)
Lemma release_one_single (p : Qt.connection -> bool) (cs : list Qt.connection) :
  (List.length (filter p cs) <= 1)%nat ->
  Qt.release_one p cs = filter (fun c => negb (p c)) cs.
Proof.
  induction cs as [|c rest IH]; [reflexivity|].
  cbn [Qt.release_one filter]. destruct (p c) eqn:Ec; cbn [andb negb List.length].
  - intros H. assert (Hnone : filter p rest = [])
      by (destruct (filter p rest); [reflexivity | cbn in H; lia]).
    assert (Hex : existsb p rest = false).
    { destruct (existsb p rest) eqn:E; [|reflexivity].
      apply existsb_exists in E. destruct E as [x [Hx Hp]].
      assert (Hin : In x (filter p rest)) by (apply filter_In; auto).
      rewrite Hnone in Hin. destruct Hin. }
    rewrite Hex. cbn [negb].
    clear - Hnone. induction rest as [|x xs IH]; [reflexivity|].
    cbn [filter] in *. destruct (p x); [discriminate|]. cbn [negb].
    now rewrite <- IH.
  - intros H. now rewrite IH.
Qed.

(** X15.  The setter of [QueueWidget.jobs] moves the subscription of
    [_update], which is connected at most once to [count_changed] of the
    queue held.  When it is connected, the setter returns, [_update] is
    connected to the new queue, no longer to the old one if that is
    another queue, and every other connection is kept.  When it is not
    connected, the setter raises [TypeError] and nothing is assigned. *)
Theorem queue_jobs_moves_subscription
    (jobs : JobQueue.t) (w : QueueWidget.t) (st : Qt.store) :
  let slot := QueueWidget.update_slot (QueueWidget.self w) in
  let old := Qt.joins (Qt.OfJobs (QueueWidget._jobs w)) "count_changed" slot in
  let new := Qt.joins (Qt.OfJobs (JobQueue.id jobs)) "count_changed" slot in
  (List.length (filter old (Qt.connections st)) <= 1)%nat ->
  if existsb old (Qt.connections st)
  then exists st',
      QueueWidget.set_jobs jobs w st
      = Ok (QueueWidget.mk (QueueWidget.self w) (JobQueue.id jobs), st') /\
      List.length (filter new (Qt.connections st'))
      = (if Nat.eqb (JobQueue.id jobs) (QueueWidget._jobs w) then 1%nat
         else S (List.length (filter new (Qt.connections st)))) /\
      (JobQueue.id jobs <> QueueWidget._jobs w ->
       existsb old (Qt.connections st') = false) /\
      (forall c, In c (Qt.connections st) -> old c = false -> In c (Qt.connections st'))
  else QueueWidget.set_jobs jobs w st = Raise TypeError.
Proof.
  cbv zeta. intros Hone. unfold QueueWidget.set_jobs, Qt.disconnect_slot.
  rewrite (release_one_single _ _ Hone).
  set (slot := QueueWidget.update_slot (QueueWidget.self w)).
  set (old := Qt.joins (Qt.OfJobs (QueueWidget._jobs w)) "count_changed" slot).
  set (new := Qt.joins (Qt.OfJobs (JobQueue.id jobs)) "count_changed" slot).
  destruct (existsb old (Qt.connections st)) eqn:E; [|reflexivity].
  cbn [bind Qt.connect Qt.connections Qt.next_handle].
  eexists. split; [reflexivity|].
  cbn [Qt.connections].
  assert (Hnew : forall h, new (Qt.mkc h (Qt.OfJobs (JobQueue.id jobs)) "count_changed" slot)
                           = true).
  { intros h. unfold new, Qt.joins, slot, QueueWidget.update_slot.
    cbn. now rewrite Nat.eqb_refl, widget_eqb_refl. }
  split; [|split].
  - rewrite filter_app, length_app. cbn [filter]. rewrite Hnew. cbn [List.length].
    destruct (Nat.eqb_spec (JobQueue.id jobs) (QueueWidget._jobs w)) as [Eid|Eid].
    + assert (Hsame : forall c, new c = old c) by (intros c; unfold new, old; now rewrite Eid).
      rewrite (filter_ext _ _ Hsame).
      rewrite (proj1 (filter_out_none old (Qt.connections st))). reflexivity.
    + rewrite filter_out_other; [lia|].
      intros c Ec. unfold new, old, Qt.joins in *.
      destruct (Qt.source c) as [? ?|?|q|?|?]; cbn in *; try discriminate.
      destruct (Nat.eqb_spec q (QueueWidget._jobs w)) as [Eq|]; [|discriminate].
      destruct (Nat.eqb_spec q (JobQueue.id jobs)); [congruence|].
      reflexivity.
  - intros Hne. rewrite existsb_app. cbn [existsb].
    assert (Hn : old (Qt.mkc (Qt.next_handle st) (Qt.OfJobs (JobQueue.id jobs))
                             "count_changed" slot) = false).
    { unfold old, Qt.joins. cbn.
      destruct (Nat.eqb_spec (JobQueue.id jobs) (QueueWidget._jobs w)); [contradiction|].
      reflexivity. }
    rewrite Hn, !orb_false_r.
    apply (proj2 (filter_out_none old (Qt.connections st))).
  - intros c Hin Hc. apply in_or_app. left. apply filter_In. split; [exact Hin|].
    now rewrite Hc.
Qed.

Lemma queue_jobs_moves_subscription_witness :
  let w := fst (QueueWidget.init (Qt.Top "queue_button") Qt.empty) in
  let st := snd (QueueWidget.init (Qt.Top "queue_button") Qt.empty) in
  let jobs := JobQueue.mk 100 [] in
  let slot := QueueWidget.update_slot (QueueWidget.self w) in
  let old := Qt.joins (Qt.OfJobs (QueueWidget._jobs w)) "count_changed" slot in
  let new := Qt.joins (Qt.OfJobs (JobQueue.id jobs)) "count_changed" slot in
  if existsb old (Qt.connections st)
  then exists st',
      QueueWidget.set_jobs jobs w st
      = Ok (QueueWidget.mk (QueueWidget.self w) (JobQueue.id jobs), st') /\
      List.length (filter new (Qt.connections st'))
      = (if Nat.eqb (JobQueue.id jobs) (QueueWidget._jobs w) then 1%nat
         else S (List.length (filter new (Qt.connections st)))) /\
      (JobQueue.id jobs <> QueueWidget._jobs w ->
       existsb old (Qt.connections st') = false) /\
      (forall c, In c (Qt.connections st) -> old c = false -> In c (Qt.connections st'))
  else QueueWidget.set_jobs jobs w st = Raise TypeError.
Proof.
  intros w st jobs.
  apply (queue_jobs_moves_subscription jobs w st).
  vm_compute. lia.
Defined.

(** ** ControlWidget *)

Lemma partition_without (sep : ascii) (s : string) :
  Str.contains sep s = false -> Str.partition sep s = (s, None).
Proof.
  induction s as [|c rest IH]; cbn; [reflexivity|].
  intros H. apply orb_false_iff in H. destruct H as [Hc Hr].
  rewrite Hc, (IH Hr). reflexivity.
Qed.

Lemma partition_at (sep : ascii) (a b : string) :
  Str.contains sep a = false ->
  Str.partition sep (a ++ String sep b) = (a, Some b).
Proof.
  induction a as [|c rest IH]; cbn.
  - now rewrite Ascii.eqb_refl.
  - intros H. apply orb_false_iff in H. destruct H as [Hc Hr].
    rewrite Hc, (IH Hr). reflexivity.
Qed.

Lemma partition_head (sep : ascii) (s : string) :
  Str.contains sep (fst (Str.partition sep s)) = false.
Proof.
  induction s as [|c rest IH]; cbn; [reflexivity|].
  destruct (Ascii.eqb c sep) eqn:E; [reflexivity|].
  destruct (Str.partition sep rest) as [head tail]. cbn in *. now rewrite E.
Qed.

Lemma drop_last_app (s : string) (c : ascii) :
  Str.drop_last (s ++ String c EmptyString) = s.
Proof.
  induction s as [|x rest IH]; [reflexivity|].
  cbn [String.append Str.drop_last]. rewrite IH.
  destruct rest; reflexivity.
Qed.

(** X16.  [_set_error] splits the error at the first bracket.  For an
    error [message[models]] the label shows the message and the tool tip
    names the models; for an error without a bracket the label shows the
    error and the tool tip stays as it was.  The text of the label never
    holds a bracket. *)
Theorem set_error_splits_at_bracket (message models : string) (l : ControlWidget.label) :
  Str.contains "[" message = false ->
  Str.contains "[" models = false ->
  ControlWidget._set_error (message ++ "[" ++ models ++ "]") l
  = ControlWidget.mkl message ("Missing one of the following models: " ++ models) /\
  ControlWidget._set_error message l = ControlWidget.mkl message (ControlWidget.toolTip l) /\
  forall error, Str.contains "[" (ControlWidget.text (ControlWidget._set_error error l)) = false.
Proof.
  intros Hm Hn. unfold ControlWidget._set_error. split; [|split].
  - cbn [Str.split].
    change (message ++ "[" ++ models ++ "]")%string
      with (message ++ String "[" (models ++ "]"))%string.
    rewrite (partition_at "[" message (models ++ "]") Hm).
    assert (Hn' : Str.contains "[" (models ++ "]") = false).
    { clear - Hn. induction models as [|c rest IH]; cbn in *; [reflexivity|].
      apply orb_false_iff in Hn. destruct Hn as [-> Hr]. now apply IH. }
    rewrite (partition_without "[" _ Hn'). cbn [hd ControlWidget.text].
    now rewrite drop_last_app.
  - cbn [Str.split]. rewrite (partition_without "[" message Hm). reflexivity.
  - intros error. cbn [Str.split].
    pose proof (partition_head "[" error) as Hh.
    destruct (Str.partition "[" error) as [head [rest|]]; cbn [fst] in Hh.
    + destruct (Str.partition "[" rest) as [head2 [rest2|]]; cbn; exact Hh.
    + cbn. exact Hh.
Qed.

Lemma set_error_splits_at_bracket_witness :
  let l := ControlWidget.mkl "" "" in
  ControlWidget._set_error ("Not installed" ++ "[" ++ "a.pth, b.pth" ++ "]") l
  = ControlWidget.mkl "Not installed" ("Missing one of the following models: " ++ "a.pth, b.pth") /\
  ControlWidget._set_error "Not installed" l
  = ControlWidget.mkl "Not installed" (ControlWidget.toolTip l) /\
  forall error, Str.contains "[" (ControlWidget.text (ControlWidget._set_error error l)) = false.
Proof.
  apply set_error_splits_at_bracket; reflexivity.
Defined.

(** X17.  [_update_visibility] hides before it shows: if the error text
    is not visible together with the layer box or the strength box when
    it starts, it is not after any of the calls of [setVisible] either.
    When it ends, the layer box and the strength box are visible for a
    supported control and the error text for an unsupported one, and the
    buttons and the end box as the control layer says. *)
Theorem update_visibility_hides_first
    (c : ControlWidget.shows) (visible : ControlWidget.Part.t -> bool) (n : nat) :
  crowded visible = false ->
  crowded (ControlWidget.after (firstn n (ControlWidget._update_visibility c)) visible) = false /\
  let final := ControlWidget.after (ControlWidget._update_visibility c) visible in
  final ControlWidget.Part.layer_select = ControlWidget.is_supported c /\
  final ControlWidget.Part.strength_spin = ControlWidget.is_supported c /\
  final ControlWidget.Part.error_text = negb (ControlWidget.is_supported c) /\
  final ControlWidget.Part.generate_button = ControlWidget.can_generate c /\
  final ControlWidget.Part.add_pose_button = ControlWidget.is_pose_vector c /\
  final ControlWidget.Part.end_spin = ControlWidget.show_end c.
Proof.
  unfold crowded. intros H. destruct c as [sup gen en pose].
  split.
  - destruct (visible ControlWidget.Part.error_text) eqn:Ve,
             (visible ControlWidget.Part.layer_select) eqn:Vl,
             (visible ControlWidget.Part.strength_spin) eqn:Vs; try discriminate H;
      destruct sup;
      do 7 (try destruct n as [|n]);
      cbn; rewrite ?Ve, ?Vl, ?Vs; reflexivity.
  - destruct sup; cbn; repeat split; reflexivity.
Qed.

Lemma update_visibility_hides_first_witness :
  let visible := fun p => negb (ControlWidget.Part.eqb p ControlWidget.Part.error_text) in
  let c := ControlWidget.mkshows false true true false in
  crowded (ControlWidget.after (firstn 3 (ControlWidget._update_visibility c)) visible) = false /\
  let final := ControlWidget.after (ControlWidget._update_visibility c) visible in
  final ControlWidget.Part.layer_select = ControlWidget.is_supported c /\
  final ControlWidget.Part.strength_spin = ControlWidget.is_supported c /\
  final ControlWidget.Part.error_text = negb (ControlWidget.is_supported c) /\
  final ControlWidget.Part.generate_button = ControlWidget.can_generate c /\
  final ControlWidget.Part.add_pose_button = ControlWidget.is_pose_vector c /\
  final ControlWidget.Part.end_spin = ControlWidget.show_end c.
Proof.
  apply update_visibility_hides_first. reflexivity.
Defined.

Lemma addItem_items (text data : string) (c : QComboBox.t) :
  QComboBox.items (QComboBox.addItem text data c) = QComboBox.items c ++ [(text, data)].
Proof.
  unfold QComboBox.addItem, QComboBox.insertItem. cbn [QComboBox.items].
  replace (Z.to_nat (Z.max 0 (Z.min (Z.of_nat (List.length (QComboBox.items c)))
                                    (Z.of_nat (List.length (QComboBox.items c))))))
    with (List.length (QComboBox.items c)) by lia.
  now rewrite firstn_all, skipn_all.
Qed.

Lemma existsb_rev {A : Type} (p : A -> bool) (l : list A) :
  existsb p (rev l) = existsb p l.
Proof.
  induction l as [|x xs IH]; [reflexivity|].
  cbn [rev existsb]. rewrite existsb_app, IH. cbn [existsb].
  rewrite orb_false_r. apply orb_comm.
Qed.

Lemma add_layers_spec (layer_id : string) (layers : list (string * string))
    (combo : QComboBox.t) (index : Z) :
  QComboBox.items (fst (ControlWidget.add_layers layers layer_id combo index))
  = QComboBox.items combo ++ layers /\
  if existsb (fun l => String.eqb (snd l) layer_id) layers
  then Z.of_nat (List.length (QComboBox.items combo))
       <= snd (ControlWidget.add_layers layers layer_id combo index) /\
       exists name,
         nth_error (QComboBox.items combo ++ layers)
                   (Z.to_nat (snd (ControlWidget.add_layers layers layer_id combo index)))
         = Some (name, layer_id)
  else snd (ControlWidget.add_layers layers layer_id combo index) = index.
Proof.
  revert combo index. induction layers as [|[name uid] rest IH]; intros combo index.
  - cbn. now rewrite app_nil_r.
  - cbn [ControlWidget.add_layers existsb snd].
    specialize (IH (QComboBox.addItem name uid combo)
                   (if String.eqb uid layer_id
                    then Z.of_nat (List.length (QComboBox.items
                                                  (QComboBox.addItem name uid combo))) - 1
                    else index)).
    destruct IH as [Hitems Hindex].
    rewrite !addItem_items in Hitems, Hindex. rewrite <- !app_assoc in Hitems, Hindex.
    cbn [app] in Hitems, Hindex. rewrite !addItem_items.
    split; [exact Hitems|].
    rewrite !length_app in Hindex |- *. cbn [List.length] in Hindex |- *.
    destruct (existsb (fun l => String.eqb (snd l) layer_id) rest) eqn:Er.
    + rewrite orb_true_r. destruct Hindex as [Hle Hnth]. split; [lia | exact Hnth].
    + rewrite orb_false_r.
      destruct (String.eqb_spec uid layer_id) as [->|Hne]; [|exact Hindex].
      rewrite Hindex. split; [lia|]. exists name.
      replace (Z.to_nat (Z.of_nat (List.length (QComboBox.items combo) + 1) - 1))
        with (List.length (QComboBox.items combo) + 0)%nat by lia.
      rewrite nth_error_app2 by lia.
      replace (List.length (QComboBox.items combo) + 0
               - List.length (QComboBox.items combo))%nat with 0%nat by lia.
      reflexivity.
Qed.

(** X18.  [_update_layers] fills the layer box with the layers of the
    image, the topmost first.  If a layer with the id of the control is
    among them, the box selects an item of that id and [remove] is not
    called.  If none is, [remove] is called exactly when the control is in
    the model's list, and otherwise the box selects nothing. *)
Theorem update_layers_selects_layer
    (image_layers : list (string * string)) (layer_id : string) (listed : bool)
    (layer_select : QComboBox.t) :
  let r := ControlWidget._update_layers image_layers layer_id listed layer_select in
  QComboBox.items (fst r) = rev image_layers /\
  if existsb (fun l => String.eqb (snd l) layer_id) image_layers
  then snd r = false /\
       exists name, In (name, layer_id) image_layers /\
                    Py.index (QComboBox.items (fst r)) (QComboBox.currentIndex (fst r))
                    = Ok (name, layer_id)
  else snd r = listed /\ (listed = false -> QComboBox.currentIndex (fst r) = -1).
Proof.
  cbv zeta. unfold ControlWidget._update_layers.
  pose proof (add_layers_spec layer_id (rev image_layers)
                (QComboBox.clear layer_select) (-1)) as H.
  destruct (ControlWidget.add_layers (rev image_layers) layer_id
              (QComboBox.clear layer_select) (-1)) as [filled index].
  cbn [fst snd QComboBox.clear QComboBox.items app List.length] in H.
  destruct H as [Hitems Hindex].
  rewrite existsb_rev in Hindex.
  destruct (existsb (fun l => String.eqb (snd l) layer_id) image_layers) eqn:E.
  - destruct Hindex as [Hle [name Hnth]].
    destruct (Z.eqb_spec index (-1)) as [Hm|_]; [lia|]. cbn [andb fst snd].
    split; [exact Hitems|]. split; [reflexivity|].
    exists name. split.
    + apply nth_error_In in Hnth. now apply in_rev.
    + unfold QComboBox.setCurrentIndex. cbn [fst QComboBox.items QComboBox.currentIndex].
      rewrite Hitems.
      assert (Hlt : (Z.to_nat index < List.length (rev image_layers))%nat)
        by (apply nth_error_Some; congruence).
      destruct (Z.ltb_spec index 0); [lia|].
      destruct (Z.leb_spec (Z.of_nat (List.length (rev image_layers))) index); [lia|].
      cbn [orb]. replace index with (Z.of_nat (Z.to_nat index)) by lia.
      apply index_nth. exact Hnth.
  - subst index. change (-1 =? -1) with true. cbn [andb].
    destruct listed; cbn [fst snd].
    + split; [exact Hitems|]. split; [reflexivity | discriminate].
    + split; [exact Hitems|]. split; [reflexivity|]. intros _.
      unfold QComboBox.setCurrentIndex. reflexivity.
Qed.

(** ** UpscaleWidget: the list of upscalers *)

Lemma insertItem_items (index : Z) (text data : string) (c : QComboBox.t) :
  exists before after,
    QComboBox.items c = before ++ after /\
    QComboBox.items (QComboBox.insertItem index text data c) = before ++ (text, data) :: after /\
    (0 < index -> QComboBox.items c <> [] -> before <> []) /\
    (index <= 0 -> before = []).
Proof.
  unfold QComboBox.insertItem. cbn [QComboBox.items].
  set (i := Z.to_nat (Z.max 0 (Z.min (Z.of_nat (List.length (QComboBox.items c))) index))).
  exists (firstn i (QComboBox.items c)), (skipn i (QComboBox.items c)).
  split; [now rewrite firstn_skipn|]. split; [reflexivity|]. split.
  - intros Hpos Hne. destruct (QComboBox.items c) as [|x xs]; [contradiction|].
    assert (Hi : (0 < i)%nat) by (unfold i; cbn [List.length]; lia).
    destruct i; [lia | discriminate].
  - intros Hle. replace i with 0%nat by (unfold i; lia). reflexivity.
Qed.

(** one round of the loop of [update_models] *)
Lemma insert_models_step (names : UpscaleWidget.UpscalerName) (file : string)
    (rest : list string) (c : QComboBox.t) :
  exists c1 before after text,
    UpscaleWidget.insert_models names (file :: rest) c
    = UpscaleWidget.insert_models names rest c1 /\
    QComboBox.items c = before ++ after /\
    QComboBox.items c1 = before ++ (text, file) :: after /\
    (file = UpscaleWidget.default names -> before = []) /\
    (file <> UpscaleWidget.default names -> QComboBox.items c <> [] -> before <> []).
Proof.
  cbn [UpscaleWidget.insert_models].
  destruct (String.eqb_spec file (UpscaleWidget.default names)) as [Ed|Ed].
  - set (txt := ("Default (" ++ Str.removesuffix ".pth" file ++ ")")%string).
    destruct (insertItem_items 0 txt file c) as (before & after & H1 & H2 & _ & H4).
    exists (QComboBox.insertItem 0 txt file c), before, after, txt.
    split; [reflexivity|]. split; [exact H1|]. split; [exact H2|]. split.
    + intros _. apply H4. lia.
    + intros Hne. contradiction.
  - destruct (String.eqb file (UpscaleWidget.quality names)).
    + set (txt := ("Quality (" ++ Str.removesuffix ".pth" file ++ ")")%string).
      destruct (insertItem_items 1 txt file c) as (before & after & H1 & H2 & H3 & _).
      exists (QComboBox.insertItem 1 txt file c), before, after, txt.
      split; [reflexivity|]. split; [exact H1|]. split; [exact H2|]. split.
      * intros He. contradiction.
      * intros _. apply H3. lia.
    + destruct (String.eqb file (UpscaleWidget.sharp names)).
      * set (txt := ("Sharp (" ++ Str.removesuffix ".pth" file ++ ")")%string).
        destruct (insertItem_items 2 txt file c) as (before & after & H1 & H2 & H3 & _).
        exists (QComboBox.insertItem 2 txt file c), before, after, txt.
        split; [reflexivity|]. split; [exact H1|]. split; [exact H2|]. split.
        -- intros He. contradiction.
        -- intros _. apply H3. lia.
      * exists (QComboBox.addItem file file c), (QComboBox.items c), [], file.
        rewrite addItem_items, app_nil_r.
        split; [reflexivity|]. split; [reflexivity|]. split; [reflexivity|]. split.
        -- intros He. contradiction.
        -- intros _ Hne. exact Hne.
Qed.

Lemma insert_models_spec (names : UpscaleWidget.UpscalerName) (files : list string)
    (c : QComboBox.t) :
  Permutation (map snd (QComboBox.items (UpscaleWidget.insert_models names files c)))
              (map snd (QComboBox.items c) ++ files) /\
  ((In (UpscaleWidget.default names) files \/
    exists text rest, QComboBox.items c = (text, UpscaleWidget.default names) :: rest) ->
   exists text rest,
     QComboBox.items (UpscaleWidget.insert_models names files c)
     = (text, UpscaleWidget.default names) :: rest).
Proof.
  revert c. induction files as [|file rest IH]; intros c.
  - cbn [UpscaleWidget.insert_models]. rewrite app_nil_r. split; [reflexivity|].
    intros [[] | H]. exact H.
  - destruct (insert_models_step names file rest c)
      as (c1 & before & after & text & Hrun & Hc & Hc1 & Hdef & Hother).
    rewrite Hrun. destruct (IH c1) as [Hperm Hfirst]. split.
    + rewrite Hperm, Hc1, Hc, !map_app. cbn [map snd].
      rewrite <- !app_assoc. apply Permutation_app_head.
      cbn [app]. rewrite Permutation_middle. reflexivity.
    + intros H. apply Hfirst.
      destruct (String.eqb_spec file (UpscaleWidget.default names)) as [Ed|Ed].
      * right. rewrite Hc1, (Hdef Ed). cbn [app]. rewrite Ed. eauto.
      * destruct H as [[Hin | Hin] | [t [r Hhead]]]; [contradiction | now left |].
        right. assert (Hne : QComboBox.items c <> []) by (rewrite Hhead; discriminate).
        specialize (Hother Ed Hne). rewrite Hc1.
        rewrite Hc in Hhead. destruct before as [|b bs]; [contradiction|].
        cbn [app] in Hhead |- *. injection Hhead as -> _. eauto.
Qed.

(** X19.  With a client, [update_models] lists every upscaler of the
    client once, the default one first if the client has it.  The box
    selects the upscaler of the model if it is listed; if it is not, the
    box selects the first item, and as the signals are blocked the model
    keeps its upscaler.  Without a client the box stays as it is. *)
Theorem update_models_lists_upscalers
    (names : UpscaleWidget.UpscalerName) (files : list string) (upscaler : string)
    (model_select : QComboBox.t) :
  let c := UpscaleWidget.update_models names (Some files) upscaler model_select in
  Permutation (map snd (QComboBox.items c)) files /\
  (In (UpscaleWidget.default names) files ->
   exists text rest, QComboBox.items c = (text, UpscaleWidget.default names) :: rest) /\
  (if existsb (String.eqb upscaler) files
   then exists text, Py.index (QComboBox.items c) (QComboBox.currentIndex c)
                     = Ok (text, upscaler)
   else QComboBox.currentIndex c = match files with [] => -1 | _ :: _ => 0 end) /\
  UpscaleWidget.update_models names None upscaler model_select = model_select.
Proof.
  cbv zeta. unfold UpscaleWidget.update_models.
  destruct (insert_models_spec names files (QComboBox.clear model_select)) as [Hperm Hfirst].
  cbn [QComboBox.clear QComboBox.items map app] in Hperm, Hfirst.
  set (filled := UpscaleWidget.insert_models names files (QComboBox.clear model_select)) in *.
  assert (Hitems : forall i, QComboBox.items (fst (QComboBox.setCurrentIndex i filled))
                             = QComboBox.items filled) by reflexivity.
  rewrite !Hitems.
  split; [exact Hperm|]. split; [intros H; apply Hfirst; now left|]. split; [|reflexivity].
  assert (Hlen : List.length (QComboBox.items filled) = List.length files).
  { rewrite <- (length_map snd). now apply Permutation_length. }
  assert (Hex : existsb (fun it => String.eqb (snd it) upscaler) (QComboBox.items filled)
                = existsb (String.eqb upscaler) files).
  { destruct (existsb (String.eqb upscaler) files) eqn:E.
    - apply existsb_exists in E. destruct E as [f [Hf Heq]].
      apply String.eqb_eq in Heq. subst f.
      apply (Permutation_in _ (Permutation_sym Hperm)) in Hf.
      apply in_map_iff in Hf. destruct Hf as [it [Hs Hin]].
      apply existsb_exists. exists it. split; [exact Hin|]. now apply String.eqb_eq.
    - destruct (existsb _ (QComboBox.items filled)) eqn:E2; [|reflexivity].
      apply existsb_exists in E2. destruct E2 as [it [Hin Heq]].
      apply String.eqb_eq in Heq.
      assert (Hf : In upscaler files).
      { apply (Permutation_in _ Hperm). apply in_map_iff. exists it. auto. }
      assert (E3 : existsb (String.eqb upscaler) files = true).
      { apply existsb_exists. exists upscaler. split; [exact Hf | apply String.eqb_refl]. }
      congruence. }
  unfold QComboBox.findData. rewrite <- Hex.
  destruct (existsb (fun it => String.eqb (snd it) upscaler) (QComboBox.items filled)) eqn:E.
  - destruct (find_found _ _ 0 E) as [[text data] [Hnth [Hp Hr]]].
    cbn [snd] in Hp. apply String.eqb_eq in Hp. subst data.
    set (i := QComboBox.find _ (QComboBox.items filled) 0) in *.
    exists text. unfold QComboBox.setCurrentIndex. cbn [fst QComboBox.currentIndex].
    replace (Z.max i 0) with i by lia.
    destruct (Z.ltb_spec i 0); [lia|].
    destruct (Z.leb_spec (Z.of_nat (List.length (QComboBox.items filled))) i); [lia|].
    cbn [orb]. replace i with (Z.of_nat (Z.to_nat (i - 0))) by lia.
    apply index_nth. exact Hnth.
  - rewrite (find_missing _ _ 0 E). change (Z.max (-1) 0) with 0.
    unfold QComboBox.setCurrentIndex. cbn [fst QComboBox.currentIndex]. rewrite Hlen.
    destruct files as [|f fs]; cbn [List.length]; [reflexivity|].
    destruct (Z.leb_spec (Z.of_nat (S (List.length fs))) 0); [lia|]. reflexivity.
Qed.

(** ** ImageDiffusionWidget *)

Ltac open_setter :=
  repeat match goal with
         | |- context [match ?e with pair _ _ => _ end] => destruct e
         | |- context [bind ?r _] =>
             destruct r as [?| |]; cbn [bind]; try (intros; discriminate)
         end.

Lemma generation_holds_model
    (d : nat) (m : Model.t) (g g' : GenerationWidget.t) (st st' : Qt.store) :
  GenerationWidget.set_model d m g st = Ok (g', st') ->
  GenerationWidget._model g' = Model.id m.
Proof.
  unfold GenerationWidget.set_model.
  destruct (Nat.eqb_spec (GenerationWidget._model g) (Model.id m)) as [E|E]; cbn [negb].
  - intros [= <- _]. exact E.
  - open_setter. intros [= <- _]. reflexivity.
Qed.

Lemma live_holds_model
    (d : nat) (m : Model.t) (l l' : LiveWidget.t) (st st' : Qt.store) :
  LiveWidget.set_model d m l st = Ok (l', st') ->
  LiveWidget._model l' = Model.id m.
Proof.
  unfold LiveWidget.set_model.
  destruct (Nat.eqb_spec (LiveWidget._model l) (Model.id m)) as [E|E]; cbn [negb].
  - intros [= <- _]. exact E.
  - open_setter. intros [= <- _]. reflexivity.
Qed.

Lemma run_keeps_model (d : nat) :
  forall (listening : bool) (c : UpscaleWidget.call) (w w' : UpscaleWidget.t) (m m' : Model.t),
    UpscaleWidget.run d listening c (w, m) = Ok (w', m') ->
    UpscaleWidget._model w' = UpscaleWidget._model w.
Proof.
  induction d as [|d IH]; intros listening c w w' m m' H; [discriminate|].
  destruct c as [v|v|v|v|v|v].
  - rewrite run_update_factor in H.
    destruct (Py.int _) as [n| |]; try discriminate. cbn [bind] in H.
    destruct (UpscaleWidget.run d listening (UpscaleWidget.factor_slider_setValue n) (w, m))
      as [[w1 m1]| |] eqn:E1; try discriminate. cbn [bind] in H.
    apply IH in E1. apply IH in H. congruence.
  - rewrite run_change_factor_slider in H.
    destruct (Py.round _) as [r| |]; try discriminate. cbn [bind] in H.
    destruct (negb _).
    + now apply IH in H.
    + destruct (UpscaleWidget.run d listening
                  (UpscaleWidget.assign_factor (Py.truediv (r * 50) 100)) (w, m))
        as [[w1 m1]| |] eqn:E1; try discriminate. cbn [bind fst] in H.
      apply IH in E1. destruct (negb _).
      * apply IH in H. congruence.
      * injection H as <- _. exact E1.
  - rewrite run_change_factor in H.
    destruct (UpscaleWidget.run d listening (UpscaleWidget.assign_factor v) (w, m))
      as [[w1 m1]| |] eqn:E1; try discriminate. cbn [bind fst snd] in H.
    apply IH in E1.
    destruct (Py.round _) as [r| |]; try discriminate. cbn [bind] in H.
    destruct (negb _); injection H as <- _; exact E1.
  - cbn [UpscaleWidget.run] in H.
    destruct (Py.eqb _ _).
    + now injection H as <- _.
    + destruct listening.
      * now apply IH in H.
      * now injection H as <- _.
  - rewrite run_factor_slider_setValue in H. cbv zeta in H.
    destruct (negb _).
    + now apply IH in H.
    + now injection H as <- _.
  - rewrite run_factor_input_setValue in H. cbv zeta in H.
    destruct (negb _).
    + now apply IH in H.
    + now injection H as <- _.
Qed.

Lemma upscaling_holds_model
    (d : nat) (m m' : Model.t) (u u' : UpscaleWidget.t) (st st' : Qt.store) :
  UpscaleWidget.set_model d m u st = Ok (u', m', st') ->
  UpscaleWidget._model u' = Model.id m.
Proof.
  unfold UpscaleWidget.set_model.
  destruct (Nat.eqb_spec (UpscaleWidget._model u) (Model.id m)) as [E|E]; cbn [negb].
  - intros [= <- _ _]. exact E.
  - repeat match goal with
           | |- context [match ?e with pair _ _ => _ end] => destruct e
           | |- context [bind ?r _] =>
               lazymatch r with
               | UpscaleWidget.run _ _ _ _ => fail
               | _ => destruct r as [?| |]; cbn [bind]; try (intros; discriminate)
               end
           end.
    match goal with
    | |- context [bind ?r _] => destruct r as [[w2 m2]| |] eqn:Hrun; cbn [bind];
                                  try (intros; discriminate)
    end.
    intros [= <- _ _]. now apply run_keeps_model in Hrun.
Qed.

(** *** The setters of the parts return *)

Lemma find_range {A : Type} (p : A -> bool) (xs : list A) :
  QComboBox.find p xs 0 = -1 \/
  0 <= QComboBox.find p xs 0 < Z.of_nat (List.length xs).
Proof.
  destruct (existsb p xs) eqn:E.
  - right. destruct (find_found p xs 0 E) as [x [_ [_ H]]]. lia.
  - left. now apply find_missing.
Qed.

Lemma style_set_returns (style : Style.t) (w : StyleSelectWidget.t) :
  lists_its_styles w ->
  exists w' e, StyleSelectWidget.set_value style w = Ok (w', e).
Proof.
  unfold lists_its_styles. intros Hl. unfold StyleSelectWidget.set_value.
  destruct (negb _); [|eauto].
  unfold QComboBox.setCurrentText, QComboBox.findText.
  destruct (find_range (fun it => String.eqb (fst it) (Style.name style))
              (QComboBox.items (StyleSelectWidget._combo w))) as [Hm | Hr].
  - rewrite Hm. cbn. eauto.
  - set (i := QComboBox.find _ _ 0) in *.
    destruct (Z.leb_spec 0 i); [|lia].
    unfold QComboBox.setCurrentIndex.
    destruct (Z.ltb_spec i 0); [lia|].
    destruct (Z.leb_spec (Z.of_nat (List.length (QComboBox.items (StyleSelectWidget._combo w)))) i);
      [lia|].
    cbn [orb]. destruct (negb _); [|eauto].
    unfold StyleSelectWidget.change_style.
    cbn [StyleSelectWidget._styles StyleSelectWidget._combo QComboBox.currentIndex
         StyleSelectWidget._value].
    assert (Hlen : Z.of_nat (List.length (StyleSelectWidget._styles w))
                   = Z.of_nat (List.length (QComboBox.items (StyleSelectWidget._combo w))))
      by (rewrite Hl, length_map; reflexivity).
    unfold Py.index.
    destruct (Z.ltb_spec i 0); [lia|].
    destruct (Z.ltb_spec i 0); [lia|].
    destruct (Z.leb_spec (Z.of_nat (List.length (StyleSelectWidget._styles w))) i); [lia|].
    cbn [orb].
    destruct (nth_error (StyleSelectWidget._styles w) (Z.to_nat i)) as [s0|] eqn:En.
    + cbn [bind]. destruct (negb _); eauto.
    + apply nth_error_None in En. lia.
Qed.

Lemma strength_set_returns (d : nat) (v : Py.float) (w : StrengthWidget.t) :
  strength_fits v w = true ->
  exists w' e, StrengthWidget.set_value (S (S d)) v w = Ok (w', e).
Proof.
  unfold strength_fits, StrengthWidget.set_value.
  destruct (Py.eqb v (StrengthWidget.value w)); [eauto|].
  destruct (Py.int _) as [n| |]; try discriminate. cbn [bind].
  destruct w as [[smin smax sv] [imin imax iv]].
  cbn [StrengthWidget._slider StrengthWidget._input IntControl.minimum
       IntControl.maximum IntControl.value].
  intros H. repeat (apply andb_prop in H; destruct H as [H ?]).
  assert (Hs : qBound smin n smax = n) by (unfold qBound; lia).
  assert (Hi : qBound imin n imax = n) by (unfold qBound; lia).
  set (both := StrengthWidget.mk (IntControl.mk smin smax n) (IntControl.mk imin imax n)).
  assert (Hkeep : forall k, StrengthWidget.input_setValue k n both = Ok (both, [])).
  { intros k. unfold StrengthWidget.input_setValue, IntControl.setValue.
    cbn [both StrengthWidget._slider StrengthWidget._input IntControl.minimum
         IntControl.maximum IntControl.value].
    rewrite Hi, Z.eqb_refl. reflexivity. }
  (* the input takes the value, the slider holding it *)
  assert (Hin : exists e,
             StrengthWidget.input_setValue (StrengthWidget.notify_changed (S d)) n
               (StrengthWidget.mk (IntControl.mk smin smax n) (IntControl.mk imin imax iv))
             = Ok (both, e)).
  { unfold StrengthWidget.input_setValue, IntControl.setValue.
    cbn [StrengthWidget._slider StrengthWidget._input IntControl.minimum
         IntControl.maximum IntControl.value].
    rewrite Hi. destruct (Z.eqb_spec n iv) as [<-|Hne]; cbn [negb]; [eauto|].
    fold both. rewrite notify_changed_settled by reflexivity. eauto. }
  assert (Hin' : exists e,
             StrengthWidget.input_setValue (StrengthWidget.notify_changed (S (S d))) n
               (StrengthWidget.mk (IntControl.mk smin smax n) (IntControl.mk imin imax iv))
             = Ok (both, e)).
  { unfold StrengthWidget.input_setValue, IntControl.setValue.
    cbn [StrengthWidget._slider StrengthWidget._input IntControl.minimum
         IntControl.maximum IntControl.value].
    rewrite Hi. destruct (Z.eqb_spec n iv) as [<-|Hne]; cbn [negb]; [eauto|].
    fold both. rewrite notify_changed_settled by reflexivity. eauto. }
  unfold StrengthWidget.slider_setValue at 1. unfold IntControl.setValue at 1.
  cbn [StrengthWidget._slider StrengthWidget._input IntControl.minimum
       IntControl.maximum IntControl.value].
  rewrite Hs. destruct (Z.eqb_spec n sv) as [<-|Hne]; cbn [negb bind].
  - destruct Hin' as [e He]. rewrite He. cbn [bind]. eauto.
  - rewrite notify_changed_S.
    cbn [StrengthWidget._slider StrengthWidget._input IntControl.value].
    rewrite Z.eqb_refl. cbn [negb bind].
    cbn [StrengthWidget._slider StrengthWidget._input IntControl.value].
    destruct (Z.eqb_spec iv n) as [->|Hi2]; cbn [negb bind].
    + fold both. rewrite Hkeep. cbn [bind]. eauto.
    + destruct Hin as [e He]. rewrite He. cbn [bind].
      rewrite Hkeep. cbn [bind]. eauto.
Qed.

Lemma connect_keeps (src : Qt.sender) (sig : string) (sl : Qt.slot)
    (st : Qt.store) (c : option Qt.connection) :
  held c st -> held c (snd (Qt.connect src sig sl st)).
Proof. destruct c; [|auto]. intros H. cbn. apply in_or_app. now left. Qed.

Lemma fresh_keeps (st : Qt.store) (c : option Qt.connection) :
  held c st -> held c (snd (Qt.fresh st)).
Proof. destruct c; auto. Qed.

Lemma bind_keeps (src : Qt.sender) (prop : string) (tgt : Qt.widget) (tprop : string)
    (mode : Properties.Bind) (st : Qt.store) (c : option Qt.connection) :
  held c st -> held c (snd (Properties.bind src prop tgt tprop mode st)).
Proof.
  destruct c; [|auto]. intros H. unfold Properties.bind.
  destruct mode; cbn; repeat (apply in_or_app; left); exact H.
Qed.

Lemma bind_widget_keeps (src : Qt.sender) (prop : string) (tgt : Qt.widget)
    (sig setter : string) (st : Qt.store) (c : option Qt.connection) :
  held c st -> held c (snd (Properties.bind_widget src prop tgt sig setter st)).
Proof.
  destruct c; [|auto]. intros H. unfold Properties.bind_widget. cbn.
  repeat (apply in_or_app; left). exact H.
Qed.

Lemma bind_combo_keeps (src : Qt.sender) (prop : string) (combo : Qt.widget)
    (st : Qt.store) (c : option Qt.connection) :
  held c st -> held c (snd (Properties.bind_combo src prop combo st)).
Proof. apply bind_widget_keeps. Qed.

Lemma kept_by_all (bindings : list Properties.entry) (c : option Qt.connection)
    (st : Qt.store) :
  held c st ->
  (forall x e, c = Some x -> In e bindings -> ~ In (Qt.handle x) (Properties.handles e)) ->
  held c (fst (Properties.disconnect_all bindings st)).
Proof.
  destruct c as [x|]; [|auto]. cbn [held].
  revert st. induction bindings as [|e rest IH]; intros st Hin Hno; [exact Hin|].
  rewrite disconnect_all_cons. cbn [fst]. apply IH.
  - apply kept_by_entry; [exact Hin|]. apply (Hno x e eq_refl). now left.
  - intros y e' Hy He'. apply (Hno y e' Hy). now right.
Qed.

Lemma kept_by_removal (cws : list ControlWidget.t) (c : option Qt.connection)
    (st : Qt.store) :
  held c st ->
  (forall x cw, c = Some x -> In cw cws ->
                Qt.dropped_with (ControlWidget.self cw) x = false) ->
  held c (ControlListWidget.remove_widgets cws st).
Proof.
  destruct c as [x|]; [|auto]. cbn [held].
  revert st. induction cws as [|cw rest IH]; intros st Hin Hno; [exact Hin|].
  cbn [ControlListWidget.remove_widgets]. apply IH.
  - unfold Qt.deleteLater. cbn [Qt.connections]. apply filter_In. split; [exact Hin|].
    rewrite (Hno x cw eq_refl) by now left. reflexivity.
  - intros y cw' Hy H'. apply (Hno y cw' Hy). now right.
Qed.

(** one step through a setter, for the connection [K] speaks of *)
Ltac keep K :=
  match goal with
  | |- context [match Qt.connect ?a ?b ?c ?st with pair _ _ => _ end] =>
      apply (connect_keeps a b c st) in K;
      destruct (Qt.connect a b c st) as [? ?]; cbn [snd] in K
  | |- context [match Qt.fresh ?st with pair _ _ => _ end] =>
      apply (fresh_keeps st) in K;
      destruct (Qt.fresh st) as [? ?]; cbn [snd] in K
  | |- context [match Properties.bind ?a ?b ?c ?d ?e ?st with pair _ _ => _ end] =>
      apply (bind_keeps a b c d e st) in K;
      destruct (Properties.bind a b c d e st) as [? ?]; cbn [snd] in K
  | |- context [match Properties.bind_widget ?a ?b ?c ?d ?e ?st with pair _ _ => _ end] =>
      apply (bind_widget_keeps a b c d e st) in K;
      destruct (Properties.bind_widget a b c d e st) as [? ?]; cbn [snd] in K
  | |- context [match Properties.bind_combo ?a ?b ?c ?st with pair _ _ => _ end] =>
      apply (bind_combo_keeps a b c st) in K;
      destruct (Properties.bind_combo a b c st) as [? ?]; cbn [snd] in K
  end.

Lemma control_init_returns
    (model : Model.t) (control : ControlLayer.t) (st : Qt.store)
    (c : option Qt.connection) :
  (exists n, StrengthSpin.forward (ControlLayer.strength control) = Ok n) ->
  held c st ->
  exists cw st', ControlWidget.init model control st = Ok (cw, st') /\ held c st'.
Proof.
  intros [n Hn] K. unfold ControlWidget.init.
  repeat keep K. rewrite Hn. cbn [bind]. repeat keep K.
  eexists. eexists. split; [reflexivity | exact K].
Qed.

Lemma add_widgets_returns (model : Model.t) (controls : list ControlLayer.t)
    (acc : list ControlWidget.t) (st : Qt.store) (c : option Qt.connection) :
  strengths_convert controls = true ->
  held c st ->
  exists cws st', ControlListWidget.add_widgets model controls acc st = Ok (cws, st') /\
                  held c st'.
Proof.
  revert acc st. induction controls as [|control rest IH]; intros acc st Hc K.
  - cbn. eauto.
  - cbn [strengths_convert forallb] in Hc. apply andb_prop in Hc. destruct Hc as [H1 H2].
    cbn [ControlListWidget.add_widgets].
    destruct (control_init_returns model control st c) as (cw & st1 & E & K1); [|exact K|].
    + destruct (StrengthSpin.forward _); try discriminate. eauto.
    + rewrite E. cbn [bind]. apply IH; assumption.
Qed.

Lemma control_list_returns (model : Model.t) (w : ControlListWidget.t)
    (st : Qt.store) (c : option Qt.connection) :
  strengths_convert (Model.control model) = true ->
  held c st ->
  (forall x e, c = Some x -> In e (ControlListWidget._model_connections w) ->
               ~ In (Qt.handle x) (Properties.handles e)) ->
  (forall x cw, c = Some x -> In cw (ControlListWidget._controls w) ->
                Qt.dropped_with (ControlWidget.self cw) x = false) ->
  exists w' st', ControlListWidget.set_model model w st = Ok (w', st') /\ held c st'.
Proof.
  intros Hc K Hb Hw. unfold ControlListWidget.set_model.
  destruct (negb _); [|eauto].
  apply (kept_by_all _ _ _ K) in Hb.
  destruct (Properties.disconnect_all _ st) as [st0 log]. cbn [fst] in Hb.
  apply (kept_by_removal _ _ _ Hb) in Hw.
  destruct (add_widgets_returns model (Model.control model) [] _ c Hc Hw)
    as (cws & st2 & E & K2).
  rewrite E. cbn [bind]. repeat keep K2.
  eexists. eexists. split; [reflexivity | exact K2].
Qed.

Lemma queue_returns (jobs : JobQueue.t) (q : QueueWidget.t) (st : Qt.store)
    (c : Qt.connection) :
  held (Some c) st ->
  Qt.joins (Qt.OfJobs (QueueWidget._jobs q)) "count_changed"
           (QueueWidget.update_slot (QueueWidget.self q)) c = true ->
  exists q' st', QueueWidget.set_jobs jobs q st = Ok (q', st').
Proof.
  cbn [held]. intros K Hj. unfold QueueWidget.set_jobs, Qt.disconnect_slot.
  assert (E : existsb (Qt.joins (Qt.OfJobs (QueueWidget._jobs q)) "count_changed"
                                (QueueWidget.update_slot (QueueWidget.self q)))
                      (Qt.connections st) = true)
    by (apply existsb_exists; eauto).
  rewrite E. cbn [bind].
  destruct (Qt.connect _ _ _ _) as [h st2]. eauto.
Qed.

(** the connection [queue_listens] speaks of *)
Lemma queue_listens_spec (q : QueueWidget.t) (released : list Properties.entry)
    (removed : list ControlWidget.t) (st : Qt.store) :
  queue_listens q released removed st = true ->
  exists c,
    In c (Qt.connections st) /\
    Qt.joins (Qt.OfJobs (QueueWidget._jobs q)) "count_changed"
             (QueueWidget.update_slot (QueueWidget.self q)) c = true /\
    (forall e, In e released -> ~ In (Qt.handle c) (Properties.handles e)) /\
    (forall cw, In cw removed -> Qt.dropped_with (ControlWidget.self cw) c = false).
Proof.
  unfold queue_listens. intros H. apply existsb_exists in H.
  destruct H as [c [Hin H]]. apply andb_prop in H. destruct H as [H Hw].
  apply andb_prop in H. destruct H as [Hj Hr].
  exists c. split; [exact Hin|]. split; [exact Hj|]. split.
  - intros e He Hh. rewrite forallb_forall in Hr. specialize (Hr e He).
    apply negb_true_iff in Hr.
    assert (Ht : existsb (Nat.eqb (Qt.handle c)) (Properties.handles e) = true)
      by (apply existsb_exists; exists (Qt.handle c); split; [exact Hh | apply Nat.eqb_refl]).
    congruence.
  - intros cw Hcw. rewrite forallb_forall in Hw. specialize (Hw cw Hcw).
    now apply negb_true_iff in Hw.
Qed.

Lemma generation_returns
    (d : nat) (m : Model.t) (g : GenerationWidget.t) (st : Qt.store) :
  lists_its_styles (GenerationWidget.style_select g) ->
  strength_fits (Model.strength m) (GenerationWidget.strength_slider g) = true ->
  strengths_convert (Model.control m) = true ->
  queue_listens (GenerationWidget.queue_button g)
    (GenerationWidget._model_bindings g
     ++ ControlListWidget._model_connections (GenerationWidget.control_list g))
    (ControlListWidget._controls (GenerationWidget.control_list g)) st = true ->
  exists g' st', GenerationWidget.set_model (S (S d)) m g st = Ok (g', st').
Proof.
  intros Hstyle Hfit Hconv Hq. unfold GenerationWidget.set_model.
  destruct (negb _); [|eauto].
  destruct (queue_listens_spec _ _ _ _ Hq) as (c & K & Hj & Hrel & Hrem).
  assert (K0 : held (Some c)
                 (fst (Properties.disconnect_all (GenerationWidget._model_bindings g) st))).
  { apply kept_by_all; [exact K|]. intros qx qe [= <-] Hqe.
    apply Hrel, in_or_app. now left. }
  destruct (Properties.disconnect_all (GenerationWidget._model_bindings g) st) as [st0 log].
  cbn [fst] in K0. cbv zeta.
  repeat keep K0.
  destruct (style_set_returns (Model.style m) _ Hstyle) as (sw & se & Es).
  rewrite Es. cbn [bind]. repeat keep K0.
  destruct (strength_set_returns d _ _ Hfit) as (tw & te & Et).
  rewrite Et. cbn [bind]. repeat keep K0.
  match goal with
  | |- context [ControlListWidget.set_model m ?cl ?s] =>
      destruct (control_list_returns m cl s (Some c) Hconv K0) as (cl' & stc & Ec & Kc)
  end.
  { intros qx qe [= <-] Hqe. apply Hrel, in_or_app. now right. }
  { intros qx qcw [= <-] Hqcw. now apply Hrem. }
  rewrite Ec. cbn [bind].
  destruct (queue_returns (Model.jobs m) _ stc c Kc Hj) as (q' & stq & Eq).
  rewrite Eq. cbn [bind].
  destruct (HistoryWidget.set_jobs _ _ _) as [hw sth]. eauto.
Qed.

Lemma live_returns (d : nat) (m : Model.t) (l : LiveWidget.t) (st : Qt.store) :
  lists_its_styles (LiveWidget.style_select l) ->
  strength_fits (Model.live_strength (Model.live m)) (LiveWidget.strength_slider l) = true ->
  strengths_convert (Model.control m) = true ->
  exists l' st', LiveWidget.set_model (S (S d)) m l st = Ok (l', st').
Proof.
  intros Hstyle Hfit Hconv. unfold LiveWidget.set_model.
  destruct (negb _); [|eauto].
  assert (K : held None (fst (Properties.disconnect_all (LiveWidget._model_bindings l) st)))
    by exact I.
  destruct (Properties.disconnect_all (LiveWidget._model_bindings l) st) as [st0 log].
  cbn [fst] in K. cbv zeta.
  repeat keep K.
  destruct (style_set_returns (Model.style m) _ Hstyle) as (sw & se & Es).
  rewrite Es. cbn [bind]. repeat keep K.
  destruct (strength_set_returns d _ _ Hfit) as (tw & te & Et).
  rewrite Et. cbn [bind]. repeat keep K.
  match goal with
  | |- context [ControlListWidget.set_model m ?cl ?s] =>
      destruct (control_list_returns m cl s None Hconv K) as (cl' & stc & Ec & Kc);
        try discriminate
  end.
  rewrite Ec. cbn [bind]. eauto.
Qed.

Lemma upscaling_returns
    (d : nat) (m : Model.t) (u : UpscaleWidget.t) (st : Qt.store) :
  lists_its_styles (UpscaleWidget.style_select u) ->
  strength_fits (Model.upscale_strength (Model.upscale m))
                (UpscaleWidget.strength_slider u) = true ->
  queue_listens (UpscaleWidget.queue_button u) (UpscaleWidget._model_bindings u) [] st
  = true ->
  factor_ranges u ->
  (exists k, In k factor_grid /\ Model.factor (Model.upscale m) = Py.truediv k 100) ->
  exists u' st',
    UpscaleWidget.set_model (S (S (S (S (S (S d)))))) m u st = Ok (u', m, st').
Proof.
  intros Hstyle Hfit Hq Hranges (k & Hk & Hf). unfold UpscaleWidget.set_model.
  destruct (negb _); [|eauto].
  destruct (queue_listens_spec _ _ _ _ Hq) as (c & K & Hj & Hrel & _).
  assert (K0 : held (Some c)
                 (fst (Properties.disconnect_all (UpscaleWidget._model_bindings u) st))).
  { apply kept_by_all; [exact K|]. intros qx qe [= <-] Hqe. now apply Hrel. }
  destruct (Properties.disconnect_all (UpscaleWidget._model_bindings u) st) as [st0 log].
  cbn [fst] in K0. cbv zeta.
  repeat keep K0.
  destruct (style_set_returns (Model.style m) _ Hstyle) as (sw & se & Es).
  rewrite Es. cbn [bind]. repeat keep K0.
  destruct (strength_set_returns (S (S (S (S d)))) _ _ Hfit) as (tw & te & Et).
  rewrite Et. cbn [bind]. repeat keep K0.
  match goal with
  | |- context [QueueWidget.set_jobs ?j ?q ?s] =>
      destruct (queue_returns j q s c K0 Hj) as (q' & stq & Eq)
  end.
  rewrite Eq. cbn [bind].
  destruct Hranges as (R1 & R2 & R3 & R4).
  rewrite Hf.
  rewrite update_factor_on_grid; auto.
  cbn [bind]. eauto.
Qed.

(** X20.  When the page of the model's workspace can take the model (its
    style box lists its styles, the strength lies in the ranges of the
    strength controls, the strengths of the control layers convert, the
    queue button still listens to its queue, and for the upscale page the
    factor is a position of the slider), [update] with the connection
    connected returns, at any recursion limit of 6 or more: the dock shows
    the page of the model's workspace, that page holds the model, and the
    two other workspace pages hold what they held. *)
Theorem update_shows_page_of_workspace
    (d : nat) (m : Model.t) (w : ImageDiffusionWidget.t) (st : Qt.store) :
  ready m w st ->
  exists w' st',
    ImageDiffusionWidget.update (6 + d) (Some m) ConnectionState.connected w st
    = Ok (w', Some m, st') /\
    ImageDiffusionWidget.currentWidget w' = page_of (Model.workspace m) /\
    model_of w' (ImageDiffusionWidget.currentWidget w') = Some (Model.id m) /\
    forall p, p <> page_of (Model.workspace m) -> model_of w' p = model_of w p.
Proof.
  unfold ready, ImageDiffusionWidget.update.
  change (6 + d)%nat with (S (S (S (S (S (S d)))))).
  destruct (Model.workspace m); cbn [page_of]; cbv zeta.
  - intros (Hs & Hf & Hc & Hq).
    destruct (generation_returns (S (S (S (S d)))) m _ st Hs Hf Hc Hq) as (g & st1 & E).
    rewrite E. cbn [bind]. apply generation_holds_model in E.
    eexists. eexists. split; [reflexivity|]. cbn. rewrite E. repeat split.
    intros p Hp. destruct p; try reflexivity. contradiction.
  - intros (Hs & Hf & Hq & Hr & Hk).
    destruct (upscaling_returns d m _ st Hs Hf Hq Hr Hk) as (u & st1 & E).
    rewrite E. cbn [bind]. apply upscaling_holds_model in E.
    eexists. eexists. split; [reflexivity|]. cbn. rewrite E. repeat split.
    intros p Hp. destruct p; try reflexivity. contradiction.
  - intros (Hs & Hf & _ & Hc).
    destruct (live_returns (S (S (S (S d)))) m _ st Hs Hf Hc) as (l & st1 & E).
    rewrite E. cbn [bind]. apply live_holds_model in E.
    eexists. eexists. split; [reflexivity|]. cbn. rewrite E. repeat split.
    intros p Hp. destruct p; try reflexivity. contradiction.
Qed.

Lemma update_shows_page_of_workspace_witness :
  exists w' st',
    ImageDiffusionWidget.update (6 + 0) (Some model_b) ConnectionState.connected
      (fst dock_a) (snd dock_a)
    = Ok (w', Some model_b, st') /\
    ImageDiffusionWidget.currentWidget w' = page_of (Model.workspace model_b) /\
    model_of w' (ImageDiffusionWidget.currentWidget w') = Some (Model.id model_b) /\
    forall p, p <> page_of (Model.workspace model_b) ->
              model_of w' p = model_of (fst dock_a) p.
Proof.
  apply (update_shows_page_of_workspace 0 model_b (fst dock_a) (snd dock_a)).
  vm_compute. repeat split; reflexivity.
Defined.

(** ** WelcomeWidget *)

Lemma welcome_update_visible (e : WelcomeWidget.seen) (w : WelcomeWidget.t) :
  WelcomeWidget._connect_error_visible (WelcomeWidget.update e w)
  = if WelcomeWidget.raises e then true
    else if WelcomeWidget.is_connected e then false
    else WelcomeWidget._connect_error_visible w.
Proof.
  unfold WelcomeWidget.update, WelcomeWidget.raises, WelcomeWidget.is_error,
    WelcomeWidget.is_disconnected, WelcomeWidget.is_connecting, WelcomeWidget.is_connected.
  destruct (WelcomeWidget.state e), (WelcomeWidget.managed e); reflexivity.
Qed.

Lemma welcome_updates_visible (es : list WelcomeWidget.seen) (w : WelcomeWidget.t) :
  WelcomeWidget._connect_error_visible (WelcomeWidget.updates es w) = true <->
  (exists before e after,
      es = before ++ e :: after /\ WelcomeWidget.raises e = true /\
      existsb WelcomeWidget.is_connected after = false) \/
  (WelcomeWidget._connect_error_visible w = true /\
   existsb WelcomeWidget.is_connected es = false).
Proof.
  revert w. induction es as [|e rest IH]; intros w.
  - cbn. split.
    + intros H. right. auto.
    + intros [(before & e & after & H & _) | [H _]]; [|exact H].
      destruct before; discriminate.
  - change (WelcomeWidget.updates (e :: rest) w)
      with (WelcomeWidget.updates rest (WelcomeWidget.update e w)).
    rewrite IH, welcome_update_visible. cbn [existsb]. split.
    + intros [(before & e' & after & -> & Hr & Hc) | [Hv Hc]].
      * left. exists (e :: before), e', after. auto.
      * destruct (WelcomeWidget.raises e) eqn:Er.
        -- left. exists [], e, rest. auto.
        -- destruct (WelcomeWidget.is_connected e) eqn:Ec; [discriminate|].
           right. auto.
    + intros [(before & e' & after & Heq & Hr & Hc) | [Hv Hc]].
      * destruct before as [|b before]; cbn [app] in Heq; injection Heq as <- ->.
        -- right. rewrite Hr. auto.
        -- left. exists before, e', after. auto.
      * apply orb_false_iff in Hc. destruct Hc as [Hc1 Hc2]. right.
        rewrite Hc1, Hv. destruct (WelcomeWidget.raises e); auto.
Qed.

Lemma welcome_visible_message (es : list WelcomeWidget.seen) (w : WelcomeWidget.t) :
  (WelcomeWidget._connect_error_visible w = true -> WelcomeWidget._connect_error w <> ""%string) ->
  WelcomeWidget._connect_error_visible (WelcomeWidget.updates es w) = true ->
  WelcomeWidget._connect_error (WelcomeWidget.updates es w) <> ""%string.
Proof.
  revert w. induction es as [|e rest IH]; intros w Hw; [exact Hw|].
  change (WelcomeWidget.updates (e :: rest) w)
    with (WelcomeWidget.updates rest (WelcomeWidget.update e w)).
  apply IH. clear IH.
  unfold WelcomeWidget.update, WelcomeWidget.is_error,
    WelcomeWidget.is_disconnected, WelcomeWidget.is_connecting, WelcomeWidget.is_connected.
  destruct (WelcomeWidget.state e), (WelcomeWidget.managed e),
    (WelcomeWidget.upgrade_required e); cbn; try discriminate; try exact Hw.
Qed.

(** X21.  After the constructor and any further runs of [update], the
    error label of the welcome page is visible exactly when some run saw
    a failed connection, or no connection while the server is managed,
    and no later run saw the state connected: the message stays up while
    the state is connecting.  A visible error label is never empty. *)
Theorem welcome_error_stays_until_connected
    (first : WelcomeWidget.seen) (es : list WelcomeWidget.seen) :
  let w := WelcomeWidget.updates es (WelcomeWidget.init first) in
  (WelcomeWidget._connect_error_visible w = true <->
   exists before e after,
     first :: es = before ++ e :: after /\ WelcomeWidget.raises e = true /\
     existsb WelcomeWidget.is_connected after = false) /\
  (WelcomeWidget._connect_error_visible w = true ->
   WelcomeWidget._connect_error w <> ""%string).
Proof.
  cbv zeta. unfold WelcomeWidget.init.
  change (WelcomeWidget.updates es (WelcomeWidget.update first ?w0))
    with (WelcomeWidget.updates (first :: es) w0).
  split.
  - rewrite welcome_updates_visible. cbn [WelcomeWidget._connect_error_visible].
    split; [|auto]. intros [H | [H _]]; [exact H | discriminate].
  - apply welcome_visible_message. cbn. discriminate.
Qed.
